(** * powerka: list-view synchronisation scripts

    A shallow embedding of the browser scripts of the verification list
    (src/unnamed/part_000), the appeals list (appeals_script.js and the
    delete modal, src/unnamed/part_001) and the order-create form
    (orders_control/js/create.js), with the properties the specification
    states about them.

    Conventions of the embedding.
    - A JavaScript string is a [string] holding its UTF-8 bytes; string
      literals of the sources are copied as they are.
    - A JavaScript number is an integer of [Z]; the page numbers, counters
      and act numbers that the scripts compute with are integers, and
      fractions and NaN are outside the model ([None] where a conversion
      would give NaN).  The scripts compute with doubles, which hold the
      integers up to 2^53 exactly: where a handler subtracts from a number
      that it reads from the page, a larger number is outside the model
      ([None], see [decrement]).
    - The row templates are assigned to [innerHTML] without escaping.  The
      model holds the rows that the browser builds from them when no value
      holds markup ([HTML.inert]); for values with markup it holds no rows,
      or the value is outside the type of the input ([HTML.text]).
    - An asynchronous function is split where it awaits the network: the
      part that runs up to the request, and the part that runs on its
      outcome.  The state records every effect in [events], in program
      order. *)

From Stdlib Require Import ZArith Ascii String List Bool Lia.
From Stdlib Require Import DecimalString DecimalPos DecimalZ.
From stdpp Require Import base option gmap strings.
Import ListNotations.

#[local] Open Scope string_scope.
#[local] Open Scope Z_scope.
#[local] Open Scope list_scope.

(** ** JavaScript values and strings *)

Module JS.

(** The values the scripts handle; [VIds] is an array of identifiers. *)
Inductive value : Type :=
| VUndefined
| VNull
| VBool (b : bool)
| VNum (n : Z)
| VStr (s : string)
| VIds (ids : list Z).

(** [String(n)] and [`${n}`] of an integer. *)
Definition string_of_Z (n : Z) : string := NilZero.string_of_int (Z.to_int n).

(** [String(v)] *)
Definition String_ (v : value) : string :=
  match v with
  | VUndefined => "undefined"
  | VNull => "null"
  | VBool true => "true"
  | VBool false => "false"
  | VNum n => string_of_Z n
  | VStr s => s
  | VIds ids => String.concat "," (map string_of_Z ids)
  end.

(** Truthiness ([if (v)], [v || d]). *)
Definition truthy (v : value) : bool :=
  match v with
  | VUndefined | VNull => false
  | VBool b => b
  | VNum n => negb (n =? 0)
  | VStr s => negb (String.eqb s "")
  | VIds _ => true
  end.

(** The code points of WhiteSpace and LineTerminator, which [trim]
    removes, as UTF-8 byte sequences. *)
Definition whitespace : list (list N) :=
  [ [0x09]; [0x0A]; [0x0B]; [0x0C]; [0x0D]; [0x20];
    [0xC2; 0xA0]; [0xE1; 0x9A; 0x80];
    [0xE2; 0x80; 0x80]; [0xE2; 0x80; 0x81]; [0xE2; 0x80; 0x82];
    [0xE2; 0x80; 0x83]; [0xE2; 0x80; 0x84]; [0xE2; 0x80; 0x85];
    [0xE2; 0x80; 0x86]; [0xE2; 0x80; 0x87]; [0xE2; 0x80; 0x88];
    [0xE2; 0x80; 0x89]; [0xE2; 0x80; 0x8A];
    [0xE2; 0x80; 0xA8]; [0xE2; 0x80; 0xA9]; [0xE2; 0x80; 0xAF];
    [0xE2; 0x81; 0x9F]; [0xE3; 0x80; 0x80]; [0xEF; 0xBB; 0xBF] ]%N.

Fixpoint starts_with (p : list N) (l : list ascii) : bool :=
  match p, l with
  | [], _ => true
  | b :: p', c :: l' => (N_of_ascii c =? b)%N && starts_with p' l'
  | _ :: _, [] => false
  end.

(** Byte length of the white-space code point among [ws] at the head of
    [l], 0 when there is none. *)
Definition ws_len (ws : list (list N)) (l : list ascii) : nat :=
  match find (fun p => starts_with p l) ws with
  | Some p => length p
  | None => 0%nat
  end.

Fixpoint strip_ws (ws : list (list N)) (fuel : nat) (l : list ascii)
  : list ascii :=
  match fuel with
  | O => l
  | S fuel' =>
      match ws_len ws l with
      | O => l
      | n => strip_ws ws fuel' (skipn n l)
      end
  end.

Definition trimStart_bytes (l : list ascii) : list ascii :=
  strip_ws whitespace (length l) l.

Definition trimEnd_bytes (l : list ascii) : list ascii :=
  rev (strip_ws (map (@rev N) whitespace) (length l) (rev l)).

(** [s.trim()] *)
Definition trim (s : string) : string :=
  string_of_list_ascii
    (trimEnd_bytes (trimStart_bytes (list_ascii_of_string s))).

(** [Number(s)]: white space around the text is dropped, the empty text
    is 0, and a decimal integer literal, with or without sign, is its value.
    [None] stands for NaN and for the numeric forms outside the model
    (fractions, exponents, hexadecimal). *)
Definition Number (s : string) : option Z :=
  match trim s with
  | EmptyString => Some 0
  | String c r =>
      if Ascii.eqb c "+"
      then option_map Z.of_uint (NilZero.uint_of_string r)
      else option_map Z.of_int (NilZero.int_of_string (String c r))
  end.

Definition is_digit (c : ascii) : bool :=
  ((0x30 <=? N_of_ascii c) && (N_of_ascii c <=? 0x39))%N.

(** [s.replace(/\D/g, '')] *)
Definition digits_only (s : string) : string :=
  string_of_list_ascii (List.filter is_digit (list_ascii_of_string s)).

(** [s.replace(/^0+/, '')] *)
Fixpoint strip_leading_zeros (s : string) : string :=
  match s with
  | String c r => if Ascii.eqb c "0" then strip_leading_zeros r else s
  | EmptyString => ""
  end.

Fixpoint digits_prefix (l : list ascii) : list ascii :=
  match l with
  | c :: r => if is_digit c then c :: digits_prefix r else []
  | [] => []
  end.

(** [parseInt(s, 10)]: leading white space, an optional sign and the
    longest prefix of decimal digits; [None] stands for NaN.  The value is
    the exact integer the digits denote. *)
Definition parseInt (s : string) : option Z :=
  let l := trimStart_bytes (list_ascii_of_string s) in
  let '(neg, l') :=
    match l with
    | c :: r => if Ascii.eqb c "-" then (true, r)
                else if Ascii.eqb c "+" then (false, r) else (false, l)
    | [] => (false, l)
    end in
  match digits_prefix l' with
  | [] => None
  | ds =>
      option_map (fun u => if neg then - Z.of_uint u else Z.of_uint u)
        (NilEmpty.uint_of_string (string_of_list_ascii ds))
  end.

(** [a || b] *)
Definition or_else (a b : value) : value := if truthy a then a else b.

End JS.

(** ** URLSearchParams

    The list of name-value pairs behind a [URLSearchParams] object, with
    the serialiser and parser of application/x-www-form-urlencoded. *)

Module URLSearchParams.

Definition t : Type := list (string * string).

Definition has (k : string) (p : t) : bool :=
  existsb (fun e => String.eqb (fst e) k) p.

Fixpoint get (k : string) (p : t) : option string :=
  match p with
  | [] => None
  | (k', v) :: r => if String.eqb k' k then Some v else get k r
  end.

(** [params.set(k, v)]: the first pair named [k] takes the value, the other
    pairs named [k] are removed; without such a pair, [(k, v)] is appended. *)
Fixpoint set (k v : string) (p : t) : t :=
  match p with
  | [] => [(k, v)]
  | (k', v') :: r =>
      if String.eqb k' k
      then (k, v) :: List.filter (fun e => negb (String.eqb (fst e) k)) r
      else (k', v') :: set k v r
  end.

Definition between (lo hi n : N) : bool := ((lo <=? n) && (n <=? hi))%N.

(** Bytes the serialiser leaves as they are: ASCII alphanumerics and
    [*-._]. *)
Definition unreserved (c : ascii) : bool :=
  let n := N_of_ascii c in
  between 0x30 0x39 n || between 0x41 0x5A n || between 0x61 0x7A n
  || (n =? 0x2A)%N || (n =? 0x2D)%N || (n =? 0x2E)%N || (n =? 0x5F)%N.

Definition hex_digit (n : N) : ascii :=
  ascii_of_N (if (n <? 10)%N then 0x30 + n else 0x37 + n)%N.

Definition encode_byte (c : ascii) : string :=
  if unreserved c then String c ""
  else if Ascii.eqb c " " then "+"
  else String "%" (String (hex_digit (N_of_ascii c / 16))
                     (String (hex_digit (N_of_ascii c mod 16)) "")).

Fixpoint encode (s : string) : string :=
  match s with
  | EmptyString => ""
  | String c r => encode_byte c +:+ encode r
  end.

Definition encode_pair (e : string * string) : string :=
  encode (fst e) +:+ "=" +:+ encode (snd e).

(** [params.toString()] *)
Definition toString (p : t) : string :=
  String.concat "&" (map encode_pair p).

Definition hex_val (c : ascii) : option N :=
  let n := N_of_ascii c in
  if between 0x30 0x39 n then Some (n - 0x30)%N
  else if between 0x41 0x46 n then Some (n - 0x37)%N
  else if between 0x61 0x66 n then Some (n - 0x57)%N
  else None.

(** Percent-decoding, with [+] read as a space. *)
Fixpoint decode (s : string) : string :=
  match s with
  | EmptyString => ""
  | String c r =>
      if Ascii.eqb c "+" then String " " (decode r)
      else if Ascii.eqb c "%" then
        match r with
        | String h1 (String h2 r') =>
            match hex_val h1, hex_val h2 with
            | Some a, Some b => String (ascii_of_N (16 * a + b)) (decode r')
            | _, _ => String c (decode r)
            end
        | _ => String c (decode r)
        end
      else String c (decode r)
  end.

(** [s.split(sep)] for a one-character separator. *)
Fixpoint split_on (sep : ascii) (s : string) : list string :=
  match s with
  | EmptyString => [""]
  | String c r =>
      if Ascii.eqb c sep then "" :: split_on sep r
      else match split_on sep r with
           | h :: tl => String c h :: tl
           | [] => [String c ""]
           end
  end.

(** The parts of [s] before and after the first [sep]; the whole of [s]
    and the empty string when [sep] does not occur. *)
Fixpoint cut_at (sep : ascii) (s : string) : string * string :=
  match s with
  | EmptyString => ("", "")
  | String c r =>
      if Ascii.eqb c sep then ("", r)
      else let (a, b) := cut_at sep r in (String c a, b)
  end.

Definition parse_pair (seg : string) : t :=
  if String.eqb seg "" then []
  else let (n, v) := cut_at "=" seg in [(decode n, decode v)].

Definition parse (s : string) : t :=
  flat_map parse_pair (split_on "&" s).

(** [new URLSearchParams(search)]: one leading [?] is dropped. *)
Definition of_search (search : string) : t :=
  match search with
  | String "?" r => parse r
  | _ => parse search
  end.

End URLSearchParams.

(** ** Plain objects

    The own properties of an object literal in creation order.
    [Object.entries] lists array-index keys first, in ascending numeric
    order, then the other keys in creation order. *)

Module Obj.

Definition t : Type := list (string * JS.value).

(** [o[k]] *)
Fixpoint get (k : string) (o : t) : JS.value :=
  match o with
  | [] => JS.VUndefined
  | (k', v) :: r => if String.eqb k' k then v else get k r
  end.

(** [o[k] = v] *)
Fixpoint set (k : string) (v : JS.value) (o : t) : t :=
  match o with
  | [] => [(k, v)]
  | (k', v') :: r =>
      if String.eqb k' k then (k', v) :: r else (k', v') :: set k v r
  end.

(** [o[k] = v] for a name [k] that the script does not choose and a value
    [v] that is not an object: [__proto__] names the accessor of
    [Object.prototype], whose setter ignores such a value, so that the
    assignment adds no property. *)
Definition assign (k : string) (v : JS.value) (o : t) : t :=
  if String.eqb k "__proto__" then o else set k v o.

(** [delete o[k]] *)
Definition delete (k : string) (o : t) : t :=
  List.filter (fun e => negb (String.eqb (fst e) k)) o.

(** A canonical numeric string below 2^32 - 1. *)
Definition array_index (k : string) : option Z :=
  match JS.Number k with
  | Some n =>
      if (0 <=? n) && (n <? 2 ^ 32 - 1) && String.eqb (JS.string_of_Z n) k
      then Some n else None
  | None => None
  end.

Definition is_index (k : string) : bool :=
  match array_index k with
  | Some _ => true
  | None => false
  end.

Fixpoint insert_sorted (n : Z) (e : string * JS.value)
  (l : list (Z * (string * JS.value))) : list (Z * (string * JS.value)) :=
  match l with
  | [] => [(n, e)]
  | (m, e') :: r =>
      if n <=? m then (n, e) :: l else (m, e') :: insert_sorted n e r
  end.

Definition index_entries (o : t) : list (Z * (string * JS.value)) :=
  fold_right
    (fun e acc =>
       match array_index (fst e) with
       | Some n => insert_sorted n e acc
       | None => acc
       end) [] o.

(** [Object.entries(o)] *)
Definition entries (o : t) : list (string * JS.value) :=
  map snd (index_entries o)
  ++ List.filter (fun e => negb (is_index (fst e))) o.

(** Property names are distinct. *)
Definition wf (o : t) : Prop := NoDup (map fst o).

(** [Object.keys(o)] *)
Definition keys (o : t) : list string := map fst (entries o).

(** [{...dst, ...src}] continued from [dst]. *)
Definition spread (src dst : t) : t :=
  fold_left (fun acc e => set (fst e) (snd e) acc) (entries src) dst.

End Obj.

(** ** Network outcomes *)

(** What [await fetch(...)] gives: a rejection (the request never
    completed), or a response with its status line and its body, read as
    text and parsed as JSON ([None] when [res.json()] throws). *)
Inductive outcome (J : Type) : Type :=
| NetworkError (message : string)
| Response (status : Z) (statusText : string) (text : string)
    (json : option J).
Arguments NetworkError {J} message.
Arguments Response {J} status statusText text json.

(** [res.ok] *)
Definition status_ok (status : Z) : bool :=
  (200 <=? status) && (status <=? 299).

(** ** Text in markup

    The row templates put their values into markup without escaping them,
    and the markup is assigned to [innerHTML].  A value reaches the page as
    the text of its cell, or as the value of its attribute, only when it
    holds none of the characters that the HTML parser treats otherwise: NUL,
    which it drops, CR, which it replaces, the two quotes, which end an
    attribute value, and the ampersand and the angle brackets, which start a
    character reference or a tag. *)

Module HTML.

Definition is_markup (c : ascii) : bool :=
  existsb (N.eqb (N_of_ascii c)) [0; 13; 34; 38; 39; 60; 62]%N.

Definition inert (s : string) : bool :=
  forallb (fun c => negb (is_markup c)) (list_ascii_of_string s).

(** A text without such a character. *)
Record text : Type := Text {
  chars : string;
  chars_inert : inert chars = true }.

End HTML.

(** ** The verification list (src/unnamed/part_000) *)

Module VerificationList.

Inductive event : Type :=
| EReplaceState (url : string)
| EFetch (method url : string)
| EConsoleError (message : string)
| EToast (message type : string) (timeout : Z)
| EAlert (message : string)
| EConfirm (message : string).

(** A table cell: its [colspan], its classes, and its text. *)
Record cell : Type := Cell {
  colspan : nat;
  classes : list string;
  text : string }.

(** A row of [#verification-table-body]: its DOM node, [data-row-id], its
    cells, and the data attributes (company, verification) of its
    delete-verification link. *)
Record row : Type := Row {
  node : nat;
  data_row_id : option Z;
  cells : list cell;
  delete_dataset : option (string * string) }.

(** One record of [items], with the values the row template reads from
    it: the local constants of the [items.map] callback, after their
    [|| ''] fallbacks and date formatting. *)
Record entry : Type := Entry {
  id : Z;
  employeeFio : string;
  verificationDate : string;
  cityName : string;
  address : string;
  client : string;
  siType : string;
  registryNum : string;
  modName : string;
  factoryNum : string;
  locationName : string;
  meterInfo : string;
  endVerifDate : string;
  seriesName : string;
  actNum : string;
  verification_result : bool;
  water_type : string;
  seal : string;
  manufYear : string;
  created_at_formatted : string;
  updated_at_formatted : string;
  metrolog_id : option Z;
  company_id : string }.

(** An item of [#pagination-block]: a link [a[data-page]] inside an [li],
    or the ellipsis [li], which holds a [span]. *)
Inductive page_item : Type :=
| PageLink (data_page : string) (label : string) (active disabled : bool)
| Ellipsis.

(** A pending timer: the removal of a row, set by the delete handler, or
    one of the two timers of a notification of [showAlert], the one that
    takes the notification down after its timeout and the one that then
    removes its element. *)
Inductive timer : Type :=
| TRemoveRow (delay : Z) (tr : nat)
| THideAlert (delay : Z) (message : string)
| TRemoveAlert (delay : Z) (message : string).

(** The list envelope, each field present or not. *)
Record envelope : Type := Envelope {
  env_items : option (list entry);
  env_page : option Z;
  env_total_pages : option Z;
  env_total_entries : option Z;
  env_verified_entry : option Z;
  env_not_verified_entry : option Z }.

(** The page: location and session history, [window.company_id], the
    entries of [new FormData(#filter-form)], the value of [#limit], the table
    body, the pagination block and the three counters (each [None] when the
    element is missing), the effects so far, and pending timers.  The table
    body is also [None] when it holds markup that the model does not parse
    (see [renderVerificationTable]): [None] is a table body of which the
    model holds no rows. *)
Record state : Type := State {
  pathname : string;
  search : string;
  history_length : nat;
  window_company_id : JS.value;
  filter_form : list (string * string);
  limit_el : option string;
  table_body : option (list row);
  pagination_block : option (list page_item);
  total_entries_el : option string;
  verified_entry_el : option string;
  not_verified_entry_el : option string;
  events : list event;
  timers : list timer;
  next_node : nat }.

Definition emit (e : event) (st : state) : state :=
  State (pathname st) (search st) (history_length st) (window_company_id st)
    (filter_form st) (limit_el st) (table_body st) (pagination_block st)
    (total_entries_el st) (verified_entry_el st) (not_verified_entry_el st)
    (events st ++ [e]) (timers st) (next_node st).

Definition set_location (p s : string) (st : state) : state :=
  State p s (history_length st) (window_company_id st)
    (filter_form st) (limit_el st) (table_body st) (pagination_block st)
    (total_entries_el st) (verified_entry_el st) (not_verified_entry_el st)
    (events st) (timers st) (next_node st).

Definition set_table_body (rows : list row) (fresh : nat) (st : state)
  : state :=
  State (pathname st) (search st) (history_length st) (window_company_id st)
    (filter_form st) (limit_el st) (Some rows) (pagination_block st)
    (total_entries_el st) (verified_entry_el st) (not_verified_entry_el st)
    (events st) (timers st) fresh.

Definition set_pagination_block (items : list page_item) (st : state)
  : state :=
  State (pathname st) (search st) (history_length st) (window_company_id st)
    (filter_form st) (limit_el st) (table_body st) (Some items)
    (total_entries_el st) (verified_entry_el st) (not_verified_entry_el st)
    (events st) (timers st) (next_node st).

Definition set_counters (total verified not_verified : option string)
  (st : state) : state :=
  State (pathname st) (search st) (history_length st) (window_company_id st)
    (filter_form st) (limit_el st) (table_body st) (pagination_block st)
    total verified not_verified
    (events st) (timers st) (next_node st).

Definition set_timers (ts : list timer) (st : state) : state :=
  State (pathname st) (search st) (history_length st) (window_company_id st)
    (filter_form st) (limit_el st) (table_body st) (pagination_block st)
    (total_entries_el st) (verified_entry_el st) (not_verified_entry_el st)
    (events st) ts (next_node st).

(** [window.history.replaceState({}, '', url)]: the current entry takes the
    new URL and the history keeps its length.  [url] is a path with an
    optional query. *)
Definition replaceState (url : string) (st : state) : state :=
  let (p, q) := URLSearchParams.cut_at "?" url in
  emit (EReplaceState url)
    (set_location p (if String.eqb q "" then "" else "?" +:+ q) st).

(** [showAlert(message, type, timeout)]: the notification is shown, and
    with a timeout other than 0 a timer is set that takes it down. *)
Definition showAlert (message type : string) (timeout : Z) (st : state)
  : state :=
  let st1 := emit (EToast message type timeout) st in
  if timeout =? 0 then st1
  else set_timers (timers st1 ++ [THideAlert timeout message]) st1.

Definition getCompanyId (st : state) : JS.value :=
  let params := URLSearchParams.of_search (search st) in
  if URLSearchParams.has "company_id" params
  then JS.VStr (default "" (URLSearchParams.get "company_id" params))
  else JS.or_else (window_company_id st) (JS.VStr "").

Definition getCurrentFiltersFromForm (st : state) : Obj.t :=
  fold_left
    (fun obj e => if negb (String.eqb (snd e) "")
                  then Obj.assign (fst e) (JS.VStr (snd e)) obj else obj)
    (filter_form st) [].

Definition knownKeys : list string :=
  [ "date_from"; "date_to"; "client_address"; "factory_number";
    "series_id"; "employee_id"; "client_phone"; "city_id";
    "water_type"; "act_number"; "limit"; "page" ].

Definition getCurrentFiltersFromURL (st : state) : Obj.t :=
  let params := URLSearchParams.of_search (search st) in
  fold_left
    (fun out k =>
       match URLSearchParams.get k params with
       | Some v => if negb (String.eqb v "")
                   then Obj.set k (JS.VStr v) out else out
       | None => out
       end)
    knownKeys [].

(** The test of [buildQuery] on a value:
    [v !== undefined && v !== null && String(v).trim() !== '']. *)
Definition kept (v : JS.value) : bool :=
  match v with
  | JS.VUndefined | JS.VNull => false
  | _ => negb (String.eqb (JS.trim (JS.String_ v)) "")
  end.

(** The [URLSearchParams] that [buildQuery] fills; [None] is a null or
    undefined argument, read as [{}]. *)
Definition buildParams (paramsObj : option Obj.t) (st : state)
  : URLSearchParams.t :=
  let companyId := getCompanyId st in
  let params :=
    if JS.truthy companyId
    then URLSearchParams.set "company_id" (JS.String_ companyId) []
    else [] in
  fold_left
    (fun params e =>
       if kept (snd e)
       then URLSearchParams.set (fst e) (JS.String_ (snd e)) params
       else params)
    (Obj.entries (default [] paramsObj)) params.

Definition buildQuery (paramsObj : option Obj.t) (st : state) : string :=
  URLSearchParams.toString (buildParams paramsObj st).

Definition pushURLState (paramsObj : Obj.t) (st : state) : state :=
  let base := pathname st in
  let q := buildQuery (Some paramsObj) st in
  let url := if negb (String.eqb q "") then base +:+ "?" +:+ q else base in
  replaceState url st.

(** The end of [safeFetch(url, options, action)], after [await fetch]: the
    JSON body of an ok response ([Some]), or the notification and [null]
    ([None]). *)
Definition safeFetch_settle {J : Type} (action : string) (o : outcome J)
  (st : state) : state * option (option J) :=
  match o with
  | Response status statusText text json =>
      if status_ok status then (st, Some json)
      else
        let st1 :=
          emit (EConsoleError ("Ошибка при " +:+ action +:+ ": " +:+ text))
            st in
        (showAlert
           ("Ошибка при " +:+ action +:+ ": " +:+ JS.string_of_Z status
            +:+ " " +:+ statusText) "danger" 5000 st1, None)
  | NetworkError message =>
      let st1 :=
        emit (EConsoleError
                ("Ошибка сети при " +:+ action +:+ ": " +:+ message)) st in
      (showAlert ("Ошибка сети при " +:+ action) "danger" 5000 st1, None)
  end.

Definition renderStats (total_entries verified_entry not_verified_entry : Z)
  (st : state) : state :=
  let put (el : option string) (n : Z) :=
    match el with
    | Some _ => Some (JS.string_of_Z n)
    | None => None
    end in
  set_counters (put (total_entries_el st) total_entries)
    (put (verified_entry_el st) verified_entry)
    (put (not_verified_entry_el st) not_verified_entry) st.

Definition placeholder_row (n : nat) : row :=
  Row n None [Cell 20 ["text-center"] "Записи отсутствуют"] None.

Definition td (cls : list string) (txt : string) : cell :=
  Cell 1 ("text-center" :: "align-middle" :: cls) txt.

(** [sealText] and [sealClass] for [e.seal]. *)
Definition seal_badge (seal : string) : string * list string :=
  if String.eqb seal "present"
  then ("Есть", ["bg-success"; "text-white"])
  else if String.eqb seal "missing"
  then ("Отсутствует", ["bg-warning"; "text-dark"])
  else if String.eqb seal "damaged"
  then ("Повреждена", ["bg-danger"; "text-white"])
  else ("", []).

(** The tenant that the row template writes into its links. *)
Definition row_company (st : state) (e : entry) : string :=
  JS.String_
    (JS.or_else (JS.or_else (getCompanyId st) (JS.VStr (company_id e)))
       (JS.VStr "")).

(** Every text that the row template interpolates for [e] reaches the page
    as it is. *)
Definition markup_free (st : state) (e : entry) : bool :=
  forallb HTML.inert
    [ row_company st e; employeeFio e; verificationDate e; cityName e;
      address e; client e; siType e; registryNum e; modName e; factoryNum e;
      locationName e; meterInfo e; endVerifDate e; seriesName e; actNum e;
      manufYear e; created_at_formatted e; updated_at_formatted e ].

(** The [tr] that the browser builds from the markup that the [items.map]
    callback writes for [e], on the node [n]; [None] when a value holds
    markup, which the model does not parse. *)
Definition render_row (st : state) (n : nat) (e : entry) : option row :=
  if negb (markup_free st e) then None else
  let resultOk := verification_result e in
  let resultClass := if resultOk then "bg-success" else "bg-danger" in
  let resultText := if resultOk then "Пригодно" else "Непригодно" in
  let waterCold := String.eqb (water_type e) "cold" in
  let waterClass := if waterCold then "bg-primary" else "bg-danger" in
  let waterText := if waterCold then "Холодная" else "Горячая" in
  let sealText := fst (seal_badge (seal e)) in
  let sealClass := snd (seal_badge (seal e)) in
  let companyId := row_company st e in
  Some (Row n (Some (id e))
    [ td [] "";
      td ["col-40"] (employeeFio e);
      td ["col-120"] (verificationDate e);
      td ["col-120"] (cityName e);
      td ["col-150"] (address e);
      td ["col-120"] (client e);
      td ["col-180"] (siType e);
      td ["col-120"] (registryNum e);
      td ["col-100"] (modName e);
      td ["col-120"] (factoryNum e);
      td ["col-100"] (locationName e);
      td ["col-100"] (meterInfo e);
      td ["col-100"] (endVerifDate e);
      td ["col-100"] (seriesName e);
      td ["col-100"] (actNum e);
      td ["col-100"; "text-white"; resultClass] resultText;
      td ["col-100"; "text-white"; waterClass] waterText;
      td ("col-100" :: sealClass) sealText;
      td ["col-100"] (manufYear e);
      td ["col-100"] (created_at_formatted e);
      td ["col-100"] (updated_at_formatted e);
      td ["col-100"] "" ]
    (Some (companyId, JS.string_of_Z (id e)))).

(** The rows of [items], the first one on the node [n]. *)
Fixpoint render_rows (st : state) (n : nat) (items : list entry)
  : option (list row) :=
  match items with
  | [] => Some []
  | e :: items' =>
      match render_row st n e, render_rows st (S n) items' with
      | Some r, Some rs => Some (r :: rs)
      | _, _ => None
      end
  end.

(** The table body holds markup that the model did not parse. *)
Definition forget_table_body (fresh : nat) (st : state) : state :=
  State (pathname st) (search st) (history_length st) (window_company_id st)
    (filter_form st) (limit_el st) None (pagination_block st)
    (total_entries_el st) (verified_entry_el st) (not_verified_entry_el st)
    (events st) (timers st) fresh.

(** [renderVerificationTable(items)].  The markup of the rows is assigned
    to [tbody.innerHTML]; the model holds the rows that the browser builds
    from it when no value holds markup, and no rows otherwise. *)
Definition renderVerificationTable (items : list entry) (st : state)
  : state :=
  match table_body st with
  | None => st
  | Some _ =>
      let n := next_node st in
      match items with
      | [] => set_table_body [placeholder_row n] (S n) st
      | _ =>
          match render_rows st n items with
          | Some rows => set_table_body rows (n + length items)%nat st
          | None => forget_table_body (n + length items)%nat st
          end
      end
  end.

Definition makePageItem (page : Z) (label : option string)
  (active disabled : bool) : page_item :=
  PageLink (JS.string_of_Z page) (default (JS.string_of_Z page) label)
    active disabled.

(** The values of [p] in [for (let p = 1; p <= totalPages; p++)]. *)
Definition pages (totalPages : Z) : list Z :=
  map Z.of_nat (seq 1 (Z.to_nat totalPages)).

Definition win : Z := 2.

(** The [items] array of [renderPagination]; an icon label is written by
    the class of its [i] element. *)
Definition pagination_items (currentPage totalPages : Z) : list page_item :=
  [ makePageItem 1 (Some "bi bi-skip-start") false (currentPage =? 1);
    makePageItem (Z.max 1 (currentPage - 1)) (Some "bi bi-arrow-left-circle")
      false (currentPage =? 1) ]
  ++ flat_map
       (fun p =>
          if (p =? 1) || (p =? totalPages)
             || ((currentPage - win <=? p) && (p <=? currentPage + win))
          then [makePageItem p None (p =? currentPage) false]
          else if (p =? currentPage - (win + 1))
                  || (p =? currentPage + (win + 1))
          then [Ellipsis]
          else [])
       (pages totalPages)
  ++ [ makePageItem (Z.min totalPages (currentPage + 1))
         (Some "bi bi-arrow-right-circle") false (currentPage =? totalPages);
       makePageItem totalPages (Some "bi bi-skip-end") false
         (currentPage =? totalPages) ].

Definition renderPagination (currentPage totalPages : Z) (st : state)
  : state :=
  match pagination_block st with
  | None => st
  | Some _ =>
      if (totalPages =? 0) || (totalPages <=? 1)
      then set_pagination_block [] st
      else set_pagination_block (pagination_items currentPage totalPages) st
  end.

(** The value tests of the cleaning loop of [loadVerificationEntries]. *)
Definition is_blank (v : JS.value) : bool :=
  match v with
  | JS.VUndefined | JS.VNull => true
  | JS.VStr s => String.eqb s ""
  | _ => false
  end.

Definition strip_blank (o : Obj.t) : Obj.t :=
  fold_left
    (fun o k => if is_blank (Obj.get k o) then Obj.delete k o else o)
    (Obj.keys o) o.

(** The object [paramsObj] of [loadVerificationEntries(page)]; [None] is a
    call without argument. *)
Definition pageRequest (page : option Z) (st : state) : Obj.t :=
  let formFilters := getCurrentFiltersFromForm st in
  let urlFilters := getCurrentFiltersFromURL st in
  let limit :=
    JS.or_else
      (JS.or_else
         (match limit_el st with
          | Some v => JS.VStr v
          | None => JS.VNull
          end)
         (Obj.get "limit" urlFilters))
      (JS.VStr "30") in
  strip_blank
    (Obj.set "limit" limit
       (Obj.set "page" (JS.VNum (default 1 page))
          (Obj.spread formFilters (Obj.spread urlFilters [])))).

Definition list_endpoint : string := "/verification/api/verifications-control/".

(** [loadVerificationEntries(page)] up to [await safeFetch(...)]. *)
Definition loadVerificationEntries_start (page : option Z) (st : state)
  : state :=
  let paramsObj := pageRequest page st in
  let st1 := pushURLState paramsObj st in
  let query := buildQuery (Some paramsObj) st1 in
  emit (EFetch "GET" (list_endpoint +:+ "?" +:+ query)) st1.

(** [loadVerificationEntries(page)] from the outcome of the request on.
    The JSON body is the envelope, or [None] for a falsy value such as
    [null]. *)
Definition loadVerificationEntries_resume (page : option Z)
  (o : outcome (option envelope)) (st : state) : state :=
  let (st1, res) := safeFetch_settle "загрузке записей поверки" o st in
  match res with
  | None => st1
  | Some None =>
      emit (EAlert "Ошибка обработки ответа сервера")
        (emit (EConsoleError "Ошибка парсинга JSON:") st1)
  | Some (Some data) =>
      let data := default (Envelope None None None None None None) data in
      let items := default [] (env_items data) in
      let curPage := default (default 1 page) (env_page data) in
      let total_pages := default 1 (env_total_pages data) in
      let st2 :=
        renderStats (default 0 (env_total_entries data))
          (default 0 (env_verified_entry data))
          (default 0 (env_not_verified_entry data)) st1 in
      renderPagination curPage total_pages
        (renderVerificationTable items st2)
  end.

(** The click listener of an anchor of [#pagination-block]. *)
Definition click_page_item (item : page_item) (st : state) : state :=
  match item with
  | PageLink data_page _ _ _ =>
      match JS.Number data_page with
      | Some page => loadVerificationEntries_start (Some page) st
      | None => st
      end
  | Ellipsis => st
  end.

Definition has_class (c : string) (x : cell) : bool :=
  existsb (String.eqb c) (classes x).

(** [tr.querySelector('td.text-white.bg-success, td.text-white.bg-danger')] *)
Definition result_td (tr : row) : option cell :=
  find
    (fun x => has_class "text-white" x
              && (has_class "bg-success" x || has_class "bg-danger" x))
    (cells tr).

(** The update of one counter: with [n = parseInt(el.textContent || '0', 10)],
    the text becomes [n - 1] if [n > 0].  The script computes with doubles,
    which hold the integers up to 2^53 exactly; [None] is a counter above
    2^53, where [n] and [n - 1] are rounded, outside the model. *)
Definition decrement (txt : string) : option string :=
  match JS.parseInt (if String.eqb txt "" then "0" else txt) with
  | Some n =>
      if 0 <? n
      then if n <=? 2 ^ 53 then Some (JS.string_of_Z (n - 1)) else None
      else Some txt
  | None => Some txt
  end.

Definition delete_endpoint : string :=
  "/verification/api/verifications-control/delete/".

(** [onDeleteVerification(e)] on the delete link of [tr], up to
    [await safeFetch(...)]; [confirmed] is the user's answer to the
    prompt.  The result says whether the request was sent. *)
Definition onDeleteVerification_start (tr : row) (confirmed : bool)
  (st : state) : state * bool :=
  match delete_dataset tr with
  | None => (st, false)
  | Some (companyId, verificationId) =>
      if String.eqb verificationId "" || String.eqb companyId ""
      then (st, false)
      else
        let st1 :=
          emit (EConfirm ("Удалить запись поверки ID " +:+ verificationId
                          +:+ "?")) st in
        if negb confirmed then (st1, false)
        else
          (emit (EFetch "DELETE"
                   (delete_endpoint +:+ "?company_id=" +:+ companyId
                    +:+ "&verification_entry_id=" +:+ verificationId)) st1,
           true)
  end.

(** [onDeleteVerification(e)] from the outcome of the request on.  The JSON
    body is read as its [error] field.  [None] when a counter that the
    handler takes 1 from is above 2^53 (see [decrement]). *)
Definition onDeleteVerification_resume (tr : row)
  (o : outcome (option string)) (st : state) : option state :=
  let (st1, res) := safeFetch_settle "удалении записи поверки" o st in
  match res with
  | None => Some st1
  | Some json =>
      let error := default "" (default None json) in
      if negb (String.eqb error "")
      then Some (emit (EAlert ("Ошибка: " +:+ error)) st1)
      else
        let st2 := emit (EAlert "Запись поверки успешно удалена") st1 in
        let st3 := set_timers (timers st2 ++ [TRemoveRow 300 (node tr)]) st2 in
        let total :=
          match total_entries_el st3 with
          | Some txt => option_map Some (decrement txt)
          | None => Some None
          end in
        match total with
        | None => None
        | Some total =>
            let st4 :=
              set_counters total (verified_entry_el st3)
                (not_verified_entry_el st3) st3 in
            match result_td tr with
            | None => Some st4
            | Some resultTd =>
                let resultText := JS.trim (text resultTd) in
                let when (c : bool) (el : option string) :=
                  if c then el else None in
                match when (String.eqb resultText "Пригодно")
                        (verified_entry_el st4) with
                | Some verified =>
                    option_map
                      (fun v =>
                         set_counters (total_entries_el st4) (Some v)
                           (not_verified_entry_el st4) st4)
                      (decrement verified)
                | None =>
                    match when (String.eqb resultText "Непригодно")
                            (not_verified_entry_el st4) with
                    | Some notVerified =>
                        option_map
                          (fun v =>
                             set_counters (total_entries_el st4)
                               (verified_entry_el st4) (Some v) st4)
                          (decrement notVerified)
                    | None => Some st4
                    end
                end
            end
        end
  end.

(** The callback of a timer runs: [tr.remove()] detaches the row from the
    table body; the notification is taken down and the timer that removes
    its element is set; the element of the notification, which the state
    does not hold, is removed. *)
Definition fire (t : timer) (st : state) : state :=
  match t with
  | TRemoveRow _ n =>
      match table_body st with
      | Some rows =>
          set_table_body
            (List.filter (fun r => negb (Nat.eqb (node r) n)) rows)
            (next_node st) st
      | None => st
      end
  | THideAlert _ message =>
      set_timers (timers st ++ [TRemoveAlert 200 message]) st
  | TRemoveAlert _ _ => st
  end.

(** The double quote, for the messages that quote a label. *)
Definition dq : string := String (ascii_of_nat 34) "".

(** [downloadReport(endpoint, additionalParams)]: the URL assigned to
    [window.location.href]; a call without [additionalParams] has [{}]. *)
Definition downloadReport (endpoint : string) (additionalParams : Obj.t)
  (st : state) : string :=
  let filters := getCurrentFiltersFromForm st in
  let allParams := Obj.spread additionalParams (Obj.spread filters []) in
  let query := buildQuery (Some allParams) st in
  "/verification/api/reports/" +:+ endpoint +:+ "?" +:+ query.

Definition arshin_endpoint : string := "/verification/api/arshin/get-vri-ids".

(** [requestArshinData()] up to [await safeFetch(...)]; the result says
    whether the request was sent. *)
Definition requestArshinData_start (st : state) : state * bool :=
  let filters := getCurrentFiltersFromForm st in
  if negb (JS.truthy (Obj.get "date_from" filters))
     || negb (JS.truthy (Obj.get "date_to" filters))
  then
    (showAlert
       ("Необходимо указать " +:+ dq +:+ "Дата с" +:+ dq +:+ " и " +:+ dq
        +:+ "Дата по" +:+ dq +:+ " для запроса АРШИН") "warning" 5000 st,
     false)
  else
    let query :=
      buildQuery
        (Some [ ("date_from", Obj.get "date_from" filters);
                ("date_to", Obj.get "date_to" filters) ]) st in
    (emit (EFetch "GET" (arshin_endpoint +:+ "?" +:+ query)) st, true).

(** [requestArshinData()] from the outcome of the request on. *)
Definition requestArshinData_resume {J : Type} (o : outcome J) (st : state)
  : state :=
  let (st1, res) := safeFetch_settle "запросе АРШИН" o st in
  match res with
  | Some _ =>
      showAlert
        ("Запрос на получение данных из ФГИС " +:+ dq +:+ "АРШИН" +:+ dq
         +:+ " отправлен. Обработка может занять время.") "success" 10000 st1
  | None => st1
  end.

End VerificationList.

(** ** The appeals list (appeals_script.js) and its delete modal
    (src/unnamed/part_001)

    [fetchAppeals] and [deleteAppeal] come from api_requests.js, which is
    not among the sources: a call is an event, and its outcome, a value or
    a thrown [Error] with its message, is an argument of the part of the
    caller that runs after the [await]. *)

Module AppealsList.

Inductive event : Type :=
| EFetchAppeals (page page_size : Z) (status_filter : option string)
| EDeleteAppeal (id : Z)
| EAlert (message : string).

Record cell : Type := Cell {
  colspan : nat;
  classes : list string;
  text : string }.

(** A row of [#appeals-body]; [link_id] is the [data-id] of its [.link-id]
    anchor. *)
Record row : Type := Row {
  link_id : option Z;
  cells : list cell }.

(** One appeal, with the texts the row template reads from it; a missing
    or falsy field is the empty string, and [date_of_get] is the text that
    [toLocaleString] gives.  The template is assigned to [tr.innerHTML], so
    a text stands for itself only when it holds no markup: an appeal with
    markup in a field is outside the model. *)
Record appeal : Type := Appeal {
  id : Z;
  client_full_name : HTML.text;
  address : HTML.text;
  phone_number : HTML.text;
  additional_info : HTML.text;
  date_of_get : HTML.text;
  status : HTML.text }.

(** An element of [#pagination-ul]: an [li] made by [makeLi], with the
    arguments its click listener closes over, or the ellipsis [li]. *)
Inductive li : Type :=
| Link (inner : string) (page : Z) (disabled active : bool)
| Ell.

(** The value [fetchAppeals] resolves to. *)
Record page_data : Type := PageData {
  items : list appeal;
  total_pages : Z }.

Record state : Type := State {
  currentPage : Z;
  tbody : list row;
  paginationUl : list li;
  spinner_hidden : bool;
  statusFilter : string;
  customerField : bool;
  mapOfStatus : list (string * HTML.text);
  delete_modal_shown : bool;
  events : list event }.

Definition pageSize : Z := 30.

Definition emit (e : event) (st : state) : state :=
  State (currentPage st) (tbody st) (paginationUl st) (spinner_hidden st)
    (statusFilter st) (customerField st) (mapOfStatus st)
    (delete_modal_shown st) (events st ++ [e]).

Definition set_currentPage (p : Z) (st : state) : state :=
  State p (tbody st) (paginationUl st) (spinner_hidden st)
    (statusFilter st) (customerField st) (mapOfStatus st)
    (delete_modal_shown st) (events st).

Definition set_tbody (rows : list row) (st : state) : state :=
  State (currentPage st) rows (paginationUl st) (spinner_hidden st)
    (statusFilter st) (customerField st) (mapOfStatus st)
    (delete_modal_shown st) (events st).

Definition set_paginationUl (l : list li) (st : state) : state :=
  State (currentPage st) (tbody st) l (spinner_hidden st)
    (statusFilter st) (customerField st) (mapOfStatus st)
    (delete_modal_shown st) (events st).

Definition set_spinner_hidden (b : bool) (st : state) : state :=
  State (currentPage st) (tbody st) (paginationUl st) b
    (statusFilter st) (customerField st) (mapOfStatus st)
    (delete_modal_shown st) (events st).

Definition set_delete_modal_shown (b : bool) (st : state) : state :=
  State (currentPage st) (tbody st) (paginationUl st) (spinner_hidden st)
    (statusFilter st) (customerField st) (mapOfStatus st) b (events st).

Definition showSpinner : state -> state := set_spinner_hidden false.
Definition hideSpinner : state -> state := set_spinner_hidden true.

Definition makeLi (inner : string) (page : Z) (disabled active : bool) : li :=
  Link inner page disabled active.

Definition pages (total_pages : Z) : list Z :=
  map Z.of_nat (seq 1 (Z.to_nat total_pages)).

Definition pagination_lis (currentPage total_pages : Z) : list li :=
  [ makeLi "bi bi-skip-start" 1 (currentPage <=? 1) false;
    makeLi "bi bi-arrow-left-circle" (currentPage - 1) (currentPage <=? 1)
      false ]
  ++ flat_map
       (fun p =>
          if (p =? 1) || (p =? total_pages) || (Z.abs (p - currentPage) <=? 2)
          then [makeLi (JS.string_of_Z p) p false (p =? currentPage)]
          else if Z.abs (p - currentPage) =? 3 then [Ell]
          else [])
       (pages total_pages)
  ++ [ makeLi "bi bi-arrow-right-circle" (currentPage + 1)
         (total_pages <=? currentPage) false;
       makeLi "bi bi-skip-end" total_pages (total_pages <=? currentPage)
         false ].

Definition renderPagination (data : page_data) (st : state) : state :=
  set_paginationUl (pagination_lis (currentPage st) (total_pages data)) st.

Definition td (txt : string) : cell := Cell 1 [] txt.

Definition or_text (a b : string) : string :=
  if String.eqb a "" then b else a.

(** [window.mapOfStatus[s] || s], for a status [s] that names no member
    of [Object.prototype]. *)
Definition status_label (st : state) (s : string) : string :=
  or_text
    match List.find (fun e => String.eqb (fst e) s) (mapOfStatus st) with
    | Some e => HTML.chars (snd e)
    | None => ""
    end
    s.

(** [renderRow(app)]: the row is appended to the table body.  The texts of
    [app] hold no markup, so the cells that the browser builds from
    [tr.innerHTML] are those of the template. *)
Definition renderRow (st : state) (app : appeal) : state :=
  let r :=
    Row (Some (id app))
      ([td (JS.string_of_Z (id app))]
       ++ (if customerField st
           then [td (or_text (HTML.chars (client_full_name app)) "—")]
           else [])
       ++ [ td (HTML.chars (address app)); td (HTML.chars (phone_number app));
            td (HTML.chars (additional_info app));
            td (HTML.chars (date_of_get app));
            td (status_label st (HTML.chars (status app))) ]) in
  set_tbody (tbody st ++ [r]) st.

(** [loadAppeals()] up to [await fetchAppeals(...)]. *)
Definition loadAppeals_start (st : state) : state :=
  let st1 := set_tbody [] (showSpinner st) in
  emit (EFetchAppeals (currentPage st1) pageSize
          (if String.eqb (statusFilter st1) "" then None
           else Some (statusFilter st1))) st1.

(** The row of the [catch] block.  Its markup, which holds the message, is
    assigned to [tbody.innerHTML]: a message with markup is outside the
    model. *)
Definition error_row (st : state) (message : HTML.text) : row :=
  Row None
    [Cell (if customerField st then 7 else 6)
       ["text-center"; "text-danger"] (HTML.chars message)].

(** [loadAppeals()] from the outcome of [fetchAppeals] on: the data, or
    the message of the error caught. *)
Definition loadAppeals_resume (o : HTML.text + page_data) (st : state)
  : state :=
  hideSpinner
    match o with
    | inr data => renderPagination data (fold_left renderRow (items data) st)
    | inl message => set_tbody [error_row st message] st
    end.

(** The click listener that [makeLi] adds to the anchor of an [li], up to
    [await window.loadAppeals()]. *)
Definition click_li (l : li) (st : state) : state :=
  match l with
  | Link _ page disabled _ =>
      if negb disabled && negb (page =? currentPage st)
      then loadAppeals_start (set_currentPage page st)
      else st
  | Ell => st
  end.

(** [openDeleteModal(id)] *)
Definition openDeleteModal (id : Z) (st : state) : state :=
  set_delete_modal_shown true st.

(** The [onclick] of [#confirm-delete] set by [openDeleteModal(id)], up to
    [await deleteAppeal(id)]. *)
Definition confirm_delete_start (id : Z) (st : state) : state :=
  emit (EDeleteAppeal id) st.

(** The same handler from the outcome of [deleteAppeal] on ([None]: it
    resolved; [Some message]: it threw), up to [await window.loadAppeals()]. *)
Definition confirm_delete_resume (o : option string) (st : state) : state :=
  match o with
  | None => loadAppeals_start (set_delete_modal_shown false st)
  | Some message => emit (EAlert ("Ошибка удаления: " +:+ message)) st
  end.

End AppealsList.

(** ** The order-create form (orders_control/js/create.js) *)

Module OrderCreate.

Definition INT_MAX : Z := 2147483647.

Inductive event : Type :=
| EAlert (message : string)
| EConsoleError (message : string)
| EReportValidity
| EFetch (method url : string)
| EPost (url : string) (verification_entry_data : Obj.t)
    (new_images : list string).

(** The JSON body of /act-numbers/by-number, with the fields the script
    reads; [None] is a field that is missing or null. *)
Record act_data : Type := ActData {
  found : option bool;
  client_full_name : option string;
  address : option string;
  client_phone : option string;
  verification_date : option string;
  legal_entity : option string;
  city_id : option string;
  photos : option (list string) }.

(** [window.prefillData], with the fields [fillFromOrderForActNumber]
    reads. *)
Record prefill : Type := Prefill {
  pf_client_full_name : option string;
  pf_address : option string;
  pf_client_phone : option string;
  pf_verification_date : option string;
  pf_legal_entity : option string;
  pf_city_id : option string }.

(** The page: [window.companyId], the series select ([None] when the
    element is missing) and the act-number input, [lastActQueryKey],
    [window.deletedImages], the value of each form control by element id,
    the option values of [#city_id], the value of the phone mask, the photos
    last given to [renderActPhotos], [window.prefillData], the busy flag of
    the submit handler, and the effects so far.  The phone control
    [#client_phone] is written through its mask and by the submit handler:
    [phoneMask] stands for it, and [fields] says nothing about it. *)
Record state : Type := State {
  companyId : JS.value;
  seriesSelect : option string;
  actInput : string;
  lastActQueryKey : option string;
  deletedImages : list Z;
  fields : gmap string string;
  city_options : list string;
  phoneMask : string;
  rendered_photos : list string;
  prefillData : option prefill;
  isSubmitting : bool;
  events : list event }.

Definition emit (e : event) (st : state) : state :=
  State (companyId st) (seriesSelect st) (actInput st) (lastActQueryKey st)
    (deletedImages st) (fields st) (city_options st) (phoneMask st)
    (rendered_photos st) (prefillData st) (isSubmitting st)
    (events st ++ [e]).

Definition set_lastActQueryKey (k : option string) (st : state) : state :=
  State (companyId st) (seriesSelect st) (actInput st) k
    (deletedImages st) (fields st) (city_options st) (phoneMask st)
    (rendered_photos st) (prefillData st) (isSubmitting st) (events st).

Definition set_deletedImages (l : list Z) (st : state) : state :=
  State (companyId st) (seriesSelect st) (actInput st) (lastActQueryKey st)
    l (fields st) (city_options st) (phoneMask st)
    (rendered_photos st) (prefillData st) (isSubmitting st) (events st).

Definition set_fields (f : gmap string string) (st : state) : state :=
  State (companyId st) (seriesSelect st) (actInput st) (lastActQueryKey st)
    (deletedImages st) f (city_options st) (phoneMask st)
    (rendered_photos st) (prefillData st) (isSubmitting st) (events st).

Definition set_phoneMask (v : string) (st : state) : state :=
  State (companyId st) (seriesSelect st) (actInput st) (lastActQueryKey st)
    (deletedImages st) (fields st) (city_options st) v
    (rendered_photos st) (prefillData st) (isSubmitting st) (events st).

Definition set_isSubmitting (b : bool) (st : state) : state :=
  State (companyId st) (seriesSelect st) (actInput st) (lastActQueryKey st)
    (deletedImages st) (fields st) (city_options st) (phoneMask st)
    (rendered_photos st) (prefillData st) b (events st).

(** [renderActPhotos(photos)] of act_number_photos_utils.js, as far as the
    page shows: the photos rendered. *)
Definition renderActPhotos (l : list string) (st : state) : state :=
  State (companyId st) (seriesSelect st) (actInput st) (lastActQueryKey st)
    (deletedImages st) (fields st) (city_options st) (phoneMask st)
    l (prefillData st) (isSubmitting st) (events st).

(** [setIf(id, val)] *)
Definition setIf (id : string) (val : option string) (st : state) : state :=
  match fields st !! id, val with
  | Some _, Some v => set_fields (<[id := v]> (fields st)) st
  | _, _ => st
  end.

Definition truthy_str (v : option string) : option string :=
  match v with
  | Some s => if String.eqb s "" then None else Some s
  | None => None
  end.

(** The form controls written from an act or from the order: name and
    address, phone, verification date, legal entity and city. *)
Definition fill (name addr phone vdate legal city : option string)
  (st : state) : state :=
  let st1 := setIf "address" addr (setIf "client_full_name" name st) in
  let st2 :=
    match truthy_str phone with
    | Some p => set_phoneMask p st1
    | None => st1
    end in
  let st3 :=
    match truthy_str vdate with
    | Some d => setIf "verification_date" (Some d) st2
    | None => st2
    end in
  let st4 := setIf "legal_entity" legal st3 in
  match city, fields st4 !! "city_id" with
  | Some c, Some _ =>
      if existsb (String.eqb c) (city_options st4)
      then set_fields (<["city_id" := c]> (fields st4)) st4
      else st4
  | _, _ => st4
  end.

Definition fillFromOrderForActNumber (st : state) : state :=
  match prefillData st with
  | None => st
  | Some p =>
      fill (pf_client_full_name p) (pf_address p) (pf_client_phone p)
        (pf_verification_date p) (pf_legal_entity p) (pf_city_id p) st
  end.

(** [Number.isFinite(parseInt(digits, 10))] for the integer the digits
    denote: the integers that round to a finite double. *)
Definition isFinite (n : Z) : bool := n <? 2 ^ 1024 - 2 ^ 970.

(** [(actInput.value || '').replace(/\D/g, '').replace(/^0+/, '')] *)
Definition act_digits (st : state) : string :=
  JS.strip_leading_zeros (JS.digits_only (actInput st)).

Definition act_endpoint : string := "/verification/api/act-numbers/by-number/".

(** [queryActNumber()] up to [await fetch(url, ...)].  The result is the
    [queryKey] of the request, when one was sent. *)
Definition queryActNumber_start (st : state) : state * option string :=
  let st := set_deletedImages [] st in
  let seriesId := default "" (seriesSelect st) in
  let digits := act_digits st in
  if String.eqb seriesId ""
  then (renderActPhotos [] (emit (EAlert "Сначала выберите серию бланка.") st),
        None)
  else if String.eqb digits "" then (renderActPhotos [] st, None)
  else
    match JS.parseInt digits with
    | None => (renderActPhotos [] st, None)
    | Some num =>
        if negb (isFinite num) || (num <? 1)
        then (renderActPhotos [] st, None)
        else if INT_MAX <? num
        then (renderActPhotos []
                (emit (EAlert ("Номер бланка превышает допустимый максимум ("
                               +:+ JS.string_of_Z INT_MAX +:+ ").")) st),
              None)
        else
          let queryKey := seriesId +:+ ":" +:+ JS.string_of_Z num in
          let st1 := set_lastActQueryKey (Some queryKey) st in
          let params :=
            [ ("company_id", JS.String_ (companyId st1));
              ("series_id", seriesId);
              ("act_number", JS.string_of_Z num) ] in
          (emit (EFetch "GET"
                   (act_endpoint +:+ "?" +:+ URLSearchParams.toString params))
             st1,
           Some queryKey)
    end.

(** [queryActNumber()] from the outcome of its request on, for the call
    whose key is [queryKey].  The JSON body is the act, or [None] for
    [null]. *)
Definition queryActNumber_resume (queryKey : string)
  (o : outcome (option act_data)) (st : state) : state :=
  match o with
  | NetworkError message =>
      renderActPhotos []
        (fillFromOrderForActNumber
           (emit (EConsoleError
                    ("Ошибка запроса /act-numbers/by-number: " +:+ message))
              st))
  | Response status _ _ json =>
      if status_ok status then
        if negb (bool_decide (lastActQueryKey st = Some queryKey)) then st
        else
          match default None json with
          | Some data =>
              if bool_decide (found data = Some false)
              then renderActPhotos [] (fillFromOrderForActNumber st)
              else
                renderActPhotos (default [] (photos data))
                  (fill (client_full_name data) (address data)
                     (client_phone data) (verification_date data)
                     (legal_entity data) (city_id data) st)
          | None => renderActPhotos [] (fillFromOrderForActNumber st)
          end
      else renderActPhotos [] (fillFromOrderForActNumber st)
  end.

(** What the submit handler reads besides the state: the id of the
    submitter, the phone mask ([unmaskedValue], [masked.isComplete]), today
    in the company's time zone, [form.checkValidity()], the entries of
    [new FormData(form)], [window.companyTz], [window.orderId], and the files
    of [#verification_images]. *)
Record submission : Type := Submission {
  submitter_id : option string;
  unmaskedValue : string;
  isComplete : bool;
  today : string;
  checkValidity : bool;
  form_data : list (string * string);
  companyTz : JS.value;
  orderId : JS.value;
  files : list string }.

Definition create_endpoint : string := "/verification/api/orders-control/create/".

(** The act number of the submit handler: [actNum], [None] for [null]. *)
Definition actNum (st : state) : option Z :=
  let cleaned := act_digits st in
  if String.eqb cleaned "" then None else JS.parseInt cleaned.

(** The object sent as [verification_entry_data]. *)
Definition payload (n : Z) (sub : submission) (st : state) : Obj.t :=
  let tmp := URLSearchParams.set "act_number" (JS.string_of_Z n)
               (form_data sub) in
  let obj :=
    fold_left
      (fun obj e =>
         Obj.assign (fst e)
           (if String.eqb (snd e) "True" then JS.VBool true
            else if String.eqb (snd e) "False" then JS.VBool false
            else JS.VStr (snd e)) obj)
      tmp [] in
  Obj.set "deleted_images_id" (JS.VIds (deletedImages st))
    (Obj.set "company_tz"
       (JS.or_else (companyTz sub) (JS.VStr "Europe/Moscow")) obj).

(** The submit listener of the form, up to [await fetch(url, ...)]. *)
Definition submit_start (sub : submission) (st : state) : state :=
  if isSubmitting st then st
  else
    let redirectFlag :=
      if bool_decide (submitter_id sub = Some "submit-order-and-metrolog")
      then "1" else "0" in
    let allowShort := (Z.of_nat (String.length (unmaskedValue sub)) <=? 2) in
    let allowFull := isComplete sub in
    if negb (allowShort || allowFull)
    then emit (EAlert
                 "Введите телефон полностью (+7 (xxx) xxx-xx-xx) или оставьте +7")
           st
    else
      let st := if allowShort then set_phoneMask "" st else st in
      let vdate := default "" (fields st !! "verification_date") in
      if negb (String.eqb vdate "") && String.ltb (today sub) vdate
      then emit (EAlert "Дата поверки не может быть позже сегодняшнего дня.")
             st
      else if negb (checkValidity sub) then emit EReportValidity st
      else
        match actNum st with
        | None => emit (EAlert "Введите корректный номер бланка (> 0).") st
        | Some n =>
            if n <? 1
            then emit (EAlert "Введите корректный номер бланка (> 0).") st
            else if INT_MAX <? n
            then emit (EAlert ("Номер бланка превышает допустимый максимум ("
                               +:+ JS.string_of_Z INT_MAX +:+ ").")) st
            else
              let params :=
                [ ("company_id", JS.String_ (companyId st));
                  ("order_id", JS.String_ (orderId sub));
                  ("redirect_to_metrolog_info", redirectFlag) ] in
              emit (EPost
                      (create_endpoint +:+ "?"
                       +:+ URLSearchParams.toString params)
                      (payload n sub st) (files sub))
                (set_isSubmitting true st)
        end.

Definition set_actInput (v : string) (st : state) : state :=
  State (companyId st) (seriesSelect st) v (lastActQueryKey st)
    (deletedImages st) (fields st) (city_options st) (phoneMask st)
    (rendered_photos st) (prefillData st) (isSubmitting st) (events st).

(** The [input] listener of the act-number field. *)
Definition actInput_input (st : state) : state :=
  set_actInput (JS.digits_only (actInput st)) st.

(** The [paste] listener of the act-number field, for the clipboard text
    and the selection of the field; the result holds the caret set by
    [setSelectionRange].  Offsets count the characters of the field, which
    are ASCII. *)
Definition actInput_paste (text : string) (selectionStart selectionEnd : nat)
  (st : state) : state * nat :=
  let digits := JS.digits_only text in
  let current := actInput st in
  (set_actInput
     (substring 0 selectionStart current +:+ digits
      +:+ substring selectionEnd (String.length current - selectionEnd)
            current) st,
   (selectionStart + String.length digits)%nat).

(** [key.toLowerCase()], as far as a comparison with an ASCII letter can
    tell. *)
Definition toLowerCase (key : string) : string :=
  string_of_list_ascii
    (map (fun c =>
            let n := N_of_ascii c in
            if ((0x41 <=? n) && (n <=? 0x5A))%N then ascii_of_N (n + 32)
            else c)
       (list_ascii_of_string key)).

(** The [keydown] listener of the act-number field: whether it calls
    [preventDefault], for [e.key], [e.ctrlKey] and [e.metaKey]. *)
Definition actInput_keydown (key : string) (ctrlKey metaKey : bool) : bool :=
  let allowedCtrl :=
    String.eqb key "Backspace" || String.eqb key "Delete"
    || String.eqb key "Tab" || String.eqb key "Escape"
    || String.eqb key "Enter" || String.prefix "Arrow" key
    || ((ctrlKey || metaKey)
        && existsb (String.eqb (toLowerCase key)) ["a"; "c"; "v"; "x"]) in
  if allowedCtrl then false
  else match key with
       | String c EmptyString => negb (JS.is_digit c)
       | _ => true
       end.

(** [getFullYearFromRegistryNumber(regNum)], for the year
    [getCurrentYearInTz()] gives; a missing [regNum] is the empty string. *)
Definition getFullYearFromRegistryNumber (regNum : string) (currentYear : Z)
  : Z :=
  match nth_error (URLSearchParams.split_on "-" regNum) 1 with
  | Some part =>
      match JS.parseInt part with
      | Some lastTwo =>
          if lastTwo <=? Z.rem currentYear 100 then 2000 + lastTwo
          else 1900 + lastTwo
      | None => currentYear
      end
  | None => currentYear
  end.

(** The [blur] listener of the verification date, for the current year and
    [lastRegistryData.registry_number] ([None] without registry data). *)
Definition verificationDate_blur (currentYear : Z)
  (registry_number : option string) (st : state) : state :=
  match fields st !! "verification_date" with
  | None => st
  | Some value =>
      if String.eqb value "" then st
      else
        let parts := URLSearchParams.split_on "-" value in
        if negb (Nat.eqb (length parts) 3) then st
        else
          let vYear := JS.parseInt (List.hd "" parts) in
          let clear (message : string) (st : state) :=
            set_fields (<["verification_date" := ""]> (fields st))
              (emit (EAlert message) st) in
          let st1 :=
            match vYear with
            | Some y =>
                if currentYear <? y
                then clear ("Введен неверный год, введите год не позже чем "
                            +:+ JS.string_of_Z currentYear) st
                else st
            | None => st
            end in
          match truthy_str registry_number, vYear with
          | Some regNum, Some y =>
              let rYear := getFullYearFromRegistryNumber regNum currentYear in
              if y <? rYear
              then clear ("Введен неверный год, введите год не раньше чем "
                          +:+ JS.string_of_Z rYear) st1
              else st1
          | _, _ => st1
          end
  end.

(** The JSON body of the create request, with the fields the submit
    handler reads: the error texts, [status], the two ids and
    [redirect_to].  An error field is a text or missing; a body whose error
    field holds an object or a list is not covered. *)
Record create_reply : Type := CreateReply {
  cr_detail : option string;
  cr_message : option string;
  cr_error : option string;
  cr_errors : option string;
  cr_status : option string;
  cr_verification_entry_id : JS.value;
  cr_metrolog_info_id : JS.value;
  cr_redirect_to : option string }.

Definition first_some (a b : option string) : option string :=
  match a with
  | Some _ => a
  | None => b
  end.

(** The page the submit handler goes to after a create. *)
Definition redirect_url (data : create_reply) (st : state) : string :=
  let company := JS.String_ (companyId st) in
  let ve := JS.String_ (cr_verification_entry_id data) in
  let mi := JS.String_ (cr_metrolog_info_id data) in
  let r := default "" (cr_redirect_to data) in
  if String.eqb r "p" then
    "/verification/api/verification-protocols/one/?"
    +:+ URLSearchParams.toString
          [ ("company_id", company); ("verification_entry_id", ve);
            ("metrolog_info_id", mi) ]
  else if String.eqb r "m" then
    if JS.truthy (cr_metrolog_info_id data) then
      "/verification/metrologs-control/update/?"
      +:+ URLSearchParams.toString
            [ ("company_id", company); ("verification_entry_id", ve);
              ("metrolog_info_id", mi) ]
    else
      "/verification/metrologs-control/create/?"
      +:+ URLSearchParams.toString
            [("company_id", company); ("verification_entry_id", ve)]
  else if String.eqb r "v" then
    "/verification/orders-control/?"
    +:+ URLSearchParams.toString [("company_id", company)]
  else "/verification/orders-control/?company_id=" +:+ company.

(** The submit listener from the outcome of the POST on.  The JSON body is
    the reply, or [None] for [null]; the result holds the URL assigned to
    [window.location.href], if any. *)
Definition submit_resume (o : outcome (option create_reply)) (st : state)
  : state * option string :=
  match o with
  | NetworkError message =>
      (set_isSubmitting false
         (emit (EAlert "Сеть недоступна или сервер временно недоступен.")
            (emit (EConsoleError ("Ошибка при отправке формы: " +:+ message))
               st)),
       None)
  | Response status _ _ json =>
      let data := default None json in
      if negb (status_ok status) then
        let named :=
          match data with
          | Some d =>
              first_some (truthy_str (cr_detail d))
                (first_some (truthy_str (cr_message d))
                   (first_some (truthy_str (cr_error d))
                      (truthy_str (cr_errors d))))
          | None => None
          end in
        let msg := default ("Ошибка " +:+ JS.string_of_Z status) named in
        (set_isSubmitting false
           (emit (EAlert msg)
              (emit (EConsoleError
                       ("Ошибка создания: " +:+ JS.string_of_Z status +:+ " "
                        +:+ msg)) st)),
         None)
      else
        match data with
        | Some d =>
            if bool_decide (cr_status d = Some "ok")
            then (st, Some (redirect_url d st))
            else (set_isSubmitting false
                    (emit (EAlert "Неожиданный ответ сервера.") st), None)
        | None =>
            (set_isSubmitting false
               (emit (EAlert "Неожиданный ответ сервера.") st), None)
        end
  end.

End OrderCreate.

(** ** Auxiliary definitions for the proofs *)

(** [c] occurs in [s]. *)
Fixpoint occurs (c : ascii) (s : string) : bool :=
  match s with
  | EmptyString => false
  | String c' r => Ascii.eqb c' c || occurs c r
  end.

(** A null or undefined argument of [buildQuery] aside, the argument is an
    object. *)
Definition wf_arg (paramsObj : option Obj.t) : Prop :=
  match paramsObj with
  | Some o => Obj.wf o
  | None => True
  end.

(** The tenant parameter: the URL's own [company_id] when the URL has one,
    else [window.company_id]; none when that value is falsy. *)
Definition resolved_company (st : VerificationList.state) : option string :=
  match URLSearchParams.get "company_id"
          (URLSearchParams.of_search (VerificationList.search st)) with
  | Some v => if String.eqb v "" then None else Some v
  | None =>
      if JS.truthy (VerificationList.window_company_id st)
      then Some (JS.String_ (VerificationList.window_company_id st))
      else None
  end.

(** The entries of the argument that [buildQuery] keeps, as strings. *)
Definition kept_entries (paramsObj : option Obj.t) : URLSearchParams.t :=
  map (fun e => (fst e, JS.String_ (snd e)))
    (List.filter (fun e => VerificationList.kept (snd e))
       (Obj.entries (default [] paramsObj))).

(** The tenant parameter first, then the kept entries; a kept entry named
    [company_id] gives the tenant parameter its value. *)
Definition merge_company (c : option string) (kept : URLSearchParams.t)
  : URLSearchParams.t :=
  match c with
  | None => kept
  | Some v =>
      ("company_id", default v (URLSearchParams.get "company_id" kept))
      :: List.filter (fun e => negb (String.eqb (fst e) "company_id")) kept
  end.

(** The query parameters as the specification words them: the tenant
    parameter, from the URL first, else from the page-global default,
    omitted when neither is present; plus every kept entry. *)
Definition claimed_params (paramsObj : option Obj.t)
  (st : VerificationList.state) : URLSearchParams.t :=
  let company :=
    match URLSearchParams.get "company_id"
            (URLSearchParams.of_search (VerificationList.search st)) with
    | Some v => [("company_id", v)]
    | None =>
        match VerificationList.window_company_id st with
        | JS.VUndefined | JS.VNull => []
        | v => [("company_id", JS.String_ v)]
        end
    end in
  company ++ kept_entries paramsObj.

(** A pair of [p] with its value taken from [l] where [l] has the name. *)
Definition overlay (l : URLSearchParams.t) (e : string * string)
  : string * string :=
  (fst e, default (snd e) (URLSearchParams.get (fst e) l)).

(** The value the filter form gives for the name [k]: its last non-empty
    entry of that name; none for the name [__proto__], which the reader of
    the form cannot store. *)
Definition form_step (k : string) (acc : option string) (e : string * string)
  : option string :=
  if String.eqb (fst e) k && negb (String.eqb (snd e) "")
     && negb (String.eqb k "__proto__")
  then Some (snd e) else acc.

Definition form_value (k : string) (form : list (string * string))
  : option string :=
  fold_left (form_step k) form None.

(** The non-empty value of the URL parameter [k]: that of the first
    parameter of that name. *)
Definition param_text (k : string) (st : VerificationList.state)
  : option string :=
  match URLSearchParams.get k
          (URLSearchParams.of_search (VerificationList.search st)) with
  | Some v => if String.eqb v "" then None else Some v
  | None => None
  end.

(** The value the address bar gives for the name [k], a known key. *)
Definition url_value (k : string) (st : VerificationList.state)
  : option string :=
  if existsb (String.eqb k) VerificationList.knownKeys
  then param_text k st else None.

Definition url_step (st : VerificationList.state) (out : Obj.t) (k : string)
  : Obj.t :=
  match param_text k st with
  | Some v => Obj.set k (JS.VStr v) out
  | None => out
  end.

(** The page size: the value of [#limit] when the element is there and the
    value is not empty, else the one of the address bar, else 30. *)
Definition resolved_limit (st : VerificationList.state) : string :=
  match VerificationList.limit_el st with
  | Some (String c r) => String c r
  | _ => default "30" (url_value "limit" st)
  end.

Definition from_text (v : option string) : JS.value :=
  match v with
  | Some s => JS.VStr s
  | None => JS.VUndefined
  end.

(** The page used in the examples. *)
Definition example_page : VerificationList.state :=
  VerificationList.State "/verification/"
    "?company_id=5&date_from=2024-01-01&junk=1" 3 JS.VUndefined
    [("date_to", "2024-02-01"); ("city_id", "")] (Some "50")
    (Some [VerificationList.placeholder_row 0]) (Some [])
    (Some "10") (Some "4") (Some "6") [] [] 1.

(** [k in o] *)
Definition has_key (k : string) (o : Obj.t) : bool :=
  existsb (fun e => String.eqb (fst e) k) o.

(** Every property of [o] holds a string. *)
Definition all_text (o : Obj.t) : Prop :=
  forall e, In e o -> exists s, snd e = JS.VStr s.

(** A character of the decimal text of an integer. *)
Definition num_char (c : ascii) : bool := JS.is_digit c || Ascii.eqb c "-".

(** The request did not succeed: it never completed, or its status is not
    a success status. *)
Definition failed {J : Type} (o : outcome J) : Prop :=
  match o with
  | NetworkError _ => True
  | Response status _ _ _ => status_ok status = false
  end.

(** The server reports a delete successful: a success status, and no
    [error] in the body. *)
Definition deleted (o : outcome (option string)) : Prop :=
  match o with
  | NetworkError _ => False
  | Response status _ _ json =>
      status_ok status = true /\ default "" (default None json) = ""
  end.

(** An appeals page used in the examples: page 1, one row shown. *)
Definition example_appeals : AppealsList.state :=
  AppealsList.State 1
    [AppealsList.Row (Some 7)
       [AppealsList.td "7"; AppealsList.td "ул. Мира, 1";
        AppealsList.td ""; AppealsList.td ""; AppealsList.td "";
        AppealsList.td "Новая"]]
    [] true "" false [("new", HTML.Text "Новая" eq_refl)] false [].

(** An entry used in the examples. *)
Definition example_entry : VerificationList.entry :=
  VerificationList.Entry 11 "Иванов И. И." "01.02.2024" "Казань" "ул. Мира, 1"
    "Петров П. П." "СГВ-15" "12345-16" "СГВ" "A-100" "Кухня" "" "31.01.2030"
    "АБ" "17" true "cold" "present" "2020" "" "" None "5".

(** The response has a success status. *)
Definition ok_response {J : Type} (o : outcome J) : Prop :=
  match o with
  | NetworkError _ => False
  | Response status _ _ _ => status_ok status = true
  end.

(** An order-create page used in the examples: series 3, act number 5. *)
Definition example_order : OrderCreate.state :=
  OrderCreate.State (JS.VNum 1) (Some "3") "005" None []
    (<["client_full_name" := "old"]> (<["verification_date" := ""]> ∅))
    [] "" [] None false [].

Definition example_act : OrderCreate.act_data :=
  OrderCreate.ActData None (Some "new") None None None None None None.

(** The POST requests among the effects. *)
Definition posts (es : list OrderCreate.event) : list OrderCreate.event :=
  List.filter
    (fun e => match e with
              | OrderCreate.EPost _ _ _ => true
              | _ => false
              end) es.

(** The submit handler comes to the check of the act number: it is not
    busy, the phone is empty or complete, the verification date is not after
    today, and the form is valid. *)
Definition reaches_act_check (sub : OrderCreate.submission)
  (st : OrderCreate.state) : bool :=
  negb (OrderCreate.isSubmitting st)
  && ((Z.of_nat (String.length (OrderCreate.unmaskedValue sub)) <=? 2)
      || OrderCreate.isComplete sub)
  && negb (negb (String.eqb
                   (default "" (OrderCreate.fields st !! "verification_date"))
                   "")
           && String.ltb (OrderCreate.today sub)
                (default "" (OrderCreate.fields st !! "verification_date")))
  && OrderCreate.checkValidity sub.

(** The act number does not pass the check of the submit handler: no
    digit other than leading zeros, or a value below 1 or above INT_MAX. *)
Definition act_invalid (st : OrderCreate.state) : bool :=
  match OrderCreate.actNum st with
  | None => true
  | Some n => (n <? 1) || (OrderCreate.INT_MAX <? n)
  end.

(** A submission used in the examples. *)
Definition example_submission : OrderCreate.submission :=
  OrderCreate.Submission (Some "submit-order") "7" false "2024-03-01" true
    [("act_number", "005"); ("legal_entity", "True"); ("address", "")]
    JS.VUndefined (JS.VNum 12) [].

(** The value the submit handler stores for a form entry. *)
Definition to_field (v : string) : JS.value :=
  if String.eqb v "True" then JS.VBool true
  else if String.eqb v "False" then JS.VBool false
  else JS.VStr v.

(** The page numbers of the numbered links of a pagination control, those
    whose text is their page number, and an ellipsis as [None]. *)
Definition numbered (items : list VerificationList.page_item)
  : list (option string) :=
  flat_map
    (fun item =>
       match item with
       | VerificationList.PageLink data_page label _ _ =>
           if String.eqb label data_page then [Some data_page] else []
       | VerificationList.Ellipsis => [None]
       end) items.

(** The link is marked active. *)
Definition is_active (item : VerificationList.page_item) : bool :=
  match item with
  | VerificationList.PageLink _ _ active _ => active
  | VerificationList.Ellipsis => false
  end.

(** The text of the badge of a row: the first cell that
    [td.text-white.bg-success, td.text-white.bg-danger] selects, trimmed. *)
Definition badge (tr : VerificationList.row) : option string :=
  option_map (fun c => JS.trim (VerificationList.text c))
    (VerificationList.result_td tr).

(** The badge of the row reads [s]. *)
Definition badge_is (tr : VerificationList.row) (s : string) : bool :=
  match badge tr with
  | Some b => String.eqb b s
  | None => false
  end.

(** A counter after the delete handler has taken 1 from it. *)
Definition decremented (el : option string) : option string :=
  match el with
  | Some txt => VerificationList.decrement txt
  | None => None
  end.

(** The counter is missing, or it reads as a number that a double holds
    exactly. *)
Definition exact_counter (el : option string) : Prop :=
  match el with
  | Some txt => VerificationList.decrement txt <> None
  | None => True
  end.

(** The timers that [showAlert] sets for the notifications among the
    effects. *)
Definition toast_timers (es : list VerificationList.event)
  : list VerificationList.timer :=
  flat_map
    (fun e =>
       match e with
       | VerificationList.EToast message _ timeout =>
           if timeout =? 0 then []
           else [VerificationList.THideAlert timeout message]
       | _ => []
       end) es.

(** A markup-free text used in the examples. *)
Definition example_message : HTML.text := HTML.Text "Ошибка 500" eq_refl.

(** An effect that neither sends a request nor touches the address bar nor
    asks the user. *)
Definition is_notice (e : VerificationList.event) : bool :=
  match e with
  | VerificationList.EConsoleError _ | VerificationList.EToast _ _ _
  | VerificationList.EAlert _ => true
  | _ => false
  end.

(** The form controls that an act or the order can be written to: the
    five that [fields] holds, and the phone. *)
Definition act_controls : list string :=
  ["client_full_name"; "address"; "client_phone"; "verification_date";
   "legal_entity"; "city_id"].

(** From [st] to [st'] no form control appears or disappears, and only
    controls among [names] change their value. *)
Definition writes_only (names : list string) (st st' : OrderCreate.state)
  : Prop :=
  forall k,
    (is_Some (OrderCreate.fields st' !! k)
     <-> is_Some (OrderCreate.fields st !! k))
    /\ (~ In k names ->
        OrderCreate.fields st' !! k = OrderCreate.fields st !! k).

(** A console message. *)
Definition is_console (e : OrderCreate.event) : bool :=
  match e with
  | OrderCreate.EConsoleError _ => true
  | _ => false
  end.

(** The text holds decimal digits only. *)
Definition all_digits (s : string) : Prop :=
  Forall (fun c => JS.is_digit c = true) (list_ascii_of_string s).

(** A row used in the examples: the one rendered for [example_entry]. *)
Definition example_row : VerificationList.row :=
  default (VerificationList.placeholder_row 0)
    (VerificationList.render_row example_page 0 example_entry).

(** * Properties *)

(** ** The primitives on examples *)

Example trim_example :
  JS.trim (String "009" " Пригодно  ") = "Пригодно"
  /\ JS.trim "   " = "" /\ JS.trim "a b" = "a b".
Proof. repeat split. Qed.

Example Number_example :
  JS.Number "12" = Some 12 /\ JS.Number " -3 " = Some (-3)
  /\ JS.Number "+4" = Some 4 /\ JS.Number "" = Some 0
  /\ JS.Number "abc" = None /\ JS.Number "+-1" = None.
Proof. repeat split. Qed.

Example parseInt_example :
  JS.parseInt " 42px" = Some 42 /\ JS.parseInt "-7" = Some (-7)
  /\ JS.parseInt "007" = Some 7 /\ JS.parseInt "" = None
  /\ JS.parseInt "px" = None.
Proof. repeat split. Qed.

Example toString_example :
  URLSearchParams.toString
    [("date_from", "2024-01-01"); ("client_address", "ул. Мира & Ко")]
  = "date_from=2024-01-01"
    +:+ "&client_address=%D1%83%D0%BB.+%D0%9C%D0%B8%D1%80%D0%B0+%26+%D0%9A%D0%BE".
Proof. reflexivity. Qed.

Example of_search_example :
  URLSearchParams.of_search "?company_id=5&&page=2&q=a+b%21&flag"
  = [("company_id", "5"); ("page", "2"); ("q", "a b!"); ("flag", "")].
Proof. reflexivity. Qed.

Example set_example :
  URLSearchParams.set "a" "9" [("b", "1"); ("a", "2"); ("c", "3"); ("a", "4")]
  = [("b", "1"); ("a", "9"); ("c", "3")].
Proof. reflexivity. Qed.

Example entries_example :
  Obj.keys
    [ ("b", JS.VNum 1); ("10", JS.VNum 2); ("2", JS.VNull);
      ("01", JS.VNull); ("a", JS.VStr "") ]
  = ["2"; "10"; "b"; "01"; "a"].
Proof. reflexivity. Qed.

(** ** Numbers and their decimal text *)

Lemma to_int_nonnil (n : Z) :
  Z.to_int n <> Decimal.Pos Decimal.Nil
  /\ Z.to_int n <> Decimal.Neg Decimal.Nil.
Proof.
  destruct n as [|p|p]; simpl; split; try discriminate;
    intros [= H]; now apply (DecimalPos.Unsigned.to_uint_nonnil p).
Qed.

(** ** The query-string codec: parsing undoes serialising *)

Section Codec.
Import URLSearchParams.

Lemma occurs_app c a b : occurs c (a +:+ b) = occurs c a || occurs c b.
Proof.
  induction a as [|x a IH]; simpl; [reflexivity|].
  rewrite IH. now rewrite orb_assoc.
Qed.

Lemma encode_byte_free_amp c : occurs "&" (encode_byte c) = false.
Proof. destruct c as [[] [] [] [] [] [] [] []]; reflexivity. Qed.

Lemma encode_byte_free_eq c : occurs "=" (encode_byte c) = false.
Proof. destruct c as [[] [] [] [] [] [] [] []]; reflexivity. Qed.

Lemma encode_free_amp s : occurs "&" (encode s) = false.
Proof.
  induction s as [|c s IH]; simpl; [reflexivity|].
  now rewrite occurs_app, encode_byte_free_amp, IH.
Qed.

Lemma encode_free_eq s : occurs "=" (encode s) = false.
Proof.
  induction s as [|c s IH]; simpl; [reflexivity|].
  now rewrite occurs_app, encode_byte_free_eq, IH.
Qed.

Lemma decode_encode_byte c t :
  decode (encode_byte c +:+ t) = String c (decode t).
Proof. destruct c as [[] [] [] [] [] [] [] []]; reflexivity. Qed.

Lemma decode_encode s : decode (encode s) = s.
Proof.
  induction s as [|c s IH]; simpl; [reflexivity|].
  now rewrite decode_encode_byte, IH.
Qed.

Lemma cut_at_app sep a b :
  occurs sep a = false -> cut_at sep (a +:+ String sep b) = (a, b).
Proof.
  induction a as [|x a IH]; simpl; intros H.
  - now rewrite Ascii.eqb_refl.
  - apply orb_false_iff in H as [Hx Ha]. rewrite Hx, (IH Ha). reflexivity.
Qed.

Lemma split_on_free sep a : occurs sep a = false -> split_on sep a = [a].
Proof.
  induction a as [|x a IH]; simpl; intros H; [reflexivity|].
  apply orb_false_iff in H as [Hx Ha]. now rewrite Hx, (IH Ha).
Qed.

Lemma split_on_app sep a b :
  occurs sep a = false ->
  split_on sep (a +:+ String sep b) = a :: split_on sep b.
Proof.
  induction a as [|x a IH]; simpl; intros H.
  - now rewrite Ascii.eqb_refl.
  - apply orb_false_iff in H as [Hx Ha]. now rewrite Hx, (IH Ha).
Qed.

Lemma encode_pair_free_amp e : occurs "&" (encode_pair e) = false.
Proof.
  unfold encode_pair. rewrite !occurs_app, !encode_free_amp. reflexivity.
Qed.

Lemma parse_pair_encode e : parse_pair (encode_pair e) = [e].
Proof.
  destruct e as [k v]. unfold parse_pair, encode_pair. simpl fst; simpl snd.
  destruct (String.eqb_spec (encode k +:+ "=" +:+ encode v) "") as [E|_].
  - apply (f_equal (occurs "=")) in E. rewrite occurs_app in E. simpl in E.
    rewrite orb_true_r in E. discriminate.
  - change (encode k +:+ "=" +:+ encode v)
      with (encode k +:+ String "=" (encode v)).
    rewrite cut_at_app by apply encode_free_eq.
    now rewrite !decode_encode.
Qed.

Lemma parse_toString p : parse (toString p) = p.
Proof.
  unfold parse, toString.
  induction p as [|e p IH]; [reflexivity|].
  destruct p as [|e' p'].
  - simpl. rewrite split_on_free by apply encode_pair_free_amp.
    simpl. rewrite parse_pair_encode. reflexivity.
  - change (String.concat "&" (map encode_pair (e :: e' :: p')))
      with (encode_pair e
            +:+ String "&" (String.concat "&" (map encode_pair (e' :: p')))).
    rewrite split_on_app by apply encode_pair_free_amp.
    cbn [flat_map]. rewrite parse_pair_encode, IH. reflexivity.
Qed.

Lemma of_search_query q :
  of_search (if String.eqb q "" then "" else "?" +:+ q) = parse q.
Proof. destruct q; reflexivity. Qed.

End Codec.

(** ** Objects and parameter lists *)

Section Params.
Import URLSearchParams.

Lemma insert_sorted_perm n e l :
  Permutation (map snd (Obj.insert_sorted n e l)) (e :: map snd l).
Proof.
  induction l as [|[m e'] l IH]; simpl; [reflexivity|].
  destruct (n <=? m); simpl; [reflexivity|].
  rewrite IH. apply perm_swap.
Qed.

Lemma index_entries_perm o :
  Permutation (map snd (Obj.index_entries o))
    (List.filter (fun e => Obj.is_index (fst e)) o).
Proof.
  induction o as [|e o IH]; simpl; [reflexivity|].
  unfold Obj.is_index. destruct (Obj.array_index (fst e)); [|exact IH].
  rewrite insert_sorted_perm. now constructor.
Qed.

Lemma filter_split {A} (f : A -> bool) (l : list A) :
  Permutation (List.filter f l ++ List.filter (fun x => negb (f x)) l) l.
Proof.
  induction l as [|x l IH]; simpl; [reflexivity|].
  destruct (f x); simpl.
  - now constructor.
  - rewrite <- Permutation_middle. now constructor.
Qed.

Lemma entries_perm o : Permutation (Obj.entries o) o.
Proof.
  unfold Obj.entries. rewrite index_entries_perm.
  apply (filter_split (fun e => Obj.is_index (fst e))).
Qed.

Lemma entries_NoDup o : Obj.wf o -> NoDup (map fst (Obj.entries o)).
Proof.
  unfold Obj.wf. intros H.
  now rewrite (Permutation_map fst (entries_perm o)).
Qed.

Lemma has_In k (p : t) : has k p = true <-> In k (map fst p).
Proof.
  unfold has. rewrite existsb_exists, in_map_iff. split.
  - intros [e [He Hk]]. apply String.eqb_eq in Hk. eauto.
  - intros [e [Hk He]]. exists e. split; [exact He|]. now apply String.eqb_eq.
Qed.

Lemma has_false_In k (p : t) : has k p = false <-> ~ In k (map fst p).
Proof.
  rewrite <- has_In. destruct (has k p); split; congruence.
Qed.

Lemma get_not_In k (p : t) : ~ In k (map fst p) -> get k p = None.
Proof.
  induction p as [|[k' v] p IH]; simpl; [reflexivity|].
  intros H. destruct (String.eqb_spec k' k) as [->|_]; [tauto|].
  apply IH. tauto.
Qed.

Lemma filter_all {A} (f : A -> bool) (l : list A) :
  (forall x, In x l -> f x = true) -> List.filter f l = l.
Proof.
  induction l as [|x l IH]; simpl; intros H; [reflexivity|].
  rewrite (H x) by now left. f_equal. apply IH. intros y Hy. apply H. now right.
Qed.

Lemma set_append k v (p : t) : has k p = false -> set k v p = p ++ [(k, v)].
Proof.
  induction p as [|[k' v'] p IH]; simpl; [reflexivity|].
  destruct (String.eqb k' k); simpl; [discriminate|].
  intros H. now rewrite IH.
Qed.

(** On distinct names, [set] replaces the value in place. *)
Lemma set_replace k v (p : t) :
  NoDup (map fst p) -> has k p = true ->
  set k v p = map (fun e => if String.eqb (fst e) k then (k, v) else e) p.
Proof.
  induction p as [|[k' v'] p IH]; simpl; [discriminate|].
  intros Hnd Hhas. apply NoDup_cons in Hnd as [Hk' Hnd].
  rewrite list_elem_of_In in Hk'.
  destruct (String.eqb_spec k' k) as [->|Hne].
  - assert (Hp : forall e, In e p -> String.eqb (fst e) k = false).
    { intros e He. destruct (String.eqb_spec (fst e) k) as [E|]; [|easy].
      exfalso. apply Hk'. rewrite <- E. now apply in_map. }
    f_equal. rewrite filter_all.
    + symmetry. erewrite map_ext_in; [apply map_id|].
      intros e He. simpl. now rewrite (Hp e He).
    + intros e He. now rewrite (Hp e He).
  - simpl in Hhas. f_equal. now apply IH.
Qed.

Lemma set_keys k v (p : t) : NoDup (map fst p) -> NoDup (map fst (set k v p)).
Proof.
  intros Hnd. destruct (has k p) eqn:E.
  - rewrite set_replace by assumption.
    erewrite map_map, map_ext; [exact Hnd|].
    intros e. simpl. now destruct (String.eqb_spec (fst e) k) as [->|].
  - rewrite set_append by assumption. rewrite map_app. simpl.
    apply NoDup_app. split; [exact Hnd|]. split.
    + intros x Hx [->|[]]%list_elem_of_In. apply list_elem_of_In in Hx.
      now apply has_false_In in E.
    + apply NoDup_singleton.
Qed.

Lemma has_map_keys k (f : string * string -> string * string) (p : t) :
  (forall e, fst (f e) = fst e) -> has k (map f p) = has k p.
Proof.
  intros H. unfold has. induction p as [|e p IH]; simpl; [reflexivity|].
  now rewrite H, IH.
Qed.

Lemma get_cons_ne k k' v (l : t) :
  k' <> k -> get k ((k', v) :: l) = get k l.
Proof. intros H. simpl. now destruct (String.eqb_spec k' k). Qed.

Lemma get_cons_eq k v (l : t) : get k ((k, v) :: l) = Some v.
Proof. simpl. now rewrite String.eqb_refl. Qed.

(** Setting the pairs of [l] one after the other into [p]: the pairs of [p]
    keep their places and take the values [l] has for them, and the other
    pairs of [l] follow in the order of [l]. *)
Lemma fold_set (l : t) : forall p : t,
  NoDup (map fst l) -> NoDup (map fst p) ->
  fold_left (fun p e => set (fst e) (snd e) p) l p
  = map (overlay l) p ++ List.filter (fun e => negb (has (fst e) p)) l.
Proof.
  induction l as [|[k v] l IH]; intros p Hl Hp.
  - simpl. rewrite app_nil_r. symmetry. erewrite map_ext; [apply map_id|].
    now intros [a b].
  - apply NoDup_cons in Hl as [Hk Hl]. rewrite list_elem_of_In in Hk.
    cbn [fold_left fst snd]. rewrite IH by auto using set_keys.
    cbn [List.filter fst].
    destruct (has k p) eqn:E.
    + rewrite set_replace by assumption. cbn [negb]. rewrite map_map. f_equal.
      * apply map_ext. intros [a b]. unfold overlay. cbn [fst snd].
        destruct (String.eqb_spec a k) as [->|Hne]; cbn [fst snd].
        -- now rewrite get_cons_eq, (get_not_In k l Hk).
        -- rewrite get_cons_ne by congruence. reflexivity.
      * apply filter_ext. intros [a b]. cbn [fst]. f_equal.
        apply has_map_keys. intros [c d]. cbn [fst].
        now destruct (String.eqb_spec c k) as [->|].
    + rewrite set_append by assumption. cbn [negb].
      rewrite map_app, <- app_assoc. cbn [map app]. f_equal.
      * apply map_ext_in. intros [a b] Hab. unfold overlay. cbn [fst snd].
        rewrite get_cons_ne; [reflexivity|].
        intros ->. apply has_false_In in E. apply E.
        now apply (in_map fst) in Hab.
      * unfold overlay at 1. cbn [fst snd]. rewrite (get_not_In k l Hk).
        cbn. f_equal. apply filter_ext_in. intros [a b] Hab. cbn [fst].
        f_equal. unfold has. rewrite existsb_app. cbn [existsb fst].
        destruct (String.eqb_spec k a) as [->|_].
        -- exfalso. apply Hk. now apply (in_map fst) in Hab.
        -- now rewrite !orb_false_r.
Qed.

End Params.

(** ** The query codec of the verification list *)

Section BuildQuery.
Import URLSearchParams VerificationList.

Lemma has_get k (p : t) :
  has k p = true -> exists v, get k p = Some v.
Proof.
  induction p as [|[k' v] p IH]; simpl; [discriminate|].
  destruct (String.eqb k' k); simpl; eauto.
Qed.

Lemma has_get_None k (p : t) : has k p = false -> get k p = None.
Proof. intros H. apply get_not_In. now apply has_false_In. Qed.

(** The tenant parameter that [buildQuery] starts from. *)
Lemma company_param st :
  (if JS.truthy (getCompanyId st)
   then set "company_id" (JS.String_ (getCompanyId st)) []
   else [])
  = match resolved_company st with
    | Some v => [("company_id", v)]
    | None => []
    end.
Proof.
  unfold getCompanyId, resolved_company.
  destruct (has "company_id" (of_search (search st))) eqn:E.
  - destruct (has_get _ _ E) as [v ->]. simpl.
    now destruct (String.eqb v "").
  - rewrite (has_get_None _ _ E). unfold JS.or_else.
    destruct (JS.truthy (window_company_id st)) eqn:T.
    + now rewrite T.
    + reflexivity.
Qed.

Lemma fold_kept (es : list (string * JS.value)) : forall p : t,
  fold_left
    (fun params e =>
       if kept (snd e) then set (fst e) (JS.String_ (snd e)) params
       else params) es p
  = fold_left (fun p e => set (fst e) (snd e) p)
      (map (fun e => (fst e, JS.String_ (snd e)))
         (List.filter (fun e => kept (snd e)) es)) p.
Proof.
  induction es as [|e es IH]; intros p; simpl; [reflexivity|].
  destruct (kept (snd e)); simpl; apply IH.
Qed.

Lemma NoDup_filter_keys {V} (f : string * V -> bool) (l : list (string * V)) :
  NoDup (map fst l) -> NoDup (map fst (List.filter f l)).
Proof.
  induction l as [|e l IH]; simpl; intros H; [exact H|].
  apply NoDup_cons in H as [He H].
  destruct (f e); simpl; [|now apply IH].
  apply NoDup_cons. split; [|now apply IH].
  rewrite list_elem_of_In in *. intros Hin. apply He.
  apply in_map_iff in Hin as [x [Hx Hin]]. apply filter_In in Hin as [Hin _].
  rewrite <- Hx. now apply in_map.
Qed.

Lemma kept_entries_NoDup o : wf_arg o -> NoDup (map fst (kept_entries o)).
Proof.
  intros H. unfold kept_entries. rewrite map_map. cbn [fst].
  apply NoDup_filter_keys.
  destruct o as [o|]; simpl; [now apply entries_NoDup|constructor].
Qed.

(** The parameters [buildQuery] serialises. *)
Lemma buildParams_merge o st :
  wf_arg o ->
  buildParams o st = merge_company (resolved_company st) (kept_entries o).
Proof.
  intros Hwf. unfold buildParams. rewrite company_param, fold_kept.
  fold (kept_entries o). pose proof (kept_entries_NoDup o Hwf) as Hnd.
  destruct (resolved_company st) as [v|]; simpl merge_company.
  - rewrite fold_set; [|exact Hnd|simpl; apply NoDup_singleton].
    cbn [map app]. unfold overlay at 1. cbn [fst snd]. f_equal.
    apply filter_ext. intros [a b]. unfold has. cbn [existsb fst].
    rewrite orb_false_r. f_equal. apply String.eqb_sym.
  - rewrite fold_set; [|exact Hnd|constructor].
    cbn [map app]. now apply filter_all.
Qed.

End BuildQuery.

(** C2, as amended.  For every argument of [buildQuery], an object or
    null, the query string returned holds exactly these parameters, in this
    order.  First the tenant parameter [company_id]: the URL's own
    [company_id] when the URL has that parameter, else [window.company_id];
    it is left out when this value is empty (falsy).  Then every entry of
    the argument whose value is neither null nor undefined and is not empty
    after trimming, as a string; the other entries are left out.  A kept
    entry that is itself named [company_id] is not added a second time: it
    gives the tenant parameter its value, or stands in its own place when
    no tenant parameter was resolved. *)
Theorem C2_buildQuery_parameters
  (paramsObj : option Obj.t) (st : VerificationList.state) :
  wf_arg paramsObj ->
  URLSearchParams.parse (VerificationList.buildQuery paramsObj st)
  = merge_company (resolved_company st) (kept_entries paramsObj).
Proof.
  intros Hwf. unfold VerificationList.buildQuery.
  rewrite parse_toString. now apply buildParams_merge.
Qed.

(** C2, on an example: the blank and null entries are left out. *)
Lemma C2_buildQuery_parameters_witness :
  let arg :=
    Some [ ("date_from", JS.VStr "2024-01-01"); ("city_id", JS.VStr " ");
           ("page", JS.VNum 2); ("note", JS.VNull) ] in
  wf_arg arg
  /\ URLSearchParams.parse (VerificationList.buildQuery arg example_page)
     = [("company_id", "5"); ("date_from", "2024-01-01"); ("page", "2")].
Proof.
  intros arg.
  assert (H : wf_arg arg).
  { unfold arg, wf_arg, Obj.wf. cbn [map fst].
    apply (bool_decide_unpack (NoDup _)). vm_compute. exact I. }
  split; [exact H|].
  rewrite (C2_buildQuery_parameters arg example_page H). reflexivity.
Defined.

(** C2 as the specification words it fails when the argument has its own
    [company_id] entry: the query then carries that value, and not the one
    of the URL, and carries it once. *)
Lemma C2_counterexample :
  let arg := Some [("company_id", JS.VStr "9")] in
  URLSearchParams.parse (VerificationList.buildQuery arg example_page)
  = [("company_id", "9")]
  /\ claimed_params arg example_page
     = [("company_id", "5"); ("company_id", "9")]
  /\ URLSearchParams.parse (VerificationList.buildQuery arg example_page)
     <> claimed_params arg example_page.
Proof. vm_compute. repeat split; discriminate. Qed.

(** ** Reading objects *)

Section Objects.

Lemma get_set k k' v o :
  Obj.get k (Obj.set k' v o) = if String.eqb k' k then v else Obj.get k o.
Proof.
  induction o as [|[a b] o IH]; simpl.
  - now destruct (String.eqb k' k).
  - destruct (String.eqb_spec a k') as [->|Hne]; simpl.
    + now destruct (String.eqb k' k).
    + rewrite IH. destruct (String.eqb_spec a k) as [->|]; [|reflexivity].
      destruct (String.eqb_spec k' k); [congruence|reflexivity].
Qed.

Lemma get_delete k k' o :
  Obj.get k (Obj.delete k' o)
  = if String.eqb k' k then JS.VUndefined else Obj.get k o.
Proof.
  unfold Obj.delete. induction o as [|[a b] o IH]; simpl.
  - now destruct (String.eqb k' k).
  - destruct (String.eqb_spec a k') as [->|Hne]; simpl.
    + rewrite IH. destruct (String.eqb_spec k' k); reflexivity.
    + rewrite IH. destruct (String.eqb_spec a k) as [->|]; [|reflexivity].
      destruct (String.eqb_spec k' k); [congruence|reflexivity].
Qed.

Lemma has_key_set k k' v o :
  has_key k (Obj.set k' v o) = String.eqb k' k || has_key k o.
Proof.
  unfold has_key. induction o as [|[a b] o IH]; simpl.
  - now rewrite orb_false_r.
  - destruct (String.eqb_spec a k') as [->|Hne]; simpl.
    + now destruct (String.eqb k' k).
    + rewrite IH. destruct (String.eqb a k), (String.eqb k' k); reflexivity.
Qed.

Lemma has_key_In k o : has_key k o = true <-> In k (map fst o).
Proof.
  unfold has_key. rewrite existsb_exists, in_map_iff. split.
  - intros [e [He Hk]]. apply String.eqb_eq in Hk. eauto.
  - intros [e [Hk He]]. exists e. split; [exact He|]. now apply String.eqb_eq.
Qed.

Lemma get_no_key k o : has_key k o = false -> Obj.get k o = JS.VUndefined.
Proof.
  unfold has_key. induction o as [|[a b] o IH]; simpl; [reflexivity|].
  destruct (String.eqb a k); simpl; [discriminate|exact IH].
Qed.

Lemma set_wf k v o : Obj.wf o -> Obj.wf (Obj.set k v o).
Proof.
  unfold Obj.wf. induction o as [|[a b] o IH]; simpl; intros H.
  - apply NoDup_singleton.
  - apply NoDup_cons in H as [Ha H].
    destruct (String.eqb_spec a k) as [->|Hne]; simpl.
    + now apply NoDup_cons.
    + apply NoDup_cons. split; [|now apply IH].
      rewrite list_elem_of_In in *. intros Hin. apply Ha.
      apply has_key_In in Hin. rewrite has_key_set in Hin.
      apply has_key_In. destruct (String.eqb_spec k a); [congruence|].
      exact Hin.
Qed.

Lemma get_In k v o : Obj.wf o -> In (k, v) o -> Obj.get k o = v.
Proof.
  unfold Obj.wf. induction o as [|[a b] o IH]; simpl; intros H Hin; [easy|].
  apply NoDup_cons in H as [Ha H]. rewrite list_elem_of_In in Ha.
  destruct Hin as [[= -> ->]|Hin].
  - now rewrite String.eqb_refl.
  - destruct (String.eqb_spec a k) as [->|_]; [|now apply IH].
    exfalso. apply Ha. now apply (in_map fst) in Hin.
Qed.

Lemma In_get k o : has_key k o = true -> In (k, Obj.get k o) o.
Proof.
  unfold has_key. induction o as [|[a b] o IH]; simpl; [discriminate|].
  destruct (String.eqb_spec a k) as [->|_]; simpl; [now left|].
  intros H. right. now apply IH.
Qed.

(** Reading does not depend on the order of the properties. *)
Lemma get_perm k o o' :
  Obj.wf o' -> Permutation o o' -> Obj.get k o = Obj.get k o'.
Proof.
  intros Hwf Hp. destruct (has_key k o) eqn:E.
  - symmetry. apply get_In; [exact Hwf|].
    eapply Permutation_in; [exact Hp|]. now apply In_get.
  - rewrite (get_no_key _ _ E). symmetry. apply get_no_key.
    destruct (has_key k o') eqn:E'; [|reflexivity].
    apply has_key_In in E'. apply (Permutation_map fst) in Hp.
    apply Permutation_sym in Hp.
    apply (Permutation_in _ Hp), has_key_In in E'. congruence.
Qed.

Lemma has_key_perm k o o' : Permutation o o' -> has_key k o = has_key k o'.
Proof.
  intros Hp. apply (Permutation_map fst) in Hp.
  destruct (has_key k o) eqn:E, (has_key k o') eqn:E'; try reflexivity.
  - apply has_key_In in E. apply (Permutation_in _ Hp), has_key_In in E.
    congruence.
  - apply has_key_In in E'. apply Permutation_sym in Hp.
    apply (Permutation_in _ Hp), has_key_In in E'. congruence.
Qed.

Lemma get_fold_set k (es : list (string * JS.value)) : forall dst,
  NoDup (map fst es) ->
  Obj.get k (fold_left (fun acc e => Obj.set (fst e) (snd e) acc) es dst)
  = if has_key k es then Obj.get k es else Obj.get k dst.
Proof.
  induction es as [|[a b] es IH]; intros dst Hnd; [reflexivity|].
  apply NoDup_cons in Hnd as [Ha Hnd]. rewrite list_elem_of_In in Ha.
  cbn [fold_left fst snd]. rewrite IH by assumption. rewrite get_set.
  unfold has_key at 2. cbn [existsb fst Obj.get]. fold (has_key k es).
  destruct (String.eqb_spec a k) as [->|_]; [|reflexivity].
  destruct (has_key k es) eqn:E; [|reflexivity].
  now apply has_key_In in E.
Qed.

Lemma get_spread k src dst :
  Obj.wf src ->
  Obj.get k (Obj.spread src dst)
  = if has_key k src then Obj.get k src else Obj.get k dst.
Proof.
  intros Hwf. unfold Obj.spread.
  rewrite get_fold_set by now apply entries_NoDup.
  rewrite (has_key_perm k _ _ (entries_perm src)).
  now rewrite (get_perm k _ _ Hwf (entries_perm src)).
Qed.

Lemma spread_wf src dst : Obj.wf dst -> Obj.wf (Obj.spread src dst).
Proof.
  unfold Obj.spread. generalize (Obj.entries src). intros es. revert dst.
  induction es as [|e es IH]; intros dst H; [exact H|].
  simpl. apply IH. now apply set_wf.
Qed.

Lemma has_key_text k o :
  all_text o ->
  has_key k o = match Obj.get k o with
                | JS.VUndefined => false
                | _ => true
                end.
Proof.
  unfold all_text, has_key. induction o as [|[a b] o IH]; simpl; intros H.
  - reflexivity.
  - destruct (String.eqb a k).
    + destruct (H (a, b)) as [s Hs]; [now left|]. simpl in Hs. now subst b.
    + apply IH. intros e He. apply H. now right.
Qed.

Lemma set_all_text k s o : all_text o -> all_text (Obj.set k (JS.VStr s) o).
Proof.
  unfold all_text. induction o as [|[a b] o IH]; simpl; intros H e He.
  - destruct He as [<-|[]]. simpl. eauto.
  - destruct (String.eqb a k).
    + destruct He as [<-|He]; [simpl; eauto|]. apply H. now right.
    + destruct He as [<-|He]; [apply H; now left|].
      apply IH; [|exact He]. intros x Hx. apply H. now right.
Qed.

End Objects.

(** ** The page request of the verification list *)

Section PageRequest.
Import VerificationList.

Lemma form_value_acc k form : forall acc,
  fold_left (form_step k) form acc
  = match fold_left (form_step k) form None with
    | Some x => Some x
    | None => acc
    end.
Proof.
  induction form as [|e form IH]; intros acc; [reflexivity|].
  simpl. rewrite IH. rewrite (IH (form_step k None e)).
  destruct (fold_left (form_step k) form None); [reflexivity|].
  unfold form_step. now destruct (_ && _).
Qed.

Lemma form_value_nonempty k form v : form_value k form = Some v -> v <> "".
Proof.
  unfold form_value.
  assert (G : forall acc, (forall x, acc = Some x -> x <> "") ->
            fold_left (form_step k) form acc = Some v -> v <> "").
  { induction form as [|e form IH]; simpl; intros acc Hacc H.
    - now apply Hacc.
    - apply (IH (form_step k acc e)); [|exact H].
      intros x Hx. unfold form_step in Hx.
      destruct (String.eqb_spec (snd e) "") as [|Hne].
      + rewrite andb_false_r in Hx. now apply Hacc.
      + destruct (String.eqb (fst e) k), (String.eqb k "__proto__");
          simpl in Hx; [now apply Hacc|congruence|now apply Hacc..]. }
  apply G. discriminate.
Qed.

Lemma form_value_proto form : form_value "__proto__" form = None.
Proof.
  unfold form_value.
  assert (G : forall acc : option string,
            fold_left (form_step "__proto__") form acc = acc).
  { induction form as [|e form IH]; intros acc; [reflexivity|].
    cbn [fold_left]. rewrite IH. unfold form_step.
    now rewrite String.eqb_refl, andb_false_r. }
  apply G.
Qed.

Lemma assign_get k a v o :
  Obj.get k (Obj.assign a v o)
  = if String.eqb a k && negb (String.eqb k "__proto__")
    then v else Obj.get k o.
Proof.
  unfold Obj.assign. destruct (String.eqb_spec a "__proto__") as [->|Hne].
  - destruct (String.eqb_spec "__proto__" k) as [<-|]; [|reflexivity].
    reflexivity.
  - rewrite get_set. destruct (String.eqb_spec a k) as [->|]; [|reflexivity].
    now destruct (String.eqb_spec k "__proto__").
Qed.

Lemma assign_wf k v o : Obj.wf o -> Obj.wf (Obj.assign k v o).
Proof.
  unfold Obj.assign. destruct (String.eqb k "__proto__"); [easy|].
  apply set_wf.
Qed.

Lemma assign_all_text k s o :
  all_text o -> all_text (Obj.assign k (JS.VStr s) o).
Proof.
  unfold Obj.assign. destruct (String.eqb k "__proto__"); [easy|].
  apply set_all_text.
Qed.

Lemma form_filters_fold k form : forall obj,
  Obj.get k
    (fold_left
       (fun obj e => if negb (String.eqb (snd e) "")
                     then Obj.assign (fst e) (JS.VStr (snd e)) obj else obj)
       form obj)
  = match form_value k form with
    | Some v => JS.VStr v
    | None => Obj.get k obj
    end.
Proof.
  unfold form_value.
  induction form as [|e form IH]; intros obj; [reflexivity|].
  cbn [fold_left]. rewrite IH, (form_value_acc k form (form_step k None e)).
  destruct (fold_left (form_step k) form None); [reflexivity|].
  unfold form_step. destruct (String.eqb (snd e) ""); simpl.
  - now rewrite andb_false_r.
  - rewrite andb_true_r, assign_get. now destruct (_ && _).
Qed.

Lemma form_filters_get k st :
  Obj.get k (getCurrentFiltersFromForm st)
  = from_text (form_value k (filter_form st)).
Proof.
  unfold getCurrentFiltersFromForm. rewrite form_filters_fold.
  now destruct (form_value k (filter_form st)).
Qed.

Lemma form_filters_inv st :
  Obj.wf (getCurrentFiltersFromForm st)
  /\ all_text (getCurrentFiltersFromForm st).
Proof.
  unfold getCurrentFiltersFromForm.
  assert (G : forall form obj, Obj.wf obj /\ all_text obj ->
    let r := fold_left
       (fun obj e => if negb (String.eqb (snd e) "")
                     then Obj.assign (fst e) (JS.VStr (snd e)) obj else obj)
       form obj in
    Obj.wf r /\ all_text r).
  { induction form as [|e form IH]; intros obj [Hw Ht]; [now split|].
    simpl. apply IH. destruct (negb _); [|now split].
    split; [now apply assign_wf|now apply assign_all_text]. }
  apply G. split; [constructor|intros e []].
Qed.

Lemma fold_left_pointwise {A B} (f g : A -> B -> A) (l : list B) :
  (forall a b, f a b = g a b) ->
  forall a, fold_left f l a = fold_left g l a.
Proof.
  intros H. induction l as [|b l IH]; intros a; simpl; [reflexivity|].
  now rewrite H, IH.
Qed.

Lemma url_filters_fold st :
  getCurrentFiltersFromURL st = fold_left (url_step st) knownKeys [].
Proof.
  unfold getCurrentFiltersFromURL. apply fold_left_pointwise.
  intros out k. unfold url_step, param_text.
  destruct (URLSearchParams.get k _) as [v|]; [|reflexivity].
  now destruct (String.eqb v "").
Qed.

Lemma url_step_get k a st out :
  Obj.get k (url_step st out a)
  = if String.eqb a k
    then match param_text a st with
         | Some v => JS.VStr v
         | None => Obj.get k out
         end
    else Obj.get k out.
Proof.
  unfold url_step. destruct (param_text a st).
  - rewrite get_set. now destruct (String.eqb a k).
  - now destruct (String.eqb a k).
Qed.

Lemma url_fold_get k st ks : forall out,
  Obj.get k (fold_left (url_step st) ks out)
  = if existsb (String.eqb k) ks
    then match param_text k st with
         | Some v => JS.VStr v
         | None => Obj.get k out
         end
    else Obj.get k out.
Proof.
  induction ks as [|a ks IH]; intros out; [reflexivity|].
  cbn [fold_left existsb]. rewrite IH, url_step_get.
  rewrite (String.eqb_sym k a).
  destruct (String.eqb_spec a k) as [->|Hne]; cbn [orb].
  - destruct (param_text k st); now destruct (existsb _ ks).
  - reflexivity.
Qed.

Lemma url_filters_get k st :
  Obj.get k (getCurrentFiltersFromURL st) = from_text (url_value k st).
Proof.
  rewrite url_filters_fold, url_fold_get. unfold url_value.
  destruct (existsb _ knownKeys); [|reflexivity].
  now destruct (param_text k st).
Qed.

Lemma url_filters_inv st :
  Obj.wf (getCurrentFiltersFromURL st)
  /\ all_text (getCurrentFiltersFromURL st).
Proof.
  rewrite url_filters_fold.
  assert (G : forall ks out, Obj.wf out /\ all_text out ->
            Obj.wf (fold_left (url_step st) ks out)
            /\ all_text (fold_left (url_step st) ks out)).
  { induction ks as [|a ks IH]; intros out [Hw Ht]; [now split|].
    simpl. apply IH. unfold url_step. destruct (param_text a st); [|now split].
    split; [now apply set_wf|now apply set_all_text]. }
  apply G. split; [constructor|intros e []].
Qed.

Lemma url_value_nonempty k st v : url_value k st = Some v -> v <> "".
Proof.
  unfold url_value, param_text. destruct (existsb _ _); [|discriminate].
  destruct (URLSearchParams.get k _) as [x|]; [|discriminate].
  destruct (String.eqb_spec x ""); [discriminate|]. congruence.
Qed.

Lemma strip_fold_get k ks : forall o,
  Obj.get k
    (fold_left
       (fun o k' => if is_blank (Obj.get k' o) then Obj.delete k' o else o)
       ks o)
  = if existsb (String.eqb k) ks && is_blank (Obj.get k o)
    then JS.VUndefined else Obj.get k o.
Proof.
  induction ks as [|a ks IH]; intros o; [reflexivity|].
  cbn [fold_left existsb]. rewrite IH. rewrite (String.eqb_sym k a).
  destruct (String.eqb_spec a k) as [->|Hne]; cbn [orb andb].
  - destruct (is_blank (Obj.get k o)) eqn:B.
    + rewrite get_delete, String.eqb_refl. now destruct (existsb _ ks).
    + rewrite B. now rewrite andb_false_r.
  - assert (E : Obj.get k (if is_blank (Obj.get a o)
                           then Obj.delete a o else o) = Obj.get k o).
    { destruct (is_blank (Obj.get a o)); [|reflexivity].
      rewrite get_delete. now destruct (String.eqb_spec a k). }
    now rewrite E.
Qed.

(** The cleaning loop removes the blank properties and no other. *)
Lemma strip_blank_get k o :
  Obj.get k (strip_blank o)
  = if is_blank (Obj.get k o) then JS.VUndefined else Obj.get k o.
Proof.
  unfold strip_blank. rewrite strip_fold_get.
  destruct (is_blank (Obj.get k o)) eqn:B; [|now rewrite andb_false_r].
  destruct (existsb (String.eqb k) (Obj.keys o)) eqn:E; [reflexivity|].
  cbn [andb]. apply get_no_key.
  destruct (has_key k o) eqn:H; [|reflexivity].
  rewrite <- (has_key_perm k _ _ (entries_perm o)) in H.
  apply has_key_In in H. unfold Obj.keys in E.
  assert (X : existsb (String.eqb k) (map fst (Obj.entries o)) = true).
  { apply existsb_exists. exists k. split; [exact H|apply String.eqb_refl]. }
  congruence.
Qed.

(** The page size the request carries. *)
Lemma limit_resolved st :
  JS.or_else
    (JS.or_else
       (match limit_el st with
        | Some v => JS.VStr v
        | None => JS.VNull
        end)
       (Obj.get "limit" (getCurrentFiltersFromURL st)))
    (JS.VStr "30")
  = JS.VStr (resolved_limit st)
  /\ resolved_limit st <> "".
Proof.
  unfold resolved_limit. rewrite url_filters_get.
  assert (U : JS.or_else (from_text (url_value "limit" st)) (JS.VStr "30")
              = JS.VStr (default "30" (url_value "limit" st))
              /\ default "30" (url_value "limit" st) <> "").
  { destruct (url_value "limit" st) as [v|] eqn:E; cbn; [|now split].
    apply url_value_nonempty in E.
    unfold JS.or_else. cbn. now destruct (String.eqb_spec v ""). }
  destruct (limit_el st) as [[|c r]|]; [exact U| |exact U].
  now split.
Qed.

(** The properties of [paramsObj]: the form overrides the address bar,
    [page] and [limit] override both, and no property is blank. *)
Lemma pageRequest_get k page st :
  Obj.get k (pageRequest page st)
  = if String.eqb k "limit" then JS.VStr (resolved_limit st)
    else if String.eqb k "page" then JS.VNum (default 1 page)
    else from_text
           match form_value k (filter_form st) with
           | Some v => Some v
           | None => url_value k st
           end.
Proof.
  unfold pageRequest. rewrite strip_blank_get.
  destruct (limit_resolved st) as [-> Hl].
  rewrite !get_set, (String.eqb_sym "limit" k), (String.eqb_sym "page" k).
  destruct (String.eqb k "limit").
  { cbn. now destruct (String.eqb_spec (resolved_limit st) ""). }
  destruct (String.eqb k "page"); [reflexivity|].
  destruct (form_filters_inv st) as [Fw Ft].
  destruct (url_filters_inv st) as [Uw Ut].
  rewrite !get_spread by assumption.
  rewrite (has_key_text k _ Ft), (has_key_text k _ Ut).
  rewrite form_filters_get, url_filters_get. cbn [Obj.get].
  destruct (form_value k (filter_form st)) as [v|] eqn:F; cbn.
  - apply form_value_nonempty in F. now destruct (String.eqb_spec v "").
  - destruct (url_value k st) as [v|] eqn:U; cbn; [|reflexivity].
    apply url_value_nonempty in U. now destruct (String.eqb_spec v "").
Qed.

End PageRequest.

(** ** Decimal text *)

Section DecimalText.
Import JS.

Lemma uint_digits (d : Decimal.uint) :
  Forall (fun c => is_digit c = true)
    (list_ascii_of_string (NilEmpty.string_of_uint d)).
Proof. induction d; simpl; constructor; auto. Qed.

Lemma pos_uint_text p :
  exists c r, NilEmpty.string_of_uint (Pos.to_uint p) = String c r
              /\ is_digit c = true.
Proof.
  pose proof (DecimalPos.Unsigned.to_uint_nonnil p) as H.
  pose proof (uint_digits (Pos.to_uint p)) as D.
  destruct (Pos.to_uint p); try contradiction; simpl in *; eauto.
Qed.

Lemma nilzero_pos p :
  NilZero.string_of_uint (Pos.to_uint p)
  = NilEmpty.string_of_uint (Pos.to_uint p).
Proof.
  pose proof (DecimalPos.Unsigned.to_uint_nonnil p) as H.
  now destruct (Pos.to_uint p).
Qed.

(** The text of an integer: digits, after a minus sign when negative. *)
Lemma string_of_Z_text n :
  exists c r, string_of_Z n = String c r /\ num_char c = true
              /\ Forall (fun c => is_digit c = true) (list_ascii_of_string r).
Proof.
  unfold string_of_Z, num_char. destruct n as [|p|p]; simpl.
  - exists "0"%char, "". repeat split. constructor.
  - rewrite nilzero_pos. pose proof (uint_digits (Pos.to_uint p)) as D.
    destruct (pos_uint_text p) as (c & r & E & Hc). rewrite E in *.
    exists c, r. simpl in D. inversion D; subst.
    repeat split; [now rewrite Hc|assumption].
  - rewrite nilzero_pos. exists "-"%char. eexists. repeat split.
    apply uint_digits.
Qed.

Lemma ws_len_num c r :
  num_char c = true ->
  ws_len whitespace (c :: r) = 0%nat
  /\ ws_len (map (@rev N) whitespace) (c :: r) = 0%nat.
Proof.
  destruct c as [[] [] [] [] [] [] [] []]; intros H; try discriminate H;
    split; reflexivity.
Qed.

Lemma trimStart_num c r : num_char c = true ->
  trimStart_bytes (c :: r) = c :: r.
Proof.
  intros H. unfold trimStart_bytes. cbn [length strip_ws].
  now rewrite (proj1 (ws_len_num c r H)).
Qed.

Lemma trimEnd_num l :
  Forall (fun c => num_char c = true) l -> trimEnd_bytes l = l.
Proof.
  intros H. unfold trimEnd_bytes. rewrite <- length_rev.
  apply Forall_rev in H. destruct (rev l) as [|c r] eqn:E.
  - simpl. now rewrite <- (rev_involutive l), E.
  - inversion H; subst. cbn [length strip_ws].
    rewrite (proj2 (ws_len_num c r ltac:(assumption))).
    now rewrite <- E, rev_involutive.
Qed.

Lemma digit_num c : is_digit c = true -> num_char c = true.
Proof. unfold num_char. now intros ->. Qed.

Lemma trim_string_of_Z n : trim (string_of_Z n) = string_of_Z n.
Proof.
  destruct (string_of_Z_text n) as (c & r & E & Hc & Hr).
  unfold trim. rewrite E. cbn [list_ascii_of_string].
  rewrite trimStart_num by assumption.
  rewrite trimEnd_num.
  - cbn. now rewrite string_of_list_ascii_of_string.
  - constructor; [assumption|].
    eapply Forall_impl; [exact Hr|]. apply digit_num.
Qed.

(** [Number] reads back the text of an integer. *)
Lemma Number_string_of_Z (n : Z) : Number (string_of_Z n) = Some n.
Proof.
  unfold Number. rewrite trim_string_of_Z.
  destruct (string_of_Z_text n) as (c & r & E & Hc & _). rewrite E.
  assert (P : Ascii.eqb c "+" = false).
  { destruct c as [[] [] [] [] [] [] [] []]; try discriminate Hc;
      reflexivity. }
  rewrite P, <- E. unfold string_of_Z.
  rewrite NilZero.isi by apply to_int_nonnil.
  simpl. now rewrite DecimalZ.of_to.
Qed.

Lemma digits_prefix_all l :
  Forall (fun c => is_digit c = true) l -> digits_prefix l = l.
Proof. induction 1 as [|c l Hc _ IH]; simpl; [|rewrite Hc, IH]; easy. Qed.

Lemma parseInt_digits c r :
  is_digit c = true ->
  Forall (fun c => is_digit c = true) (list_ascii_of_string r) ->
  parseInt (String c r)
  = option_map Z.of_uint (NilEmpty.uint_of_string (String c r)).
Proof.
  intros Hc Hr. unfold parseInt. cbn [list_ascii_of_string].
  rewrite trimStart_num by now apply digit_num.
  assert (Hm : Ascii.eqb c "-" = false /\ Ascii.eqb c "+" = false).
  { destruct c as [[] [] [] [] [] [] [] []]; try discriminate Hc; now split. }
  destruct Hm as [-> ->].
  rewrite digits_prefix_all by now constructor.
  cbn [string_of_list_ascii]. rewrite string_of_list_ascii_of_string.
  reflexivity.
Qed.

(** [parseInt] reads back the text of an integer. *)
Lemma parseInt_string_of_Z n : parseInt (string_of_Z n) = Some n.
Proof.
  unfold string_of_Z. destruct n as [|p|p]; [reflexivity| |].
  - cbn [Z.to_int NilZero.string_of_int]. rewrite nilzero_pos.
    destruct (pos_uint_text p) as (c & r & E & Hc).
    pose proof (uint_digits (Pos.to_uint p)) as D. rewrite E in D.
    inversion D; subst.
    rewrite E, parseInt_digits by assumption.
    rewrite <- E, NilEmpty.usu. cbn [option_map]. f_equal.
    unfold Z.of_uint. now rewrite DecimalPos.Unsigned.of_to.
  - cbn [Z.to_int NilZero.string_of_int]. rewrite nilzero_pos.
    destruct (pos_uint_text p) as (c & r & E & Hc).
    pose proof (uint_digits (Pos.to_uint p)) as D. rewrite E in D.
    inversion D; subst.
    unfold parseInt. rewrite E. cbn [list_ascii_of_string].
    rewrite trimStart_num by reflexivity. cbn [Ascii.eqb Bool.eqb].
    rewrite digits_prefix_all by now constructor.
    cbn [string_of_list_ascii]. rewrite string_of_list_ascii_of_string.
    rewrite <- E, NilEmpty.usu. cbn [option_map]. f_equal.
    unfold Z.of_uint. now rewrite DecimalPos.Unsigned.of_to.
Qed.

End DecimalText.

(** ** The list fetcher writes the address bar before the request *)

Section AddressBar.
Import URLSearchParams VerificationList.

Lemma cut_at_free sep a : occurs sep a = false -> cut_at sep a = (a, "").
Proof.
  induction a as [|x a IH]; simpl; intros H; [reflexivity|].
  apply orb_false_iff in H as [-> Ha]. now rewrite (IH Ha).
Qed.

Lemma toString_nonempty (p : t) : p <> [] -> toString p <> "".
Proof.
  destruct p as [|e p]; [easy|]. intros _ E.
  apply (f_equal (occurs "=")) in E. simpl in E.
  assert (X : forall s, occurs "=" (encode_pair e +:+ s) = true).
  { intros s. unfold encode_pair. rewrite !occurs_app. simpl.
    now rewrite orb_true_r. }
  unfold toString in E. cbn [map String.concat] in E.
  destruct (map encode_pair p).
  - unfold encode_pair in E. rewrite !occurs_app in E. simpl in E.
    now rewrite orb_true_r in E.
  - now rewrite X in E.
Qed.

Lemma delete_wf k o : Obj.wf o -> Obj.wf (Obj.delete k o).
Proof. apply NoDup_filter_keys. Qed.

Lemma strip_blank_wf o : Obj.wf o -> Obj.wf (strip_blank o).
Proof.
  unfold strip_blank. generalize (Obj.keys o). intros ks. revert o.
  induction ks as [|k ks IH]; intros o H; [exact H|].
  simpl. apply IH. destruct (is_blank _); [now apply delete_wf|exact H].
Qed.

Lemma pageRequest_wf page st : Obj.wf (pageRequest page st).
Proof.
  unfold pageRequest. apply strip_blank_wf.
  do 2 apply set_wf. do 2 apply spread_wf. constructor.
Qed.

Lemma kept_num n : kept (JS.VNum n) = true.
Proof.
  unfold kept. cbn [JS.String_]. rewrite trim_string_of_Z.
  destruct (string_of_Z_text n) as (c & r & -> & _). reflexivity.
Qed.

(** The request always names its page, so its query is never empty. *)
Lemma pageRequest_params_nonempty page st :
  buildParams (Some (pageRequest page st)) st <> [].
Proof.
  rewrite buildParams_merge by apply pageRequest_wf.
  destruct (resolved_company st); [easy|]. simpl.
  assert (H : In ("page", JS.VNum (default 1 page))
                (Obj.entries (pageRequest page st))).
  { eapply Permutation_in; [symmetry; apply entries_perm|].
    pose proof (pageRequest_get "page" page st) as G. cbn in G.
    rewrite <- G. apply In_get.
    destruct (has_key "page" (pageRequest page st)) eqn:E; [reflexivity|].
    apply get_no_key in E. congruence. }
  unfold kept_entries. cbn [from_option Datatypes.id].
  intros E. apply map_eq_nil in E.
  assert (X : In ("page", JS.VNum (default 1 page))
                (List.filter (fun e => kept (snd e))
                   (Obj.entries (pageRequest page st)))).
  { apply filter_In. split; [exact H|apply kept_num]. }
  now rewrite E in X.
Qed.

End AddressBar.

(** C3.  Every call of [loadVerificationEntries] builds the request
    [paramsObj]: the filters of the address bar, overridden by those of the
    form, then [page] (1 without argument) and the resolved [limit], with no
    blank value.  It writes it to the address bar with
    [history.replaceState], which leaves the history at its length, and
    only then sends the GET request: after the part of the function that
    runs before the request resolves, the address bar holds the parameters
    of the request. *)
Theorem C3_address_bar_before_request
  (page : option Z) (st : VerificationList.state) :
  occurs "?" (VerificationList.pathname st) = false ->
  let paramsObj := VerificationList.pageRequest page st in
  let url :=
    VerificationList.pathname st +:+ "?"
    +:+ VerificationList.buildQuery (Some paramsObj) st in
  let st' := VerificationList.loadVerificationEntries_start page st in
  (forall k,
     Obj.get k paramsObj
     = if String.eqb k "limit" then JS.VStr (resolved_limit st)
       else if String.eqb k "page" then JS.VNum (default 1 page)
       else from_text
              match form_value k (VerificationList.filter_form st) with
              | Some v => Some v
              | None => url_value k st
              end)
  /\ VerificationList.events st'
     = VerificationList.events st
       ++ [ VerificationList.EReplaceState url;
            VerificationList.EFetch "GET"
              (VerificationList.list_endpoint +:+ "?"
               +:+ VerificationList.buildQuery (Some paramsObj)
                     (VerificationList.pushURLState paramsObj st)) ]
  /\ VerificationList.history_length st' = VerificationList.history_length st
  /\ VerificationList.pathname st' = VerificationList.pathname st
  /\ URLSearchParams.of_search (VerificationList.search st')
     = merge_company (resolved_company st) (kept_entries (Some paramsObj)).
Proof.
  intros Hpath paramsObj url st'.
  split; [intros k; apply pageRequest_get|].
  pose proof (pageRequest_params_nonempty page st) as Hne.
  apply toString_nonempty in Hne. fold paramsObj in Hne.
  fold (VerificationList.buildQuery (Some paramsObj) st) in Hne.
  assert (Hpush : VerificationList.pushURLState paramsObj st
    = VerificationList.emit (VerificationList.EReplaceState url)
        (VerificationList.set_location (VerificationList.pathname st)
           ("?" +:+ VerificationList.buildQuery (Some paramsObj) st) st)).
  { unfold VerificationList.pushURLState, VerificationList.replaceState.
    destruct (String.eqb_spec
                (VerificationList.buildQuery (Some paramsObj) st) "")
      as [E|_]; [contradiction|].
    cbn [negb]. fold url.
    unfold url at 1.
    change (VerificationList.pathname st +:+ "?"
            +:+ VerificationList.buildQuery (Some paramsObj) st)
      with (VerificationList.pathname st
            +:+ String "?" (VerificationList.buildQuery (Some paramsObj) st)).
    rewrite (cut_at_app "?" _ _ Hpath).
    destruct (String.eqb_spec
                (VerificationList.buildQuery (Some paramsObj) st) "")
      as [E|_]; [contradiction|reflexivity]. }
  subst st'. unfold VerificationList.loadVerificationEntries_start.
  fold paramsObj. rewrite !Hpush.
  unfold VerificationList.emit, VerificationList.set_location.
  cbn [VerificationList.events VerificationList.history_length
       VerificationList.pathname VerificationList.search].
  repeat split.
  - now rewrite <- app_assoc.
  - change (URLSearchParams.of_search _)
      with (URLSearchParams.parse
              (VerificationList.buildQuery (Some paramsObj) st)).
    unfold VerificationList.buildQuery. rewrite parse_toString.
    apply buildParams_merge, pageRequest_wf.
Qed.

(** C3, on an example: page 2 of the example page. *)
Lemma C3_address_bar_before_request_witness :
  occurs "?" (VerificationList.pathname example_page) = false
  /\ VerificationList.events
       (VerificationList.loadVerificationEntries_start (Some 2) example_page)
     = [ VerificationList.EReplaceState
           ("/verification/?company_id=5&date_from=2024-01-01"
            +:+ "&date_to=2024-02-01&page=2&limit=50");
         VerificationList.EFetch "GET"
           ("/verification/api/verifications-control/?company_id=5"
            +:+ "&date_from=2024-01-01&date_to=2024-02-01&page=2&limit=50") ].
Proof.
  assert (H : occurs "?" (VerificationList.pathname example_page) = false)
    by reflexivity.
  split; [exact H|].
  destruct (C3_address_bar_before_request (Some 2) example_page H)
    as (_ & E & _).
  rewrite E. reflexivity.
Defined.

(** ** Failed loads *)

(** C1, as amended.  A load of the verification list that fails, by a
    non-2xx status or at the network level, shows a notification and leaves
    the table body, the pagination block and the three counters as they
    were; sending the request does not touch the table body either.  A load
    of the appeals list empties the table body when it starts, and when
    [fetchAppeals] fails it puts one row with the error message in it (the
    message is written as markup, and is taken to hold none): the rows shown
    before are not kept. *)
Theorem C1_failed_load
  (page : option Z) (o : outcome (option VerificationList.envelope))
  (st : VerificationList.state) (message : HTML.text)
  (ast : AppealsList.state) :
  failed o ->
  let st' := VerificationList.loadVerificationEntries_resume page o st in
  VerificationList.table_body
    (VerificationList.loadVerificationEntries_start page st)
  = VerificationList.table_body st
  /\ VerificationList.table_body st' = VerificationList.table_body st
  /\ VerificationList.pagination_block st'
     = VerificationList.pagination_block st
  /\ VerificationList.total_entries_el st'
     = VerificationList.total_entries_el st
  /\ VerificationList.verified_entry_el st'
     = VerificationList.verified_entry_el st
  /\ VerificationList.not_verified_entry_el st'
     = VerificationList.not_verified_entry_el st
  /\ (exists log text,
        VerificationList.events st'
        = VerificationList.events st
          ++ [ VerificationList.EConsoleError log;
               VerificationList.EToast text "danger" 5000 ])
  /\ AppealsList.tbody (AppealsList.loadAppeals_start ast) = []
  /\ AppealsList.tbody
       (AppealsList.loadAppeals_resume (inl message)
          (AppealsList.loadAppeals_start ast))
     = [AppealsList.error_row ast message].
Proof.
  intros Hfail st'. subst st'.
  unfold VerificationList.loadVerificationEntries_resume.
  split.
  { unfold VerificationList.loadVerificationEntries_start,
      VerificationList.pushURLState, VerificationList.replaceState.
    now destruct (URLSearchParams.cut_at _ _). }
  destruct o as [m|status statusText text json]; simpl in Hfail.
  - cbn. rewrite <- app_assoc. repeat split; eauto.
  - unfold VerificationList.safeFetch_settle. rewrite Hfail.
    cbn. rewrite <- app_assoc. repeat split; eauto.
Qed.

(** C1, on an example: a response with status 500. *)
Lemma C1_failed_load_witness :
  failed (Response 500 "Internal Server Error" "" None
          : outcome (option VerificationList.envelope))
  /\ VerificationList.table_body
       (VerificationList.loadVerificationEntries_resume (Some 2)
          (Response 500 "Internal Server Error" "" None)
          (VerificationList.loadVerificationEntries_start (Some 2)
             example_page))
     = VerificationList.table_body example_page.
Proof.
  assert (H : failed (Response 500 "Internal Server Error" "" None
                      : outcome (option VerificationList.envelope)))
    by reflexivity.
  split; [exact H|].
  destruct (C1_failed_load (Some 2) _
              (VerificationList.loadVerificationEntries_start (Some 2)
                 example_page) example_message example_appeals H)
    as (_ & E & _).
  rewrite E. reflexivity.
Defined.

(** C1 as stated fails on the appeals list: the row shown before a failed
    load is gone after it. *)
Lemma C1_counterexample :
  let st' :=
    AppealsList.loadAppeals_resume (inl example_message)
      (AppealsList.loadAppeals_start example_appeals) in
  AppealsList.tbody (AppealsList.loadAppeals_start example_appeals) = []
  /\ AppealsList.tbody st'
     = [AppealsList.Row None
          [AppealsList.Cell 6 ["text-center"; "text-danger"] "Ошибка 500"]]
  /\ AppealsList.tbody st' <> AppealsList.tbody example_appeals.
Proof. repeat split. discriminate. Qed.

(** ** Pagination *)

(** C4, as amended.  With [totalPages] at most 1, so for 0 and for 1, the
    pagination renderer of the verification list empties the pagination
    block: no page link is produced.  The renderer of the appeals list has
    no such case: it renders the four boundary links and, for one page, the
    link of page 1 between them. *)
Theorem C4_single_page
  (currentPage totalPages : Z) (st : VerificationList.state)
  (items : list AppealsList.appeal) (ast : AppealsList.state) :
  totalPages <= 1 ->
  VerificationList.pagination_block
    (VerificationList.renderPagination currentPage totalPages st)
  = option_map (fun _ => []) (VerificationList.pagination_block st)
  /\ AppealsList.paginationUl
       (AppealsList.renderPagination
          (AppealsList.PageData items totalPages) ast)
     = let cur := AppealsList.currentPage ast in
       [ AppealsList.Link "bi bi-skip-start" 1 (cur <=? 1) false;
         AppealsList.Link "bi bi-arrow-left-circle" (cur - 1) (cur <=? 1)
           false ]
       ++ (if totalPages =? 1
           then [AppealsList.Link "1" 1 false (1 =? cur)] else [])
       ++ [ AppealsList.Link "bi bi-arrow-right-circle" (cur + 1)
              (totalPages <=? cur) false;
            AppealsList.Link "bi bi-skip-end" totalPages
              (totalPages <=? cur) false ].
Proof.
  intros H. split.
  - unfold VerificationList.renderPagination.
    destruct (VerificationList.pagination_block st) eqn:B;
      [|now rewrite B].
    assert (E : (totalPages =? 0) || (totalPages <=? 1) = true).
    { apply orb_true_iff. right. now apply Z.leb_le. }
    now rewrite E.
  - unfold AppealsList.renderPagination, AppealsList.pagination_lis.
    cbn [AppealsList.paginationUl AppealsList.set_paginationUl
         AppealsList.total_pages AppealsList.makeLi].
    do 2 f_equal.
    destruct (Z.eqb_spec totalPages 1) as [->|Hne].
    + reflexivity.
    + unfold AppealsList.pages.
      now replace (Z.to_nat totalPages) with 0%nat by lia.
Qed.

(** C4, on an example: one page. *)
Lemma C4_single_page_witness :
  1 <= 1
  /\ VerificationList.pagination_block
       (VerificationList.renderPagination 1 1 example_page)
     = Some [].
Proof.
  assert (H : 1 <= 1) by lia.
  split; [exact H|].
  destruct (C4_single_page 1 1 example_page [] example_appeals H) as [E _].
  rewrite E. reflexivity.
Defined.

(** C4 as stated fails on the appeals list: with one page, five page links
    are rendered. *)
Lemma C4_counterexample :
  AppealsList.paginationUl
    (AppealsList.renderPagination (AppealsList.PageData [] 1)
       example_appeals)
  = [ AppealsList.Link "bi bi-skip-start" 1 true false;
      AppealsList.Link "bi bi-arrow-left-circle" 0 true false;
      AppealsList.Link "1" 1 false true;
      AppealsList.Link "bi bi-arrow-right-circle" 2 true false;
      AppealsList.Link "bi bi-skip-end" 1 true false ]
  /\ AppealsList.paginationUl
       (AppealsList.renderPagination (AppealsList.PageData [] 1)
          example_appeals) <> [].
Proof. split; [reflexivity|discriminate]. Qed.

(** C5.  On page 5 of 10, with the window of 2, the verification list
    renders, between the first/previous and the next/last links, the
    numbered links 1, 3, 4, 5, 6, 7 and 10, with one ellipsis between 1 and 3
    and one between 7 and 10. *)
Theorem C5_window_5_of_10 (st : VerificationList.state) :
  VerificationList.win = 2
  /\ numbered (VerificationList.pagination_items 5 10)
     = [ Some "1"; None; Some "3"; Some "4"; Some "5"; Some "6"; Some "7";
         None; Some "10" ]
  /\ VerificationList.pagination_block
       (VerificationList.renderPagination 5 10 st)
     = option_map
         (fun _ =>
            [ VerificationList.PageLink "1" "bi bi-skip-start" false false;
              VerificationList.PageLink "4" "bi bi-arrow-left-circle" false
                false;
              VerificationList.PageLink "1" "1" false false;
              VerificationList.Ellipsis;
              VerificationList.PageLink "3" "3" false false;
              VerificationList.PageLink "4" "4" false false;
              VerificationList.PageLink "5" "5" true false;
              VerificationList.PageLink "6" "6" false false;
              VerificationList.PageLink "7" "7" false false;
              VerificationList.Ellipsis;
              VerificationList.PageLink "10" "10" false false;
              VerificationList.PageLink "6" "bi bi-arrow-right-circle" false
                false;
              VerificationList.PageLink "10" "bi bi-skip-end" false false ])
         (VerificationList.pagination_block st).
Proof.
  split; [reflexivity|]. split; [reflexivity|].
  unfold VerificationList.renderPagination.
  destruct (VerificationList.pagination_block st) eqn:B; [|now rewrite B].
  reflexivity.
Qed.

Lemma pagination_items_shape cur total item :
  In item (VerificationList.pagination_items cur total) ->
  item = VerificationList.Ellipsis
  \/ exists p l a d, item = VerificationList.makePageItem p l a d.
Proof.
  unfold VerificationList.pagination_items.
  rewrite !in_app_iff, in_flat_map. intros [H|[[p [_ H]]|H]].
  - destruct H as [<-|[<-|[]]]; right; eauto.
  - destruct (_ || _).
    + destruct H as [<-|[]]. right; eauto.
    + destruct (_ || _); [|easy]. destruct H as [<-|[]]. now left.
  - destruct H as [<-|[<-|[]]]; right; eauto.
Qed.

Lemma click_makePageItem p l a d st :
  VerificationList.click_page_item (VerificationList.makePageItem p l a d) st
  = VerificationList.loadVerificationEntries_start (Some p) st.
Proof.
  unfold VerificationList.click_page_item, VerificationList.makePageItem.
  now rewrite Number_string_of_Z.
Qed.

(** C6, as amended.  In the appeals list, a click on a page link marked
    disabled does nothing, whatever its page, and so does a click on the link
    of the current page, which is not marked disabled; a click on an enabled
    link of another page makes it the current page and calls the list fetcher
    for it.  In the verification list, a click on an enabled page link of a
    rendered pagination control calls [loadVerificationEntries] with the page
    number of the link. *)
Theorem C6_page_link_clicks
  (inner : string) (page : Z) (active : bool) (ast : AppealsList.state)
  (cur total : Z) (data_page label : string) (vactive : bool)
  (vst : VerificationList.state) :
  AppealsList.click_li (AppealsList.Link inner page true active) ast = ast
  /\ AppealsList.click_li
       (AppealsList.Link inner (AppealsList.currentPage ast) false active)
       ast = ast
  /\ (page <> AppealsList.currentPage ast ->
      let st' :=
        AppealsList.click_li (AppealsList.Link inner page false active) ast in
      AppealsList.currentPage st' = page
      /\ AppealsList.events st'
         = AppealsList.events ast
           ++ [AppealsList.EFetchAppeals page AppealsList.pageSize
                 (if String.eqb (AppealsList.statusFilter ast) "" then None
                  else Some (AppealsList.statusFilter ast))])
  /\ (In (VerificationList.PageLink data_page label vactive false)
         (VerificationList.pagination_items cur total) ->
      exists p,
        data_page = JS.string_of_Z p
        /\ VerificationList.click_page_item
             (VerificationList.PageLink data_page label vactive false) vst
           = VerificationList.loadVerificationEntries_start (Some p) vst).
Proof.
  split; [reflexivity|]. split; [|split].
  - unfold AppealsList.click_li. cbn [negb andb].
    now rewrite Z.eqb_refl.
  - intros Hpage. unfold AppealsList.click_li. cbn [negb andb].
    destruct (Z.eqb_spec page (AppealsList.currentPage ast)); easy.
  - intros Hin.
    apply pagination_items_shape in Hin as [Hin|(p & l & a & d & Hin)];
      [discriminate|].
    exists p. rewrite Hin, click_makePageItem.
    unfold VerificationList.makePageItem in Hin. now injection Hin.
Qed.

(** C6, on an example: page 2 from page 1 of the appeals, the disabled
    first link of page 1, and the link of page 3 of the verification list. *)
Lemma C6_page_link_clicks_witness :
  2 <> AppealsList.currentPage example_appeals
  /\ In (VerificationList.PageLink "3" "3" false false)
       (VerificationList.pagination_items 1 5)
  /\ In (AppealsList.Link "bi bi-skip-start" 1 true false)
       (AppealsList.pagination_lis (AppealsList.currentPage example_appeals)
          3)
  /\ AppealsList.click_li (AppealsList.Link "bi bi-skip-start" 1 true false)
       example_appeals = example_appeals
  /\ AppealsList.events
       (AppealsList.click_li (AppealsList.Link "2" 2 false false)
          example_appeals)
     = [AppealsList.EFetchAppeals 2 30 None].
Proof.
  assert (H1 : 2 <> AppealsList.currentPage example_appeals)
    by (simpl; lia).
  assert (H2 : In (VerificationList.PageLink "3" "3" false false)
                 (VerificationList.pagination_items 1 5))
    by (vm_compute; tauto).
  split; [exact H1|]. split; [exact H2|].
  split; [vm_compute; tauto|].
  split.
  { exact (proj1 (C6_page_link_clicks "bi bi-skip-start" 1 false
                    example_appeals 1 5 "3" "3" false example_page)). }
  destruct (C6_page_link_clicks "2" 2 false example_appeals 1 5 "3" "3"
              false example_page) as (_ & _ & E & _).
  destruct (E H1) as [_ E']. rewrite E'. reflexivity.
Defined.

(** C6 as stated fails on the appeals list: the link of the current page
    is rendered enabled, and a click on it calls no list load. *)
Lemma C6_counterexample :
  In (AppealsList.Link "1" 1 false true) (AppealsList.pagination_lis 1 3)
  /\ AppealsList.click_li (AppealsList.Link "1" 1 false true) example_appeals
     = example_appeals
  /\ AppealsList.events
       (AppealsList.click_li (AppealsList.Link "1" 1 false true)
          example_appeals) = [].
Proof. repeat split. vm_compute. tauto. Qed.

(** ** Empty lists *)



(** ** Deleting a row *)

Section Delete.
Import VerificationList.

(** A rendered row: its node, its badge, which is the one of the
    verification result, its delete link and its cells. *)
Lemma render_row_shape st n e tr :
  render_row st n e = Some tr ->
  markup_free st e = true
  /\ node tr = n
  /\ data_row_id tr = Some (id e)
  /\ badge tr
     = Some (if verification_result e then "Пригодно" else "Непригодно")
  /\ delete_dataset tr = Some (row_company st e, JS.string_of_Z (id e))
  /\ length (cells tr) = 22%nat.
Proof.
  unfold render_row. destruct (markup_free st e); [|discriminate].
  cbn [negb]. intros [= <-]. unfold badge, result_td.
  cbn [cells node data_row_id delete_dataset].
  destruct (verification_result e); repeat split; reflexivity.
Qed.

(** A counter goes down by one when it is positive, and stays as it is
    otherwise: it never goes below 0. *)
Lemma decrement_spec txt d :
  decrement txt = Some d ->
  d = txt
  \/ exists k,
       JS.parseInt (if String.eqb txt "" then "0" else txt) = Some k
       /\ 0 < k <= 2 ^ 53
       /\ d = JS.string_of_Z (k - 1)
       /\ JS.parseInt d = Some (k - 1).
Proof.
  unfold decrement.
  destruct (JS.parseInt (if String.eqb txt "" then "0" else txt)) as [k|];
    [|intros [= <-]; now left].
  destruct (Z.ltb_spec 0 k); [|intros [= <-]; now left].
  destruct (Z.leb_spec k (2 ^ 53)); [|discriminate].
  intros [= <-]. right. exists k.
  repeat split; [assumption..|apply parseInt_string_of_Z].
Qed.

Lemma trim_ok : JS.trim "Пригодно" = "Пригодно".
Proof. reflexivity. Qed.

Lemma trim_bad : JS.trim "Непригодно" = "Непригодно".
Proof. reflexivity. Qed.

(** The page after a delete that the server reports successful. *)
Lemma delete_success tr o st :
  deleted o ->
  exact_counter (total_entries_el st) ->
  exact_counter (verified_entry_el st) ->
  exact_counter (not_verified_entry_el st) ->
  exists st',
    onDeleteVerification_resume tr o st = Some st'
    /\ events st' = events st ++ [EAlert "Запись поверки успешно удалена"]
    /\ table_body st' = table_body st
    /\ pagination_block st' = pagination_block st
    /\ next_node st' = next_node st
    /\ timers st' = timers st ++ [TRemoveRow 300 (node tr)]
    /\ total_entries_el st' = decremented (total_entries_el st)
    /\ verified_entry_el st'
       = (if badge_is tr "Пригодно"
          then decremented (verified_entry_el st)
          else verified_entry_el st)
    /\ not_verified_entry_el st'
       = (if badge_is tr "Непригодно"
          then decremented (not_verified_entry_el st)
          else not_verified_entry_el st).
Proof.
  intros Hdel Ht Hv Hn.
  destruct o as [m|status statusText body json]; [contradiction|].
  destruct Hdel as [Hok Herr].
  unfold onDeleteVerification_resume, safeFetch_settle. rewrite Hok, Herr.
  cbn [String.eqb negb].
  cbn [total_entries_el verified_entry_el not_verified_entry_el
       set_timers set_counters emit].
  revert Ht Hv Hn. unfold badge_is, badge, decremented, exact_counter.
  destruct (total_entries_el st) as [t|];
    [destruct (decrement t) as [t'|] eqn:Dt;
       [|now intros H; contradiction H]|];
    (destruct (verified_entry_el st) as [v|];
       [destruct (decrement v) as [v'|] eqn:Dv;
          [|now intros _ H; contradiction H]|]);
    (destruct (not_verified_entry_el st) as [x|];
       [destruct (decrement x) as [x'|] eqn:Dx;
          [|now intros _ _ H; contradiction H]|]);
    intros _ _ _; cbn [option_map];
    (destruct (result_td tr) as [c|]; cbn [option_map];
       [destruct (String.eqb_spec (JS.trim (text c)) "Пригодно") as [E1|E1];
          [rewrite E1|
           destruct (String.eqb (JS.trim (text c)) "Непригодно")]
       |]);
    cbn [String.eqb Ascii.eqb Bool.eqb andb option_map];
    rewrite ?Dt, ?Dv, ?Dx; cbn [option_map];
    (eexists; split; [reflexivity|]; cbn; now repeat split).
Qed.

End Delete.

(** C8, as amended.  When the server reports the delete of a verification
    entry successful, the handler sends no further request: it shows the
    confirmation, leaves the table body as it is and sets the timer that
    removes the row of the link, and only that row; it takes 1 from the
    total counter, and from the counter of verified entries when the badge
    of the row reads "Пригодно", or from the counter of entries not verified
    when it reads "Непригодно"; a counter only goes down when it is positive,
    so never below 0.  The row is any row of the table; for a row rendered
    from an entry without markup in its values, the badge is the one of the
    verification result of the entry.  The counters are taken to read as
    numbers up to 2^53, which the script computes with exactly.  When the
    delete of an appeal succeeds, the handler hides the modal and reloads the
    list: the table body is emptied and the current page is fetched again. *)
Theorem C8_delete_in_place
  (tr : VerificationList.row) (o : outcome (option string))
  (st : VerificationList.state)
  (st0 : VerificationList.state) (n : nat) (e : VerificationList.entry)
  (txt d : string) (ast : AppealsList.state) :
  deleted o ->
  exact_counter (VerificationList.total_entries_el st) ->
  exact_counter (VerificationList.verified_entry_el st) ->
  exact_counter (VerificationList.not_verified_entry_el st) ->
  let ast' := AppealsList.confirm_delete_resume None ast in
  (exists st',
     VerificationList.onDeleteVerification_resume tr o st = Some st'
     /\ VerificationList.events st'
        = VerificationList.events st
          ++ [VerificationList.EAlert "Запись поверки успешно удалена"]
     /\ VerificationList.table_body st' = VerificationList.table_body st
     /\ VerificationList.timers st'
        = VerificationList.timers st
          ++ [VerificationList.TRemoveRow 300 (VerificationList.node tr)]
     /\ VerificationList.table_body
          (VerificationList.fire
             (VerificationList.TRemoveRow 300 (VerificationList.node tr))
             st')
        = option_map
            (List.filter
               (fun r => negb (Nat.eqb (VerificationList.node r)
                                 (VerificationList.node tr))))
            (VerificationList.table_body st)
     /\ VerificationList.total_entries_el st'
        = decremented (VerificationList.total_entries_el st)
     /\ VerificationList.verified_entry_el st'
        = (if badge_is tr "Пригодно"
           then decremented (VerificationList.verified_entry_el st)
           else VerificationList.verified_entry_el st)
     /\ VerificationList.not_verified_entry_el st'
        = (if badge_is tr "Непригодно"
           then decremented (VerificationList.not_verified_entry_el st)
           else VerificationList.not_verified_entry_el st))
  /\ (VerificationList.render_row st0 n e = Some tr ->
      VerificationList.node tr = n
      /\ badge tr
         = Some (if VerificationList.verification_result e
                 then "Пригодно" else "Непригодно"))
  /\ (VerificationList.decrement txt = Some d ->
      d = txt
      \/ exists k,
           JS.parseInt (if String.eqb txt "" then "0" else txt) = Some k
           /\ 0 < k <= 2 ^ 53
           /\ d = JS.string_of_Z (k - 1)
           /\ JS.parseInt d = Some (k - 1))
  /\ AppealsList.delete_modal_shown ast' = false
  /\ AppealsList.tbody ast' = []
  /\ AppealsList.events ast'
     = AppealsList.events ast
       ++ [AppealsList.EFetchAppeals (AppealsList.currentPage ast)
             AppealsList.pageSize
             (if String.eqb (AppealsList.statusFilter ast) "" then None
              else Some (AppealsList.statusFilter ast))].
Proof.
  intros Hdel Ht Hv Hn ast'.
  split; [|split; [|split; [apply decrement_spec|now repeat split]]].
  - destruct (delete_success tr o st Hdel Ht Hv Hn)
      as (st' & R & E1 & E2 & E3 & E4 & E5 & E6 & E7 & E8).
    exists st'. split; [exact R|]. split; [exact E1|]. split; [exact E2|].
    split; [exact E5|]. split; [|now repeat split].
    unfold VerificationList.fire. rewrite E2.
    destruct (VerificationList.table_body st); [reflexivity|exact E2].
  - intros R. apply render_row_shape in R as (_ & R1 & _ & R2 & _).
    now split.
Qed.

(** C8, on an example: an empty success body, on the row of an entry found
    fit. *)
Lemma C8_delete_in_place_witness :
  deleted (Response 200 "OK" "" None)
  /\ exact_counter (VerificationList.total_entries_el example_page)
  /\ exact_counter (VerificationList.verified_entry_el example_page)
  /\ exact_counter (VerificationList.not_verified_entry_el example_page)
  /\ exists st',
       VerificationList.onDeleteVerification_resume example_row
         (Response 200 "OK" "" None) example_page = Some st'
       /\ VerificationList.total_entries_el st' = Some "9"
       /\ VerificationList.verified_entry_el st' = Some "3"
       /\ VerificationList.not_verified_entry_el st' = Some "6".
Proof.
  assert (H : deleted (Response 200 "OK" "" None))
    by (split; reflexivity).
  assert (H1 : exact_counter (VerificationList.total_entries_el example_page))
    by discriminate.
  assert (H2 : exact_counter
                 (VerificationList.verified_entry_el example_page))
    by discriminate.
  assert (H3 : exact_counter
                 (VerificationList.not_verified_entry_el example_page))
    by discriminate.
  repeat (split; [assumption|]).
  destruct (C8_delete_in_place example_row (Response 200 "OK" "" None)
              example_page example_page 0 example_entry "" ""
              example_appeals H H1 H2 H3)
    as ((st' & R & _ & _ & _ & _ & E1 & E2 & E3) & _).
  exists st'. split; [exact R|].
  rewrite E1, E2, E3. repeat split.
Defined.

(** C8 as stated fails for the delete of an appeal: after the server
    reports success, the current page of the list is fetched again. *)
Lemma C8_counterexample :
  let st' :=
    AppealsList.confirm_delete_resume None
      (AppealsList.confirm_delete_start 7 example_appeals) in
  AppealsList.events st'
  = [AppealsList.EDeleteAppeal 7; AppealsList.EFetchAppeals 1 30 None]
  /\ AppealsList.tbody st' = []
  /\ AppealsList.tbody st' <> AppealsList.tbody example_appeals.
Proof. repeat split. discriminate. Qed.

(** ** The act-number query of the order-create form *)

Section ActQuery.
Import OrderCreate.

Lemma setIf_key i v st : lastActQueryKey (setIf i v st) = lastActQueryKey st.
Proof. unfold setIf. now destruct (fields st !! i), v. Qed.

Lemma fill_key a b c d e f st :
  lastActQueryKey (fill a b c d e f st) = lastActQueryKey st.
Proof.
  unfold fill.
  repeat match goal with
         | |- context [match ?x with _ => _ end] => destruct x
         end;
    cbn; rewrite ?setIf_key; cbn; rewrite ?setIf_key; reflexivity.
Qed.

Lemma fillFromOrder_key st :
  lastActQueryKey (fillFromOrderForActNumber st) = lastActQueryKey st.
Proof.
  unfold fillFromOrderForActNumber.
  destruct (prefillData st); [apply fill_key|reflexivity].
Qed.

(** A response never changes [lastActQueryKey]. *)
Lemma resume_key k o st :
  lastActQueryKey (queryActNumber_resume k o st) = lastActQueryKey st.
Proof.
  unfold queryActNumber_resume.
  destruct o as [m|status statusText text json]; cbn.
  - now rewrite fillFromOrder_key.
  - destruct (status_ok status); cbn; [|now rewrite fillFromOrder_key].
    destruct (negb _); [reflexivity|].
    destruct (default None json) as [data|]; cbn;
      [|now rewrite fillFromOrder_key].
    destruct (bool_decide _); cbn;
      [now rewrite fillFromOrder_key|now rewrite fill_key].
Qed.

(** The guard: a successful response of a query whose key is not the last
    one recorded leaves the page as it is. *)
Lemma resume_stale k o st :
  ok_response o -> lastActQueryKey st <> Some k ->
  queryActNumber_resume k o st = st.
Proof.
  intros Hok Hk. destruct o as [m|status statusText text json]; [easy|].
  simpl in Hok. unfold queryActNumber_resume. rewrite Hok.
  now rewrite bool_decide_eq_false_2.
Qed.

(** A query that sends its request has recorded its key. *)
Lemma start_key st st1 k :
  queryActNumber_start st = (st1, Some k) ->
  lastActQueryKey st1 = Some k
  /\ exists num,
       JS.parseInt (act_digits st) = Some num
       /\ k = default "" (seriesSelect st) +:+ ":" +:+ JS.string_of_Z num
       /\ events st1
          = events st
            ++ [EFetch "GET"
                  (act_endpoint +:+ "?"
                   +:+ URLSearchParams.toString
                         [ ("company_id", JS.String_ (companyId st));
                           ("series_id", default "" (seriesSelect st));
                           ("act_number", JS.string_of_Z num) ])].
Proof.
  unfold queryActNumber_start.
  change (act_digits (set_deletedImages [] st)) with (act_digits st).
  cbn [seriesSelect set_deletedImages].
  destruct (String.eqb _ ""); [discriminate|].
  destruct (String.eqb (act_digits st) ""); [discriminate|].
  destruct (JS.parseInt (act_digits st)) as [num|]; [|discriminate].
  destruct (_ || _); [discriminate|].
  destruct (INT_MAX <? num); [discriminate|].
  intros [= <- <-]. split; [reflexivity|].
  exists num. repeat split.
Qed.

End ActQuery.

(** C9, as amended.  [queryActNumber] records the key [seriesId:actNumber]
    in [lastActQueryKey] when it sends its GET request, and a successful
    response is applied to the form only if [lastActQueryKey] still holds
    that key.  Hence, when a second query that records a different key is
    started before an earlier one resolves, the successful response of the
    earlier query changes nothing on the page, whether it comes before or
    after the response of the second. *)
Theorem C9_stale_act_response
  (st st1 s2 st2 : OrderCreate.state) (k1 k2 : string)
  (o o2 : outcome (option OrderCreate.act_data)) :
  OrderCreate.queryActNumber_start st = (st1, Some k1) ->
  OrderCreate.queryActNumber_start s2 = (st2, Some k2) ->
  k1 <> k2 ->
  ok_response o ->
  let st3 := OrderCreate.queryActNumber_resume k2 o2 st2 in
  OrderCreate.lastActQueryKey st1 = Some k1
  /\ (exists num,
        JS.parseInt (OrderCreate.act_digits st) = Some num
        /\ k1 = default "" (OrderCreate.seriesSelect st) +:+ ":"
                +:+ JS.string_of_Z num
        /\ OrderCreate.events st1
           = OrderCreate.events st
             ++ [OrderCreate.EFetch "GET"
                   (OrderCreate.act_endpoint +:+ "?"
                    +:+ URLSearchParams.toString
                          [ ("company_id",
                             JS.String_ (OrderCreate.companyId st));
                            ("series_id",
                             default "" (OrderCreate.seriesSelect st));
                            ("act_number", JS.string_of_Z num) ])])
  /\ (forall s,
        OrderCreate.lastActQueryKey s <> Some k1 ->
        OrderCreate.queryActNumber_resume k1 o s = s)
  /\ OrderCreate.queryActNumber_resume k1 o st2 = st2
  /\ OrderCreate.queryActNumber_resume k1 o st3 = st3.
Proof.
  intros H1 H2 Hk Hok st3.
  destruct (start_key _ _ _ H1) as [K1 E1].
  destruct (start_key _ _ _ H2) as [K2 _].
  split; [exact K1|]. split; [exact E1|].
  split; [intros s Hs; now apply resume_stale|].
  split; apply resume_stale; try assumption.
  - rewrite K2. congruence.
  - subst st3. rewrite resume_key, K2. congruence.
Qed.

(** C9, on an example: act 5 is queried, then act 6, and the response for
    act 5 comes last. *)
Lemma C9_stale_act_response_witness :
  let s2 :=
    OrderCreate.State (JS.VNum 1) (Some "3") "6"
      (Some "3:5") [] (OrderCreate.fields example_order) [] "" [] None
      false [] in
  let o := Response 200 "OK" "" (Some (Some example_act)) in
  let st2 := fst (OrderCreate.queryActNumber_start s2) in
  OrderCreate.queryActNumber_start example_order
  = (fst (OrderCreate.queryActNumber_start example_order), Some "3:5")
  /\ OrderCreate.queryActNumber_start s2 = (st2, Some "3:6")
  /\ "3:5" <> "3:6"
  /\ ok_response o
  /\ OrderCreate.queryActNumber_resume "3:5" o st2 = st2.
Proof.
  intros s2 o st2.
  assert (H1 : OrderCreate.queryActNumber_start example_order
               = (fst (OrderCreate.queryActNumber_start example_order),
                  Some "3:5")) by reflexivity.
  assert (H2 : OrderCreate.queryActNumber_start s2 = (st2, Some "3:6"))
    by reflexivity.
  assert (H3 : "3:5" <> "3:6") by discriminate.
  assert (H4 : ok_response o) by reflexivity.
  repeat (split; [assumption|]).
  exact (proj1 (proj2 (proj2 (proj2
    (C9_stale_act_response _ _ _ _ _ _ o o H1 H2 H3 H4))))).
Defined.

(** C9 as stated fails when the second query has the key of the first:
    the response of the earlier query is then written to the form. *)
Lemma C9_counterexample :
  let o := Response 200 "OK" "" (Some (Some example_act)) in
  let st1 := fst (OrderCreate.queryActNumber_start example_order) in
  let st2 := fst (OrderCreate.queryActNumber_start st1) in
  snd (OrderCreate.queryActNumber_start example_order) = Some "3:5"
  /\ snd (OrderCreate.queryActNumber_start st1) = Some "3:5"
  /\ OrderCreate.fields st2 !! "client_full_name" = Some "old"
  /\ OrderCreate.fields (OrderCreate.queryActNumber_resume "3:5" o st2)
       !! "client_full_name" = Some "new".
Proof. repeat split. Qed.

(** ** The submit handler of the order-create form *)

Section Submit.
Import OrderCreate.

Lemma posts_app a b : posts (a ++ b) = posts a ++ posts b.
Proof. apply List.filter_app. Qed.

(** [set] leaves one pair of the name, with the value set. *)
Lemma set_split k v (p : URLSearchParams.t) :
  exists p1 p2,
    URLSearchParams.set k v p = p1 ++ (k, v) :: p2
    /\ ~ In k (map fst p2).
Proof.
  induction p as [|[k' v'] p IH]; simpl.
  - exists [], []. split; [reflexivity|easy].
  - destruct (String.eqb_spec k' k) as [->|Hne].
    + exists [], (List.filter (fun e => negb (String.eqb (fst e) k)) p).
      split; [reflexivity|].
      intros H. apply in_map_iff in H as [[a b] [<- H]].
      apply filter_In in H as [_ H]. simpl in H.
      now rewrite String.eqb_refl in H.
    + destruct IH as (p1 & p2 & -> & H).
      exists ((k', v') :: p1), p2. now split.
Qed.

Lemma fold_fields_other k (l : list (string * string)) : forall obj,
  ~ In k (map fst l) ->
  Obj.get k
    (fold_left (fun obj e => Obj.assign (fst e) (to_field (snd e)) obj) l obj)
  = Obj.get k obj.
Proof.
  induction l as [|[a b] l IH]; intros obj H; [reflexivity|].
  simpl in *. rewrite IH by tauto. rewrite assign_get.
  destruct (String.eqb_spec a k); [tauto|reflexivity].
Qed.

Lemma to_field_number n :
  to_field (JS.string_of_Z n) = JS.VStr (JS.string_of_Z n).
Proof.
  unfold to_field.
  destruct (string_of_Z_text n) as (c & r & -> & Hc & _).
  destruct c as [[] [] [] [] [] [] [] []]; try discriminate Hc; reflexivity.
Qed.

(** The payload carries the act number as its decimal text. *)
Lemma payload_act_number n sub st :
  Obj.get "act_number" (payload n sub st) = JS.VStr (JS.string_of_Z n).
Proof.
  unfold payload. rewrite !get_set. cbn [String.eqb Ascii.eqb Bool.eqb].
  destruct (set_split "act_number" (JS.string_of_Z n) (form_data sub))
    as (p1 & p2 & -> & H).
  change (fun obj e => Obj.assign (fst e)
            (if String.eqb (snd e) "True" then JS.VBool true
             else if String.eqb (snd e) "False" then JS.VBool false
             else JS.VStr (snd e)) obj)
    with (fun obj e => Obj.assign (fst e) (to_field (snd e)) obj).
  rewrite fold_left_app. cbn [fold_left fst snd].
  rewrite fold_fields_other by assumption.
  now rewrite assign_get, String.eqb_refl, to_field_number.
Qed.

Lemma digits_only_digits s :
  Forall (fun c => JS.is_digit c = true)
    (list_ascii_of_string (JS.digits_only s)).
Proof.
  unfold JS.digits_only. rewrite list_ascii_of_string_of_list_ascii.
  apply List.Forall_forall. intros c Hc. now apply filter_In in Hc.
Qed.

Lemma strip_zeros_shape s :
  Forall (fun c => JS.is_digit c = true) (list_ascii_of_string s) ->
  JS.strip_leading_zeros s = ""
  \/ exists c r,
       JS.strip_leading_zeros s = String c r
       /\ JS.is_digit c = true /\ c <> "0"%char
       /\ Forall (fun c => JS.is_digit c = true) (list_ascii_of_string r).
Proof.
  induction s as [|c s IH]; simpl; intros H; [now left|].
  inversion H; subst.
  destruct (Ascii.eqb_spec c "0"); [now apply IH|].
  right. exists c, s. now repeat split.
Qed.

Lemma uint_of_digits s :
  Forall (fun c => JS.is_digit c = true) (list_ascii_of_string s) ->
  exists d, NilEmpty.uint_of_string s = Some d.
Proof.
  induction s as [|c s IH]; simpl; intros H; [eauto|].
  inversion H as [|? ? Hc Hs]; subst. destruct (IH Hs) as [d ->].
  destruct c as [[] [] [] [] [] [] [] []]; try discriminate Hc; simpl; eauto.
Qed.

Lemma uint_of_char_head c d' d :
  JS.is_digit c = true -> c <> "0"%char ->
  uint_of_char c (Some d') = Some d ->
  Decimal.unorm d = d /\ d <> Decimal.Nil.
Proof.
  intros Hc H0.
  destruct c as [[] [] [] [] [] [] [] []]; try discriminate Hc;
    try (now contradiction H0); simpl; intros [= <-]; now split.
Qed.

(** The act number of the submit handler, as text, is the digits of the
    field without their leading zeros, and it is at least 1. *)
Lemma actNum_text st n :
  actNum st = Some n -> JS.string_of_Z n = act_digits st /\ 1 <= n.
Proof.
  unfold actNum. intros H.
  destruct (strip_zeros_shape _ (digits_only_digits (actInput st)))
    as [E|(c & r & E & Hc & H0 & Hr)]; fold (act_digits st) in E;
    rewrite E in *; [discriminate|].
  cbn [String.eqb] in H. rewrite parseInt_digits in H by assumption.
  destruct (uint_of_digits (String c r)) as [d Hd]; [now constructor|].
  rewrite Hd in H. injection H as <-.
  pose proof Hd as Hd'. simpl in Hd'.
  destruct (NilEmpty.uint_of_string r) as [d'|] eqn:R;
    [|destruct c as [[] [] [] [] [] [] [] []]; discriminate].
  destruct (uint_of_char_head _ _ _ Hc H0 Hd') as [Hu Hn].
  assert (T : JS.string_of_Z (Z.of_uint d) = String c r).
  { unfold JS.string_of_Z.
    change (Z.of_uint d) with (Z.of_int (Decimal.Pos d)).
    rewrite DecimalZ.to_of. simpl. rewrite Hu.
    apply NilEmpty.sus in Hd. rewrite <- Hd. now destruct d. }
  split; [exact T|].
  destruct (Z.of_uint d) as [|p|p] eqn:Z0; [| lia |].
  - injection T as <- _. now contradiction H0.
  - unfold JS.string_of_Z in T. simpl in T. injection T as <- _.
    discriminate Hc.
Qed.

End Submit.

(** An effect that is not a POST adds no POST. *)
Ltac no_post := cbn; rewrite posts_app; cbn; now rewrite app_nil_r.

(** C10, as amended.  In every submission of the order-create form where
    the act number is not valid (its digits without leading zeros are empty,
    or their value is below 1 or above INT_MAX), no POST request is sent; and
    when the handler comes to the check of the act number (it is not busy
    with an earlier submission, and the phone, the verification date and the
    validity of the form have passed), it shows an alert.  When the handler
    comes to the check and the act number is valid, it sends one POST
    request, whose payload carries the act number as the text of the
    normalised integer: the digits of the field without leading zeros. *)
Theorem C10_act_number_check
  (sub : OrderCreate.submission) (st : OrderCreate.state) (n : Z) :
  let st' := OrderCreate.submit_start sub st in
  (act_invalid st = true ->
   posts (OrderCreate.events st') = posts (OrderCreate.events st))
  /\ (reaches_act_check sub st = true -> act_invalid st = true ->
      exists message,
        OrderCreate.events st'
        = OrderCreate.events st ++ [OrderCreate.EAlert message])
  /\ (reaches_act_check sub st = true -> act_invalid st = false ->
      OrderCreate.actNum st = Some n ->
      OrderCreate.events st'
      = OrderCreate.events st
        ++ [OrderCreate.EPost
              (OrderCreate.create_endpoint +:+ "?"
               +:+ URLSearchParams.toString
                     [ ("company_id", JS.String_ (OrderCreate.companyId st));
                       ("order_id", JS.String_ (OrderCreate.orderId sub));
                       ("redirect_to_metrolog_info",
                        if bool_decide
                             (OrderCreate.submitter_id sub
                              = Some "submit-order-and-metrolog")
                        then "1" else "0") ])
              (OrderCreate.payload n sub st) (OrderCreate.files sub)]
      /\ Obj.get "act_number" (OrderCreate.payload n sub st)
         = JS.VStr (JS.string_of_Z n)
      /\ JS.string_of_Z n = OrderCreate.act_digits st
      /\ 1 <= n <= OrderCreate.INT_MAX).
Proof.
  intros st'. subst st'. unfold OrderCreate.submit_start, act_invalid,
    reaches_act_check.
  set (allowShort :=
         Z.of_nat (String.length (OrderCreate.unmaskedValue sub)) <=? 2).
  assert (F : forall b : bool,
    OrderCreate.fields (if b then OrderCreate.set_phoneMask "" st else st)
    = OrderCreate.fields st) by now intros [].
  assert (A : forall b : bool,
    OrderCreate.actNum (if b then OrderCreate.set_phoneMask "" st else st)
    = OrderCreate.actNum st) by now intros [].
  assert (E : forall b : bool,
    OrderCreate.events (if b then OrderCreate.set_phoneMask "" st else st)
    = OrderCreate.events st) by now intros [].
  assert (P : forall (b : bool) m,
    OrderCreate.payload m sub
      (if b then OrderCreate.set_phoneMask "" st else st)
    = OrderCreate.payload m sub st) by now intros [].
  assert (C : forall b : bool,
    OrderCreate.companyId (if b then OrderCreate.set_phoneMask "" st else st)
    = OrderCreate.companyId st) by now intros [].
  rewrite F, A.
  destruct (OrderCreate.isSubmitting st) eqn:B; cbn [negb andb].
  { repeat split; intros; try discriminate; reflexivity. }
  destruct (allowShort || OrderCreate.isComplete sub) eqn:Ph; cbn [negb andb].
  2:{ repeat split; intros; try discriminate. no_post. }
  destruct (negb _ && String.ltb _ _) eqn:D; cbn [negb andb].
  { repeat split; intros; try discriminate. rewrite <- (E allowShort).
    no_post. }
  destruct (OrderCreate.checkValidity sub) eqn:V; cbn [negb].
  2:{ repeat split; intros; try discriminate. rewrite <- (E allowShort).
      no_post. }
  destruct (OrderCreate.actNum st) as [m|] eqn:N.
  2:{ repeat split; intros; try discriminate.
      - rewrite <- (E allowShort). no_post.
      - cbn. rewrite E. eauto. }
  destruct (m <? 1) eqn:L1; cbn [orb].
  { repeat split; intros; try discriminate.
    - rewrite <- (E allowShort). no_post.
    - cbn. rewrite E. eauto. }
  destruct (OrderCreate.INT_MAX <? m) eqn:L2.
  { repeat split; intros; try discriminate.
    - rewrite <- (E allowShort). no_post.
    - cbn. rewrite E. eauto. }
  split; [discriminate|]. split; [discriminate|].
  intros _ _ [= <-].
  destruct (actNum_text st m N) as [T G].
  split; [|split; [apply payload_act_number|split; [exact T|]]].
  - cbn. now rewrite E, P, C.
  - apply Z.ltb_ge in L2. lia.
Qed.

(** C10, on an example: the field holds 005, and the payload carries 5. *)
Lemma C10_act_number_check_witness :
  reaches_act_check example_submission example_order = true
  /\ act_invalid example_order = false
  /\ OrderCreate.actNum example_order = Some 5
  /\ Obj.get "act_number"
       (OrderCreate.payload 5 example_submission example_order)
     = JS.VStr "5"
  /\ posts (OrderCreate.events
              (OrderCreate.submit_start example_submission example_order))
     = [OrderCreate.EPost
          ("/verification/api/orders-control/create/"
           +:+ "?company_id=1&order_id=12&redirect_to_metrolog_info=0")
          [ ("act_number", JS.VStr "5"); ("legal_entity", JS.VBool true);
            ("address", JS.VStr ""); ("company_tz", JS.VStr "Europe/Moscow");
            ("deleted_images_id", JS.VIds []) ]
          []].
Proof.
  assert (H1 : reaches_act_check example_submission example_order = true)
    by reflexivity.
  assert (H2 : act_invalid example_order = false) by reflexivity.
  assert (H3 : OrderCreate.actNum example_order = Some 5) by reflexivity.
  repeat (split; [assumption|]).
  destruct (C10_act_number_check example_submission example_order 5)
    as (_ & _ & H).
  destruct (H H1 H2 H3) as (E & G & _).
  split; [rewrite G; reflexivity|].
  rewrite E. reflexivity.
Defined.

(** C10 as stated fails while an earlier submission is under way: the
    handler returns at once, without an alert, whatever the act number. *)
Lemma C10_counterexample :
  let st :=
    OrderCreate.State (JS.VNum 1) (Some "3") "0" None []
      (OrderCreate.fields example_order) [] "" [] None true [] in
  act_invalid st = true
  /\ OrderCreate.submit_start example_submission st = st
  /\ OrderCreate.events (OrderCreate.submit_start example_submission st) = [].
Proof. repeat split. Qed.

(** * Further properties of the scripts *)

(** ** Filters, the address bar and report links *)

Section Filters.
Import URLSearchParams VerificationList.

Lemma get_kept_list k (es : list (string * JS.value)) :
  NoDup (map fst es) ->
  get k (map (fun e => (fst e, JS.String_ (snd e)))
           (List.filter (fun e => kept (snd e)) es))
  = if kept (Obj.get k es) then Some (JS.String_ (Obj.get k es)) else None.
Proof.
  induction es as [|[a b] es IH]; intros Hnd; [reflexivity|].
  apply NoDup_cons in Hnd as [Ha Hnd]. rewrite list_elem_of_In in Ha.
  cbn [List.filter snd fst Obj.get].
  destruct (String.eqb_spec a k) as [->|Hne].
  - destruct (kept b) eqn:Kb.
    + cbn [map fst snd]. apply get_cons_eq.
    + apply get_not_In. intros Hin. apply Ha.
      rewrite map_map in Hin. cbn [fst] in Hin.
      apply in_map_iff in Hin as [x [Hx Hin]].
      apply filter_In in Hin as [Hin _]. subst k.
      apply in_map_iff. now exists x.
  - destruct (kept b); [|now apply IH].
    cbn [map fst snd]. rewrite get_cons_ne by assumption. now apply IH.
Qed.

(** The parameter [buildQuery] writes for a property of its argument. *)
Lemma kept_entries_get k o :
  Obj.wf o ->
  get k (kept_entries (Some o))
  = if kept (Obj.get k o) then Some (JS.String_ (Obj.get k o)) else None.
Proof.
  intros Hwf. unfold kept_entries. cbn [from_option Datatypes.id].
  rewrite get_kept_list by now apply entries_NoDup.
  now rewrite (get_perm k _ _ Hwf (entries_perm o)).
Qed.

Lemma get_filter_other k k' (p : t) :
  k <> k' ->
  get k (List.filter (fun e => negb (String.eqb (fst e) k')) p) = get k p.
Proof.
  intros Hne. induction p as [|[a b] p IH]; [reflexivity|].
  cbn [List.filter fst]. destruct (String.eqb_spec a k') as [->|Ha]; cbn.
  - destruct (String.eqb_spec k' k); [congruence|exact IH].
  - destruct (String.eqb_spec a k); [reflexivity|exact IH].
Qed.

Lemma merge_company_get k c (p : t) :
  k <> "company_id" -> get k (merge_company c p) = get k p.
Proof.
  intros Hne. destruct c as [v|]; [|reflexivity].
  unfold merge_company. rewrite get_cons_ne by congruence.
  now apply get_filter_other.
Qed.

Lemma trim_empty_string : JS.trim "" = "".
Proof. reflexivity. Qed.

Lemma kept_nonempty v : kept v = true -> JS.String_ v <> "".
Proof.
  unfold kept. intros H E. rewrite E, trim_empty_string in H.
  now destruct v.
Qed.

(** What [pushURLState] leaves in the address bar. *)
Lemma pushURLState_location o st :
  occurs "?" (pathname st) = false ->
  pathname (pushURLState o st) = pathname st
  /\ of_search (search (pushURLState o st)) = buildParams (Some o) st.
Proof.
  intros Hpath. unfold pushURLState, replaceState.
  destruct (String.eqb_spec (buildQuery (Some o) st) "") as [E|Hne];
    cbn [negb].
  - rewrite (cut_at_free "?" _ Hpath).
    unfold emit, set_location. cbn [pathname search String.eqb].
    split; [reflexivity|]. unfold buildQuery in E.
    destruct (buildParams (Some o) st) as [|e p] eqn:B; [reflexivity|].
    exfalso. now apply (toString_nonempty (e :: p)).
  - change (pathname st +:+ "?" +:+ buildQuery (Some o) st)
      with (pathname st +:+ String "?" (buildQuery (Some o) st)).
    rewrite (cut_at_app "?" _ _ Hpath).
    destruct (String.eqb_spec (buildQuery (Some o) st) ""); [contradiction|].
    unfold emit, set_location. cbn [pathname search].
    split; [reflexivity|].
    change (of_search _) with (parse (buildQuery (Some o) st)).
    unfold buildQuery. apply parse_toString.
Qed.

End Filters.

(** Round trip through the address bar.  After [pushURLState(paramsObj)],
    [getCurrentFiltersFromURL()] gives back, for every known key, the value
    of [paramsObj] as a string, when [buildQuery] keeps that value (it is
    neither null nor undefined nor blank), and no property otherwise; a key
    that is not a known key is never read back. *)
Theorem pushURLState_getCurrentFiltersFromURL
  (paramsObj : Obj.t) (st : VerificationList.state) (k : string) :
  Obj.wf paramsObj ->
  occurs "?" (VerificationList.pathname st) = false ->
  Obj.get k
    (VerificationList.getCurrentFiltersFromURL
       (VerificationList.pushURLState paramsObj st))
  = if existsb (String.eqb k) VerificationList.knownKeys
       && VerificationList.kept (Obj.get k paramsObj)
    then JS.VStr (JS.String_ (Obj.get k paramsObj))
    else JS.VUndefined.
Proof.
  intros Hwf Hpath. rewrite url_filters_get. unfold url_value, param_text.
  destruct (existsb (String.eqb k) VerificationList.knownKeys) eqn:K;
    [|reflexivity].
  destruct (pushURLState_location paramsObj st Hpath) as [_ ->].
  rewrite buildParams_merge by exact Hwf.
  assert (Hk : k <> "company_id").
  { intros ->. discriminate K. }
  rewrite merge_company_get, kept_entries_get by assumption.
  cbn [andb].
  destruct (VerificationList.kept (Obj.get k paramsObj)) eqn:E;
    [|reflexivity].
  apply kept_nonempty in E.
  now destruct (String.eqb_spec (JS.String_ (Obj.get k paramsObj)) "").
Qed.

(** On an example: the page pushed to the address bar is read back from it,
    as a string. *)
Lemma pushURLState_getCurrentFiltersFromURL_witness :
  let o := [("date_from", JS.VStr "2024-01-01"); ("page", JS.VNum 2);
            ("note", JS.VStr "x"); ("city_id", JS.VStr " ")] in
  Obj.wf o
  /\ occurs "?" (VerificationList.pathname example_page) = false
  /\ Obj.get "page"
       (VerificationList.getCurrentFiltersFromURL
          (VerificationList.pushURLState o example_page))
     = JS.VStr "2".
Proof.
  intros o.
  assert (H1 : Obj.wf o).
  { unfold o, Obj.wf. cbn [map fst].
    apply (bool_decide_unpack (NoDup _)). vm_compute. exact I. }
  assert (H2 : occurs "?" (VerificationList.pathname example_page) = false)
    by reflexivity.
  split; [exact H1|]. split; [exact H2|].
  rewrite (pushURLState_getCurrentFiltersFromURL o example_page "page" H1 H2).
  reflexivity.
Defined.

Section Readers.
Import VerificationList.

Lemma form_value_snoc k form e :
  form_value k (form ++ [e]) = form_step k (form_value k form) e.
Proof. unfold form_value. now rewrite fold_left_app. Qed.

Lemma form_step_plain k acc e :
  k <> "__proto__" ->
  form_step k acc e
  = if String.eqb (fst e) k && negb (String.eqb (snd e) "")
    then Some (snd e) else acc.
Proof.
  intros Hk. unfold form_step.
  destruct (String.eqb_spec k "__proto__"); [contradiction|].
  now rewrite andb_true_r.
Qed.

Lemma form_step_skip k l : forall acc,
  (forall s, In (k, s) l -> s = "") ->
  fold_left (form_step k) l acc = acc.
Proof.
  induction l as [|[a b] l IH]; intros acc H; [reflexivity|].
  simpl. rewrite IH by (intros s Hs; apply H; now right).
  unfold form_step. cbn [fst snd].
  destruct (String.eqb_spec a k) as [->|]; [|reflexivity].
  rewrite (H b) by now left. reflexivity.
Qed.

(** The value of the form for a name is its last non-empty entry of that
    name, and there is none for [__proto__]. *)
Lemma form_value_last k form s :
  form_value k form = Some s
  <-> k <> "__proto__"
      /\ s <> ""
      /\ exists l1 l2,
           form = l1 ++ (k, s) :: l2 /\ forall s', In (k, s') l2 -> s' = "".
Proof.
  destruct (String.eqb_spec k "__proto__") as [->|Hk].
  { rewrite form_value_proto. split; [discriminate|now intros [H _]]. }
  split.
  - intros H. split; [exact Hk|]. revert s H.
    induction form as [|[a b] form IH] using rev_ind; intros s H;
      [discriminate|].
    rewrite form_value_snoc, form_step_plain in H by exact Hk.
    cbn [fst snd] in H.
    destruct (String.eqb_spec a k) as [->|Hne];
      [destruct (String.eqb_spec b "") as [->|Hb]|]; cbn in H.
    + destruct (IH s H) as (Hs & l1 & l2 & -> & Hl). split; [exact Hs|].
      exists l1, (l2 ++ [(k, "")]). split; [now rewrite <- app_assoc|].
      intros s' [Hin|[[= <-]|[]]]%in_app_iff; [now apply Hl|reflexivity].
    + injection H as <-. split; [exact Hb|]. exists form, []. now split.
    + destruct (IH s H) as (Hs & l1 & l2 & -> & Hl). split; [exact Hs|].
      exists l1, (l2 ++ [(a, b)]). split; [now rewrite <- app_assoc|].
      intros s' [Hin|[[= -> _]|[]]]%in_app_iff; [now apply Hl|congruence].
  - intros (_ & Hs & l1 & l2 & -> & Hl). unfold form_value.
    rewrite fold_left_app. cbn [fold_left].
    rewrite form_step_skip by assumption.
    rewrite form_step_plain by exact Hk. cbn [fst snd].
    rewrite String.eqb_refl.
    now destruct (String.eqb_spec s "").
Qed.

End Readers.

(** [getCurrentFiltersFromURL()] reads the allow-list and nothing else: its
    result has distinct names, and it has the property [k] with the value [v]
    exactly when [k] is a known key, the first parameter named [k] of the
    address bar has a non-empty value, and [v] is that value. *)
Theorem getCurrentFiltersFromURL_entries
  (st : VerificationList.state) (k : string) (v : JS.value) :
  Obj.wf (VerificationList.getCurrentFiltersFromURL st)
  /\ (In (k, v) (VerificationList.getCurrentFiltersFromURL st)
      <-> In k VerificationList.knownKeys
          /\ exists s,
               s <> ""
               /\ URLSearchParams.get k
                    (URLSearchParams.of_search (VerificationList.search st))
                  = Some s
               /\ v = JS.VStr s).
Proof.
  destruct (url_filters_inv st) as [Hwf Htext]. split; [exact Hwf|].
  pose proof (url_filters_get k st) as G. unfold url_value, param_text in G.
  split.
  - intros Hin. rewrite (get_In _ _ _ Hwf Hin) in G.
    destruct (Htext _ Hin) as [s Hs]. cbn [snd] in Hs. rewrite Hs in *.
    destruct (existsb (String.eqb k) VerificationList.knownKeys) eqn:K;
      [|discriminate].
    apply existsb_exists in K as [x [Hx E]]. apply String.eqb_eq in E.
    subst x. split; [exact Hx|].
    destruct (URLSearchParams.get k _) as [x|]; [|discriminate].
    destruct (String.eqb_spec x ""); [discriminate|].
    cbn [from_text] in G. injection G as ->. now exists x.
  - intros [Hk (s & Hs & E & ->)]. rewrite E in G.
    assert (K : existsb (String.eqb k) VerificationList.knownKeys = true).
    { apply existsb_exists. exists k. split; [exact Hk|].
      apply String.eqb_refl. }
    rewrite K in G. destruct (String.eqb_spec s ""); [contradiction|].
    cbn [from_text] in G. rewrite <- G. apply In_get.
    destruct (has_key k (VerificationList.getCurrentFiltersFromURL st))
      eqn:H; [reflexivity|].
    apply get_no_key in H. congruence.
Qed.

(** [getCurrentFiltersFromForm()] has no allow-list: its result has
    distinct names, and it has the property [k] with the value [v] exactly
    when [k] is not [__proto__] and [v] is the value of the last entry of
    the form named [k] that is not empty.  An empty value never appears in
    it, and an entry of the form named [__proto__] leaves no property. *)
Theorem getCurrentFiltersFromForm_entries
  (st : VerificationList.state) (k : string) (v : JS.value) :
  Obj.wf (VerificationList.getCurrentFiltersFromForm st)
  /\ (In (k, v) (VerificationList.getCurrentFiltersFromForm st)
      <-> k <> "__proto__"
          /\ exists s l1 l2,
               v = JS.VStr s /\ s <> ""
               /\ VerificationList.filter_form st = l1 ++ (k, s) :: l2
               /\ forall s', In (k, s') l2 -> s' = "").
Proof.
  destruct (form_filters_inv st) as [Hwf Htext]. split; [exact Hwf|].
  pose proof (form_filters_get k st) as G.
  split.
  - intros Hin. rewrite (get_In _ _ _ Hwf Hin) in G.
    destruct (Htext _ Hin) as [s Hs]. cbn [snd] in Hs. rewrite Hs in *.
    destruct (form_value k (VerificationList.filter_form st)) as [x|] eqn:F;
      [|discriminate].
    cbn [from_text] in G. injection G as ->.
    apply form_value_last in F as (Hk & Hx & l1 & l2 & E & Hl).
    split; [exact Hk|]. now exists x, l1, l2.
  - intros (Hk & s & l1 & l2 & -> & Hs & E & Hl).
    assert (F : form_value k (VerificationList.filter_form st) = Some s).
    { apply form_value_last. split; [exact Hk|]. split; [exact Hs|].
      now exists l1, l2. }
    rewrite F in G. cbn [from_text] in G. rewrite <- G. apply In_get.
    destruct (has_key k (VerificationList.getCurrentFiltersFromForm st))
      eqn:H; [reflexivity|].
    apply get_no_key in H. congruence.
Qed.

Lemma safeFetch_failed {J : Type} (action : string) (o : outcome J)
  (st : VerificationList.state) :
  failed o ->
  exists log text,
    VerificationList.safeFetch_settle action o st
    = (VerificationList.showAlert text "danger" 5000
         (VerificationList.emit (VerificationList.EConsoleError log) st),
       None).
Proof.
  destruct o as [m|status statusText body json]; cbn [failed]; intros H.
  - unfold VerificationList.safeFetch_settle. eauto.
  - unfold VerificationList.safeFetch_settle. rewrite H. eauto.
Qed.

(** The list load, the delete of an entry and the ARSHIN request stop at a
    failed request in the same way.  When the request fails, by its status
    or at the network level, each of the three ends with the error logged
    and one danger notification shown for 5 seconds, which sets the timer
    that takes it down; nothing else is changed on the page: no alert, no
    success message, no timer on a row, and the table body, the pagination
    block and the counters are as before. *)
Theorem failed_request_uniform
  (page : option Z) (tr : VerificationList.row) (J : Type)
  (o1 : outcome (option VerificationList.envelope))
  (o2 : outcome (option string)) (o3 : outcome J)
  (st : VerificationList.state) :
  failed o1 -> failed o2 -> failed o3 ->
  let notified (st' : VerificationList.state) :=
    exists log text,
      st' = VerificationList.showAlert text "danger" 5000
              (VerificationList.emit (VerificationList.EConsoleError log) st)
      /\ VerificationList.events st'
         = VerificationList.events st
           ++ [ VerificationList.EConsoleError log;
                VerificationList.EToast text "danger" 5000 ]
      /\ VerificationList.timers st'
         = VerificationList.timers st
           ++ [VerificationList.THideAlert 5000 text]
      /\ VerificationList.table_body st' = VerificationList.table_body st
      /\ VerificationList.pagination_block st'
         = VerificationList.pagination_block st
      /\ VerificationList.total_entries_el st'
         = VerificationList.total_entries_el st
      /\ VerificationList.verified_entry_el st'
         = VerificationList.verified_entry_el st
      /\ VerificationList.not_verified_entry_el st'
         = VerificationList.not_verified_entry_el st
  in
  notified (VerificationList.loadVerificationEntries_resume page o1 st)
  /\ (exists st',
        VerificationList.onDeleteVerification_resume tr o2 st = Some st'
        /\ notified st')
  /\ notified (VerificationList.requestArshinData_resume o3 st).
Proof.
  intros H1 H2 H3 notified.
  assert (N : forall log text,
    notified (VerificationList.showAlert text "danger" 5000
                (VerificationList.emit (VerificationList.EConsoleError log)
                   st))).
  { intros log text. exists log, text. split; [reflexivity|].
    cbn. rewrite <- app_assoc. now repeat split. }
  split; [|split].
  - unfold VerificationList.loadVerificationEntries_resume.
    destruct (safeFetch_failed "загрузке записей поверки" o1 st H1)
      as (log & text & ->). apply N.
  - unfold VerificationList.onDeleteVerification_resume.
    destruct (safeFetch_failed "удалении записи поверки" o2 st H2)
      as (log & text & ->). eexists. split; [reflexivity|apply N].
  - unfold VerificationList.requestArshinData_resume.
    destruct (safeFetch_failed "запросе АРШИН" o3 st H3)
      as (log & text & ->). apply N.
Qed.

(** On an example: the three requests answered with status 503. *)
Lemma failed_request_uniform_witness :
  failed (Response 503 "Service Unavailable" "" None
          : outcome (option VerificationList.envelope))
  /\ failed (Response 503 "Service Unavailable" "" None
             : outcome (option string))
  /\ failed (Response 503 "Service Unavailable" "" None : outcome unit)
  /\ exists log text,
       VerificationList.timers
         (VerificationList.requestArshinData_resume
            (Response 503 "Service Unavailable" "" None : outcome unit)
            example_page)
       = [VerificationList.THideAlert 5000 text]
       /\ VerificationList.events
            (VerificationList.requestArshinData_resume
               (Response 503 "Service Unavailable" "" None : outcome unit)
               example_page)
          = [ VerificationList.EConsoleError log;
              VerificationList.EToast text "danger" 5000 ].
Proof.
  assert (H1 : failed (Response 503 "Service Unavailable" "" None
                       : outcome (option VerificationList.envelope)))
    by reflexivity.
  assert (H2 : failed (Response 503 "Service Unavailable" "" None
                       : outcome (option string))) by reflexivity.
  assert (H3 : failed (Response 503 "Service Unavailable" "" None
                       : outcome unit)) by reflexivity.
  repeat (split; [assumption|]).
  destruct (failed_request_uniform (Some 1) example_row unit
              _ _ _ example_page H1 H2 H3)
    as (_ & _ & log & text & _ & E & T & _).
  exists log, text. split; [exact T|exact E].
Defined.

(** [requestArshinData()] sends its request exactly when the form gives a
    non-empty [date_from] and a non-empty [date_to].  With their last
    non-empty values [a] and [b], it sends one GET request, whose query
    holds, besides the tenant, each of the two dates that is not blank and
    no other filter of the form: a date of white space passes the check and
    is then left out by [buildQuery].  When one of the two is missing it
    shows a warning for 5 seconds and sends no request. *)
Theorem requestArshinData_needs_dates (st : VerificationList.state) :
  let r := VerificationList.requestArshinData_start st in
  match form_value "date_from" (VerificationList.filter_form st),
        form_value "date_to" (VerificationList.filter_form st) with
  | Some a, Some b =>
      snd r = true
      /\ exists q,
           fst r
           = VerificationList.emit
               (VerificationList.EFetch "GET"
                  (VerificationList.arshin_endpoint +:+ "?" +:+ q)) st
           /\ forall k,
                k <> "company_id" ->
                URLSearchParams.get k (URLSearchParams.parse q)
                = if String.eqb k "date_from"
                  then (if VerificationList.kept (JS.VStr a)
                        then Some a else None)
                  else if String.eqb k "date_to"
                  then (if VerificationList.kept (JS.VStr b)
                        then Some b else None)
                  else None
  | _, _ =>
      snd r = false
      /\ exists text,
           fst r = VerificationList.showAlert text "warning" 5000 st
           /\ VerificationList.events (fst r)
              = VerificationList.events st
                ++ [VerificationList.EToast text "warning" 5000]
  end.
Proof.
  intros r. subst r. unfold VerificationList.requestArshinData_start.
  rewrite !form_filters_get.
  destruct (form_value "date_from" (VerificationList.filter_form st))
    as [a|] eqn:A.
  2:{ cbn [from_text JS.truthy negb orb fst snd]. split; eauto. }
  pose proof (form_value_nonempty _ _ _ A) as Ha.
  destruct (form_value "date_to" (VerificationList.filter_form st))
    as [b|] eqn:B.
  2:{ cbn [from_text JS.truthy negb orb].
      destruct (String.eqb a ""); cbn [negb orb fst snd]; split; eauto. }
  pose proof (form_value_nonempty _ _ _ B) as Hb.
  cbn [from_text JS.truthy].
  destruct (String.eqb_spec a ""); [contradiction|].
  destruct (String.eqb_spec b ""); [contradiction|].
  cbn [negb orb fst snd]. split; [reflexivity|].
  eexists. split; [reflexivity|].
  intros k Hk. unfold VerificationList.buildQuery.
  rewrite parse_toString.
  assert (Hwf : Obj.wf [("date_from", JS.VStr a); ("date_to", JS.VStr b)]).
  { unfold Obj.wf. cbn [map fst].
    apply (bool_decide_unpack (NoDup _)). vm_compute. exact I. }
  rewrite buildParams_merge by exact Hwf.
  rewrite merge_company_get, kept_entries_get by assumption.
  cbn [Obj.get]. rewrite (String.eqb_sym "date_from" k),
    (String.eqb_sym "date_to" k).
  destruct (String.eqb k "date_from"); [reflexivity|].
  destruct (String.eqb k "date_to"); reflexivity.
Qed.

(** A report link carries the filters of the form and nothing of the
    address bar: for every name but the tenant's, the query of the URL that
    [downloadReport] opens holds the value of [additionalParams] when it has
    the name, else the last non-empty value of the form, and in both cases
    only when that value is neither null, undefined nor blank. *)
Theorem downloadReport_parameters
  (endpoint : string) (additionalParams : Obj.t)
  (st : VerificationList.state) (k : string) :
  Obj.wf additionalParams ->
  k <> "company_id" ->
  exists q,
    VerificationList.downloadReport endpoint additionalParams st
    = "/verification/api/reports/" +:+ endpoint +:+ "?" +:+ q
    /\ URLSearchParams.get k (URLSearchParams.parse q)
       = let v :=
           if has_key k additionalParams then Obj.get k additionalParams
           else from_text (form_value k (VerificationList.filter_form st)) in
         if VerificationList.kept v then Some (JS.String_ v) else None.
Proof.
  intros Hwf Hk. eexists. split; [reflexivity|].
  unfold VerificationList.buildQuery. rewrite parse_toString.
  destruct (form_filters_inv st) as [Fw Ft].
  assert (W : Obj.wf (Obj.spread additionalParams
                        (Obj.spread
                           (VerificationList.getCurrentFiltersFromForm st)
                           []))).
  { do 2 apply spread_wf. constructor. }
  rewrite buildParams_merge by exact W.
  rewrite merge_company_get, kept_entries_get by assumption.
  rewrite !get_spread by assumption.
  rewrite (has_key_text k _ Ft), form_filters_get. cbn [Obj.get].
  destruct (has_key k additionalParams); [reflexivity|].
  now destruct (form_value k (VerificationList.filter_form st)).
Qed.

(** On an example: the report link carries the date of the form. *)
Lemma downloadReport_parameters_witness :
  Obj.wf [("report_id", JS.VNum 4)]
  /\ "date_to" <> "company_id"
  /\ exists q,
       VerificationList.downloadReport "dynamic" [("report_id", JS.VNum 4)]
         example_page
       = "/verification/api/reports/dynamic?" +:+ q
       /\ URLSearchParams.get "date_to" (URLSearchParams.parse q)
          = Some "2024-02-01".
Proof.
  assert (H1 : Obj.wf [("report_id", JS.VNum 4)])
    by (apply NoDup_singleton).
  assert (H2 : "date_to" <> "company_id") by discriminate.
  split; [exact H1|]. split; [exact H2|].
  destruct (downloadReport_parameters "dynamic" _ example_page "date_to"
              H1 H2) as (q & E & G).
  exists q. split; [exact E|]. rewrite G. reflexivity.
Defined.

(** ** Rows, their delete links and their removal *)

Section Rows.
Import VerificationList.

Lemma string_of_Z_nonempty n : JS.string_of_Z n <> "".
Proof. destruct (string_of_Z_text n) as (c & r & -> & _). discriminate. Qed.

Lemma eqb_empty_false s : s <> "" -> String.eqb s "" = false.
Proof. intros H. now destruct (String.eqb_spec s ""). Qed.





Lemma decrement_string_of_Z x :
  x <= 2 ^ 53 ->
  decrement (JS.string_of_Z x)
  = Some (JS.string_of_Z (if 0 <? x then x - 1 else x)).
Proof.
  intros Hx. unfold decrement.
  rewrite (eqb_empty_false _ (string_of_Z_nonempty x)), parseInt_string_of_Z.
  destruct (0 <? x); [|reflexivity].
  now destruct (Z.leb_spec x (2 ^ 53)); [|lia].
Qed.

Lemma renderPagination_frame a b s :
  events (renderPagination a b s) = events s
  /\ pathname (renderPagination a b s) = pathname s
  /\ search (renderPagination a b s) = search s
  /\ history_length (renderPagination a b s) = history_length s
  /\ timers (renderPagination a b s) = timers s.
Proof.
  unfold renderPagination. destruct (pagination_block s); [|easy].
  now destruct (_ || _).
Qed.

Lemma renderVerificationTable_frame l s :
  events (renderVerificationTable l s) = events s
  /\ pathname (renderVerificationTable l s) = pathname s
  /\ search (renderVerificationTable l s) = search s
  /\ history_length (renderVerificationTable l s) = history_length s
  /\ timers (renderVerificationTable l s) = timers s.
Proof.
  unfold renderVerificationTable. destruct (table_body s); [|easy].
  destruct l; [easy|]. now destruct (render_rows _ _ _).
Qed.

Lemma pages_range p total : In p (pages total) -> 1 <= p <= total.
Proof.
  unfold pages. rewrite in_map_iff. intros (k & <- & Hk).
  apply in_seq in Hk. lia.
Qed.

Lemma count_page cur n : forall a,
  length (List.filter (fun p => p =? cur) (map Z.of_nat (seq a n)))
  = if (Z.of_nat a <=? cur) && (cur <? Z.of_nat a + Z.of_nat n)
    then 1%nat else 0%nat.
Proof.
  induction n as [|n IH]; intros a.
  - cbn [seq map List.filter length].
    destruct (Z.leb_spec (Z.of_nat a) cur),
             (Z.ltb_spec cur (Z.of_nat a + Z.of_nat 0));
      cbn [andb]; try reflexivity; lia.
  - cbn [seq map List.filter]. specialize (IH (S a)).
    destruct (Z.eqb_spec (Z.of_nat a) cur) as [E|E]; cbn [length];
      rewrite IH;
      destruct (Z.leb_spec (Z.of_nat (S a)) cur),
               (Z.ltb_spec cur (Z.of_nat (S a) + Z.of_nat n)),
               (Z.leb_spec (Z.of_nat a) cur),
               (Z.ltb_spec cur (Z.of_nat a + Z.of_nat (S n)));
      cbn [andb]; try reflexivity; lia.
Qed.

End Rows.

(** The delete link of a rendered row names the entry of the row.  For a
    row rendered from an entry whose values, the tenant among them, hold no
    markup, and with [c] the tenant of the page when the row was rendered,
    or else the company of the entry: a click sends a request only when [c]
    is not empty and the user confirms; the request is then one DELETE for
    this tenant and the id of the entry, after the prompt.  Otherwise nothing
    is sent: the page is as before, but for the prompt when the user
    declined. *)
Theorem delete_link_request
  (st0 : VerificationList.state) (n : nat) (e : VerificationList.entry)
  (tr : VerificationList.row) (confirmed : bool)
  (st : VerificationList.state) :
  VerificationList.render_row st0 n e = Some tr ->
  let c := VerificationList.row_company st0 e in
  let ask :=
    VerificationList.EConfirm
      ("Удалить запись поверки ID "
       +:+ JS.string_of_Z (VerificationList.id e) +:+ "?") in
  let r := VerificationList.onDeleteVerification_start tr confirmed st in
  (snd r = true <-> c <> "" /\ confirmed = true)
  /\ (if snd r
      then fst r
           = VerificationList.emit
               (VerificationList.EFetch "DELETE"
                  (VerificationList.delete_endpoint +:+ "?company_id=" +:+ c
                   +:+ "&verification_entry_id="
                   +:+ JS.string_of_Z (VerificationList.id e)))
               (VerificationList.emit ask st)
      else fst r = (if String.eqb c "" then st
                    else VerificationList.emit ask st)).
Proof.
  intros R c ask r. subst r ask.
  apply render_row_shape in R as (_ & _ & _ & _ & D & _).
  unfold VerificationList.onDeleteVerification_start. rewrite D. fold c.
  rewrite (eqb_empty_false _ (string_of_Z_nonempty (VerificationList.id e))).
  cbn [orb].
  destruct (String.eqb_spec c "") as [E|E].
  - cbn [fst snd]. split; [|reflexivity]. split; [discriminate|].
    now intros [H _].
  - destruct confirmed; cbn [negb fst snd]; (split; [|reflexivity]).
    + now split.
    + split; [discriminate|]. now intros [_ H].
Qed.

(** On an example: the row of the example entry, the user confirming. *)
Lemma delete_link_request_witness :
  VerificationList.render_row example_page 0 example_entry = Some example_row
  /\ VerificationList.events
       (fst (VerificationList.onDeleteVerification_start example_row true
               example_page))
     = [ VerificationList.EConfirm "Удалить запись поверки ID 11?";
         VerificationList.EFetch "DELETE"
           ("/verification/api/verifications-control/delete/"
            +:+ "?company_id=5&verification_entry_id=11") ].
Proof.
  assert (H : VerificationList.render_row example_page 0 example_entry
              = Some example_row) by reflexivity.
  split; [exact H|].
  destruct (delete_link_request example_page 0 example_entry example_row
              true example_page H) as [_ E].
  cbv zeta in E.
  change (snd (VerificationList.onDeleteVerification_start example_row true
                 example_page)) with true in E.
  cbv iota in E. rewrite E. reflexivity.
Defined.

(** A delete that did not succeed changes nothing on the page: when the
    request fails, or the server answers with an [error], the table body,
    the pagination block and the three counters stay as they were, no
    further request is sent and no timer is set on a row, and the user is
    told: by an alert, or by a danger notification, which sets the timer
    that takes it down. *)
Theorem delete_failure_keeps_page
  (tr : VerificationList.row) (o : outcome (option string))
  (st : VerificationList.state) :
  ~ deleted o ->
  exists st',
    VerificationList.onDeleteVerification_resume tr o st = Some st'
    /\ VerificationList.table_body st' = VerificationList.table_body st
    /\ VerificationList.pagination_block st'
       = VerificationList.pagination_block st
    /\ VerificationList.total_entries_el st'
       = VerificationList.total_entries_el st
    /\ VerificationList.verified_entry_el st'
       = VerificationList.verified_entry_el st
    /\ VerificationList.not_verified_entry_el st'
       = VerificationList.not_verified_entry_el st
    /\ exists es,
         VerificationList.events st' = VerificationList.events st ++ es
         /\ es <> []
         /\ forallb is_notice es = true
         /\ VerificationList.timers st'
            = VerificationList.timers st ++ toast_timers es.
Proof.
  intros Hdel.
  unfold VerificationList.onDeleteVerification_resume,
    VerificationList.safeFetch_settle.
  destruct o as [m|status statusText body json].
  - eexists. split; [reflexivity|]. cbn. rewrite <- app_assoc.
    do 5 (split; [reflexivity|]). eexists. split; [reflexivity|].
    split; [discriminate|]. split; reflexivity.
  - cbn [deleted] in Hdel. destruct (status_ok status).
    + destruct (String.eqb_spec (default "" (default None json)) "")
        as [E|E]; [now exfalso; apply Hdel|].
      cbn [negb]. eexists. split; [reflexivity|]. cbn.
      do 5 (split; [reflexivity|]). eexists. split; [reflexivity|].
      split; [discriminate|]. split; [reflexivity|].
      now rewrite app_nil_r.
    + eexists. split; [reflexivity|]. cbn. rewrite <- app_assoc.
      do 5 (split; [reflexivity|]). eexists. split; [reflexivity|].
      split; [discriminate|]. split; reflexivity.
Qed.

(** On an example: the server answers with an [error]. *)
Lemma delete_failure_keeps_page_witness :
  ~ deleted (Response 200 "OK" "" (Some (Some "Запись не найдена")))
  /\ exists st',
       VerificationList.onDeleteVerification_resume example_row
         (Response 200 "OK" "" (Some (Some "Запись не найдена")))
         example_page = Some st'
       /\ VerificationList.events st'
          = [VerificationList.EAlert "Ошибка: Запись не найдена"]
       /\ VerificationList.table_body st'
          = VerificationList.table_body example_page.
Proof.
  assert (H : ~ deleted (Response 200 "OK" ""
                           (Some (Some "Запись не найдена"))))
    by (intros [_ E]; discriminate E).
  split; [exact H|].
  destruct (delete_failure_keeps_page example_row _ example_page H)
    as (st' & R & T & _).
  exists st'. split; [exact R|]. split; [|exact T].
  injection R as <-. reflexivity.
Defined.



(** The end of a load never sends a request, never touches the address bar
    and never asks the user: whatever the outcome of the request, the
    location and the history are as before, the only effects are console
    messages, notifications and alerts, and the only timers set are those
    that take the notifications down. *)
Theorem load_resume_frame
  (page : option Z) (o : outcome (option VerificationList.envelope))
  (st : VerificationList.state) :
  let st' := VerificationList.loadVerificationEntries_resume page o st in
  VerificationList.pathname st' = VerificationList.pathname st
  /\ VerificationList.search st' = VerificationList.search st
  /\ VerificationList.history_length st' = VerificationList.history_length st
  /\ exists es,
       VerificationList.events st' = VerificationList.events st ++ es
       /\ forallb is_notice es = true
       /\ VerificationList.timers st'
          = VerificationList.timers st ++ toast_timers es.
Proof.
  intros st'. subst st'.
  unfold VerificationList.loadVerificationEntries_resume,
    VerificationList.safeFetch_settle.
  assert (R : forall a b l t v nv,
    let s := VerificationList.renderPagination a b
               (VerificationList.renderVerificationTable l
                  (VerificationList.renderStats t v nv st)) in
    VerificationList.pathname s = VerificationList.pathname st
    /\ VerificationList.search s = VerificationList.search st
    /\ VerificationList.history_length s
       = VerificationList.history_length st
    /\ exists es,
         VerificationList.events s = VerificationList.events st ++ es
         /\ forallb is_notice es = true
         /\ VerificationList.timers s
            = VerificationList.timers st ++ toast_timers es).
  { intros a b l t v nv s. subst s.
    match goal with
    | |- context [VerificationList.renderPagination ?a ?b ?s] =>
        destruct (renderPagination_frame a b s)
          as (E1 & E2 & E3 & E4 & E5);
        rewrite E1, E2, E3, E4, E5
    end.
    match goal with
    | |- context [VerificationList.renderVerificationTable ?l ?s] =>
        destruct (renderVerificationTable_frame l s)
          as (F1 & F2 & F3 & F4 & F5);
        rewrite F1, F2, F3, F4, F5
    end.
    cbn. repeat split. exists []. cbn. now rewrite !app_nil_r. }
  destruct o as [m|status statusText body json].
  - cbn. rewrite <- app_assoc. do 3 (split; [reflexivity|]).
    eexists. split; [reflexivity|]. split; reflexivity.
  - destruct (status_ok status).
    + destruct json as [[data|]|].
      * apply R.
      * apply R.
      * cbn. rewrite <- app_assoc. do 3 (split; [reflexivity|]).
        eexists. split; [reflexivity|]. split; [reflexivity|].
        now rewrite app_nil_r.
    + cbn. rewrite <- app_assoc. do 3 (split; [reflexivity|]).
      eexists. split; [reflexivity|]. split; reflexivity.
Qed.

(** A response with a success status whose body is not JSON ends the load
    with a console message and an alert: the table body, the pagination
    block and the counters stay as they were. *)
Theorem load_unparsable_body
  (page : option Z) (status : Z) (statusText body : string)
  (st : VerificationList.state) :
  status_ok status = true ->
  let st' :=
    VerificationList.loadVerificationEntries_resume page
      (Response status statusText body None) st in
  VerificationList.events st'
  = VerificationList.events st
    ++ [ VerificationList.EConsoleError "Ошибка парсинга JSON:";
         VerificationList.EAlert "Ошибка обработки ответа сервера" ]
  /\ VerificationList.table_body st' = VerificationList.table_body st
  /\ VerificationList.pagination_block st'
     = VerificationList.pagination_block st
  /\ VerificationList.total_entries_el st'
     = VerificationList.total_entries_el st
  /\ VerificationList.verified_entry_el st'
     = VerificationList.verified_entry_el st
  /\ VerificationList.not_verified_entry_el st'
     = VerificationList.not_verified_entry_el st.
Proof.
  intros Hok st'. subst st'.
  unfold VerificationList.loadVerificationEntries_resume,
    VerificationList.safeFetch_settle.
  rewrite Hok. cbn. rewrite <- app_assoc. repeat split.
Qed.

(** On an example: an HTML body with status 200. *)
Lemma load_unparsable_body_witness :
  status_ok 200 = true
  /\ VerificationList.events
       (VerificationList.loadVerificationEntries_resume (Some 1)
          (Response 200 "OK" "<html>" None) example_page)
     = [ VerificationList.EConsoleError "Ошибка парсинга JSON:";
         VerificationList.EAlert "Ошибка обработки ответа сервера" ].
Proof.
  assert (H : status_ok 200 = true) by reflexivity.
  split; [exact H|].
  exact (proj1 (load_unparsable_body (Some 1) 200 "OK" "<html>"
                  example_page H)).
Defined.

(** ** The pagination control as a whole *)

Section Control.
Import VerificationList.

Lemma active_numbered cur total p :
  List.filter is_active
    (if (p =? 1) || (p =? total)
        || ((cur - win <=? p) && (p <=? cur + win))
     then [makePageItem p None (p =? cur) false]
     else if (p =? cur - (win + 1)) || (p =? cur + (win + 1))
     then [Ellipsis] else [])
  = if p =? cur then [makePageItem p None true false] else [].
Proof.
  unfold win. destruct (Z.eqb_spec p cur) as [->|Hne].
  - replace ((cur - 2 <=? cur) && (cur <=? cur + 2)) with true
      by (symmetry; apply andb_true_iff; split; apply Z.leb_le; lia).
    rewrite orb_true_r. reflexivity.
  - destruct (_ || _ || _); [reflexivity|].
    now destruct (_ || _).
Qed.

Lemma active_pages cur total (l : list Z) :
  List.filter is_active
    (flat_map
       (fun p =>
          if (p =? 1) || (p =? total)
             || ((cur - win <=? p) && (p <=? cur + win))
          then [makePageItem p None (p =? cur) false]
          else if (p =? cur - (win + 1)) || (p =? cur + (win + 1))
          then [Ellipsis] else []) l)
  = map (fun p => makePageItem p None true false)
      (List.filter (fun p => p =? cur) l).
Proof.
  induction l as [|p l IH]; [reflexivity|].
  cbn [flat_map]. rewrite List.filter_app, active_numbered, IH.
  cbn [List.filter]. now destruct (p =? cur).
Qed.

End Control.

(** Every link of a rendered pagination control leads to a page that
    exists: with the current page between 1 and [total], the page of a link
    is between 1 and [total]; a link marked active is the numbered link of
    the current page, and a link marked disabled leads to the current page. *)
Theorem pagination_links_in_range
  (cur total : Z) (data_page label : string) (active disabled : bool) :
  1 <= cur <= total ->
  In (VerificationList.PageLink data_page label active disabled)
    (VerificationList.pagination_items cur total) ->
  exists p,
    data_page = JS.string_of_Z p
    /\ 1 <= p <= total
    /\ (active = true -> p = cur /\ label = data_page)
    /\ (disabled = true -> p = cur).
Proof.
  intros Hc. unfold VerificationList.pagination_items.
  rewrite !in_app_iff, in_flat_map.
  unfold VerificationList.makePageItem. cbn [default Datatypes.id].
  intros [H|[(p & Hp & H)|H]].
  - destruct H as [H|[H|[]]]; injection H as <- <- <- <-;
      [exists 1|exists (Z.max 1 (cur - 1))];
      repeat split; try lia; try discriminate.
  - apply pages_range in Hp.
    destruct (_ || _ || _).
    + destruct H as [H|[]]. injection H as <- <- <- <-.
      exists p. repeat split; try lia; try discriminate.
    + destruct (_ || _); [|easy]. now destruct H.
  - destruct H as [H|[H|[]]]; injection H as <- <- <- <-;
      [exists (Z.min total (cur + 1))|exists total];
      repeat split; try lia; try discriminate.
Qed.

(** On an example: the next link on page 5 of 10. *)
Lemma pagination_links_in_range_witness :
  1 <= 5 <= 10
  /\ In (VerificationList.PageLink "6" "bi bi-arrow-right-circle" false false)
       (VerificationList.pagination_items 5 10)
  /\ exists p, "6" = JS.string_of_Z p /\ 1 <= p <= 10.
Proof.
  assert (H1 : 1 <= 5 <= 10) by lia.
  assert (H2 : In (VerificationList.PageLink "6" "bi bi-arrow-right-circle"
                     false false)
                 (VerificationList.pagination_items 5 10))
    by (vm_compute; tauto).
  split; [exact H1|]. split; [exact H2|].
  destruct (pagination_links_in_range 5 10 _ _ _ _ H1 H2)
    as (p & E & R & _).
  now exists p.
Defined.

(** A rendered pagination control marks exactly one link active, the
    numbered link of the current page, when the current page is between 1
    and [total]; when it is outside, no link is marked active. *)
Theorem pagination_one_active (cur total : Z) :
  List.filter is_active (VerificationList.pagination_items cur total)
  = if (1 <=? cur) && (cur <=? total)
    then [VerificationList.PageLink (JS.string_of_Z cur) (JS.string_of_Z cur)
            true false]
    else [].
Proof.
  unfold VerificationList.pagination_items.
  rewrite !List.filter_app, active_pages.
  cbn [List.filter is_active VerificationList.makePageItem app].
  rewrite app_nil_r. unfold VerificationList.pages.
  pose proof (count_page cur (Z.to_nat total) 1) as C.
  assert (V : forall x,
    In x (List.filter (fun p => p =? cur)
            (map Z.of_nat (seq 1 (Z.to_nat total)))) -> x = cur).
  { intros x Hx. apply filter_In in Hx as [_ Hx]. now apply Z.eqb_eq. }
  destruct (List.filter (fun p => p =? cur)
              (map Z.of_nat (seq 1 (Z.to_nat total)))) as [|x [|y l]].
  - cbn [length] in C. cbn [map].
    destruct (Z.leb_spec 1 cur), (Z.leb_spec cur total);
      cbn [andb]; try reflexivity.
    destruct (Z.leb_spec (Z.of_nat 1) cur),
             (Z.ltb_spec cur (Z.of_nat 1 + Z.of_nat (Z.to_nat total)));
      cbn [andb] in C; try discriminate C; lia.
  - cbn [length] in C. rewrite (V x) by now left. cbn [map].
    destruct (Z.leb_spec 1 cur), (Z.leb_spec cur total);
      cbn [andb]; try reflexivity;
      destruct (Z.leb_spec (Z.of_nat 1) cur),
               (Z.ltb_spec cur (Z.of_nat 1 + Z.of_nat (Z.to_nat total)));
      cbn [andb] in C; try discriminate C; lia.
  - cbn [length] in C. now destruct (_ && _).
Qed.

(** The counters that [renderStats] writes are read back by the delete
    handler as the numbers written, for numbers up to 2^53 in size, which
    the script holds exactly: after a delete that the server reports
    successful, on any row, the total shows [t - 1] when [t] is positive and
    [t] otherwise, and so does the counter that the badge of the row names;
    the other counters still show their numbers. *)
Theorem counters_after_delete
  (tr : VerificationList.row) (o : outcome (option string))
  (st : VerificationList.state) (t v nv : Z) :
  deleted o ->
  Z.abs t <= 2 ^ 53 -> Z.abs v <= 2 ^ 53 -> Z.abs nv <= 2 ^ 53 ->
  let dec (x : Z) := if 0 <? x then x - 1 else x in
  exists st',
    VerificationList.onDeleteVerification_resume tr o
      (VerificationList.renderStats t v nv st) = Some st'
    /\ VerificationList.total_entries_el st'
       = option_map (fun _ => JS.string_of_Z (dec t))
           (VerificationList.total_entries_el st)
    /\ VerificationList.verified_entry_el st'
       = option_map
           (fun _ => JS.string_of_Z
                       (if badge_is tr "Пригодно" then dec v else v))
           (VerificationList.verified_entry_el st)
    /\ VerificationList.not_verified_entry_el st'
       = option_map
           (fun _ => JS.string_of_Z
                       (if badge_is tr "Непригодно" then dec nv else nv))
           (VerificationList.not_verified_entry_el st).
Proof.
  intros Hdel Ht Hv Hn dec.
  assert (X : forall (el : option string) x,
    Z.abs x <= 2 ^ 53 ->
    let w := match el with
             | Some _ => Some (JS.string_of_Z x)
             | None => None
             end in
    exact_counter w
    /\ decremented w = option_map (fun _ => JS.string_of_Z (dec x)) el).
  { intros el x Hx. destruct el; cbn; [|easy].
    rewrite decrement_string_of_Z by lia. now split. }
  destruct (X (VerificationList.total_entries_el st) t Ht) as [X1 Y1].
  destruct (X (VerificationList.verified_entry_el st) v Hv) as [X2 Y2].
  destruct (X (VerificationList.not_verified_entry_el st) nv Hn) as [X3 Y3].
  destruct (delete_success tr o (VerificationList.renderStats t v nv st)
              Hdel X1 X2 X3)
    as (st' & R & _ & _ & _ & _ & _ & E1 & E2 & E3).
  exists st'. split; [exact R|].
  rewrite E1, E2, E3. unfold VerificationList.renderStats.
  cbn [VerificationList.total_entries_el VerificationList.verified_entry_el
       VerificationList.not_verified_entry_el VerificationList.set_counters].
  cbv zeta in Y1, Y2, Y3. rewrite Y1.
  split; [reflexivity|]. split.
  - destruct (badge_is tr "Пригодно"); [exact Y2|].
    now destruct (VerificationList.verified_entry_el st).
  - destruct (badge_is tr "Непригодно"); [exact Y3|].
    now destruct (VerificationList.not_verified_entry_el st).
Qed.

(** On an example: a counter that shows 0 stays at 0. *)
Lemma counters_after_delete_witness :
  deleted (Response 200 "OK" "" None)
  /\ Z.abs 1 <= 2 ^ 53 /\ Z.abs 0 <= 2 ^ 53
  /\ exists st',
       VerificationList.onDeleteVerification_resume example_row
         (Response 200 "OK" "" None)
         (VerificationList.renderStats 1 0 1 example_page) = Some st'
       /\ VerificationList.total_entries_el st' = Some "0"
       /\ VerificationList.verified_entry_el st' = Some "0"
       /\ VerificationList.not_verified_entry_el st' = Some "1".
Proof.
  assert (H : deleted (Response 200 "OK" "" None))
    by (split; reflexivity).
  assert (H1 : Z.abs 1 <= 2 ^ 53) by (vm_compute; discriminate).
  assert (H0 : Z.abs 0 <= 2 ^ 53) by (vm_compute; discriminate).
  split; [exact H|]. split; [exact H1|]. split; [exact H0|].
  destruct (counters_after_delete example_row (Response 200 "OK" "" None)
              example_page 1 0 1 H H1 H0 H1)
    as (st' & R & E1 & E2 & E3).
  exists st'. split; [exact R|]. rewrite E1, E2, E3. repeat split.
Defined.

(** ** The appeals list *)

Section Appeals.
Import AppealsList.

Lemma renderRow_fold (l : list appeal) : forall st,
  let st' := fold_left renderRow l st in
  map link_id (tbody st')
  = map link_id (tbody st) ++ map (fun a => Some (id a)) l
  /\ (forall w,
        Forall (fun r => length (cells r) = w) (tbody st) ->
        w = (if customerField st then 7 else 6)%nat ->
        Forall (fun r => length (cells r) = w) (tbody st'))
  /\ currentPage st' = currentPage st
  /\ customerField st' = customerField st
  /\ events st' = events st
  /\ paginationUl st' = paginationUl st
  /\ spinner_hidden st' = spinner_hidden st.
Proof.
  induction l as [|a l IH]; intros st; cbv zeta.
  - cbn [fold_left map]. rewrite app_nil_r. repeat split. tauto.
  - cbn [fold_left]. destruct (IH (renderRow st a))
      as (I1 & I2 & I3 & I4 & I5 & I6 & I7).
    rewrite I1, I3, I4, I5, I6, I7.
    unfold renderRow at 1 3 4 5 6 7 8.
    cbn [tbody set_tbody currentPage customerField events paginationUl
         spinner_hidden map].
    rewrite map_app, <- app_assoc. cbn [map link_id app].
    repeat split. intros w Hw Ew. apply I2.
    + unfold renderRow. cbn [tbody set_tbody].
      apply Forall_app. split; [exact Hw|].
      constructor; [|constructor]. cbn [cells]. rewrite Ew.
      now destruct (customerField st).
    + exact Ew.
Qed.

End Appeals.

(** The data of a load is appended to the table body, which only the start
    of a load empties: for any page, the rows after the data arrived are the
    rows before it followed by one row per item, in the order of the items.
    So when two loads overlap, the second one started before the data of the
    first one arrived, the rows of both stay in the table. *)
Theorem appeals_rows_appended
  (d1 d2 : AppealsList.page_data) (st : AppealsList.state) :
  map AppealsList.link_id
    (AppealsList.tbody (AppealsList.loadAppeals_resume (inr d1) st))
  = map AppealsList.link_id (AppealsList.tbody st)
    ++ map (fun a => Some (AppealsList.id a)) (AppealsList.items d1)
  /\ map AppealsList.link_id
       (AppealsList.tbody
          (AppealsList.loadAppeals_resume (inr d2)
             (AppealsList.loadAppeals_resume (inr d1)
                (AppealsList.loadAppeals_start
                   (AppealsList.loadAppeals_start st)))))
     = map (fun a => Some (AppealsList.id a))
         (AppealsList.items d1 ++ AppealsList.items d2).
Proof.
  assert (G : forall d s,
    map AppealsList.link_id
      (AppealsList.tbody (AppealsList.loadAppeals_resume (inr d) s))
    = map AppealsList.link_id (AppealsList.tbody s)
      ++ map (fun a => Some (AppealsList.id a)) (AppealsList.items d)).
  { intros d s. unfold AppealsList.loadAppeals_resume.
    cbn [AppealsList.hideSpinner AppealsList.set_spinner_hidden
         AppealsList.renderPagination AppealsList.set_paginationUl
         AppealsList.tbody].
    apply (renderRow_fold (AppealsList.items d) s). }
  split; [apply G|]. rewrite !G, map_app. reflexivity.
Qed.

(** A load of the appeals list that succeeds, from its start on, for
    appeals whose texts hold no markup: the table body holds one row per
    item, in the order of the items, each with 7 cells when the customer
    column is shown and 6 otherwise, which is also the width of the cell of
    the error row; the pagination is rendered for the current page, the
    current page is not changed, and exactly one request was sent.  Whatever
    the outcome, the spinner is shown while the request is pending and hidden
    after it. *)
Theorem appeals_load_success
  (data : AppealsList.page_data) (o : HTML.text + AppealsList.page_data)
  (message : HTML.text) (st : AppealsList.state) :
  let width := (if AppealsList.customerField st then 7 else 6)%nat in
  let st1 := AppealsList.loadAppeals_start st in
  let st' := AppealsList.loadAppeals_resume (inr data) st1 in
  map AppealsList.link_id (AppealsList.tbody st')
  = map (fun a => Some (AppealsList.id a)) (AppealsList.items data)
  /\ Forall (fun r => length (AppealsList.cells r) = width)
       (AppealsList.tbody st')
  /\ map AppealsList.colspan
       (AppealsList.cells (AppealsList.error_row st1 message)) = [width]
  /\ AppealsList.paginationUl st'
     = AppealsList.pagination_lis (AppealsList.currentPage st)
         (AppealsList.total_pages data)
  /\ AppealsList.currentPage st' = AppealsList.currentPage st
  /\ AppealsList.events st'
     = AppealsList.events st
       ++ [AppealsList.EFetchAppeals (AppealsList.currentPage st)
             AppealsList.pageSize
             (if String.eqb (AppealsList.statusFilter st) "" then None
              else Some (AppealsList.statusFilter st))]
  /\ AppealsList.spinner_hidden st1 = false
  /\ AppealsList.spinner_hidden (AppealsList.loadAppeals_resume o st1) = true.
Proof.
  intros width st1 st'. subst st'.
  destruct (renderRow_fold (AppealsList.items data) st1)
    as (I1 & I2 & I3 & I4 & I5 & I6 & I7).
  unfold AppealsList.loadAppeals_resume.
  cbn [AppealsList.hideSpinner AppealsList.set_spinner_hidden
       AppealsList.renderPagination AppealsList.set_paginationUl
       AppealsList.tbody AppealsList.paginationUl AppealsList.currentPage
       AppealsList.events AppealsList.spinner_hidden].
  rewrite I1, I3, I5.
  split; [reflexivity|]. split; [|repeat split].
  apply I2; [constructor|reflexivity].
Qed.

Lemma appeals_pages_range p total :
  In p (AppealsList.pages total) -> 1 <= p <= total.
Proof.
  unfold AppealsList.pages. rewrite in_map_iff. intros (k & <- & Hk).
  apply in_seq in Hk. lia.
Qed.

(** Page navigation of the appeals list stays within the pages that exist:
    with the current page between 1 and [total], a click on any element of
    the pagination rendered for it leaves the current page between 1 and
    [total], and sends at most one request, which asks for the new current
    page. *)
Theorem appeals_click_in_range
  (total : Z) (l : AppealsList.li) (st : AppealsList.state) :
  1 <= AppealsList.currentPage st <= total ->
  In l (AppealsList.pagination_lis (AppealsList.currentPage st) total) ->
  let st' := AppealsList.click_li l st in
  1 <= AppealsList.currentPage st' <= total
  /\ (st' = st
      \/ AppealsList.events st'
         = AppealsList.events st
           ++ [AppealsList.EFetchAppeals (AppealsList.currentPage st')
                 AppealsList.pageSize
                 (if String.eqb (AppealsList.statusFilter st) "" then None
                  else Some (AppealsList.statusFilter st))]).
Proof.
  intros Hc Hin st'. subst st'.
  assert (G : forall inner page disabled active,
    (disabled = false -> 1 <= page <= total) ->
    let st' :=
      AppealsList.click_li (AppealsList.Link inner page disabled active) st in
    1 <= AppealsList.currentPage st' <= total
    /\ (st' = st
        \/ AppealsList.events st'
           = AppealsList.events st
             ++ [AppealsList.EFetchAppeals (AppealsList.currentPage st')
                   AppealsList.pageSize
                   (if String.eqb (AppealsList.statusFilter st) "" then None
                    else Some (AppealsList.statusFilter st))])).
  { intros inner page disabled active Hp. cbv zeta.
    unfold AppealsList.click_li.
    destruct disabled; cbn [negb andb]; [now split; [|left]|].
    destruct (page =? AppealsList.currentPage st); cbn [negb];
      [now split; [|left]|].
    split; [exact (Hp eq_refl)|]. now right. }
  unfold AppealsList.pagination_lis in Hin.
  rewrite !in_app_iff, in_flat_map in Hin.
  unfold AppealsList.makeLi in Hin.
  destruct Hin as [H|[(p & Hp & H)|H]].
  - destruct H as [<-|[<-|[]]]; apply G; intros E;
      apply Z.leb_gt in E; lia.
  - apply appeals_pages_range in Hp. destruct (_ || _ || _).
    + destruct H as [<-|[]]. apply G. intros _. exact Hp.
    + destruct (_ =? 3); [|easy]. destruct H as [<-|[]].
      split; [exact Hc|now left].
  - destruct H as [<-|[<-|[]]]; apply G; intros E;
      apply Z.leb_gt in E; lia.
Qed.

(** On an example: the next link on page 1 of 3. *)
Lemma appeals_click_in_range_witness :
  1 <= AppealsList.currentPage example_appeals <= 3
  /\ In (AppealsList.Link "bi bi-arrow-right-circle" 2 false false)
       (AppealsList.pagination_lis (AppealsList.currentPage example_appeals)
          3)
  /\ AppealsList.currentPage
       (AppealsList.click_li
          (AppealsList.Link "bi bi-arrow-right-circle" 2 false false)
          example_appeals) = 2.
Proof.
  assert (H1 : 1 <= AppealsList.currentPage example_appeals <= 3)
    by (simpl; lia).
  assert (H2 : In (AppealsList.Link "bi bi-arrow-right-circle" 2 false false)
                 (AppealsList.pagination_lis
                    (AppealsList.currentPage example_appeals) 3))
    by (vm_compute; tauto).
  split; [exact H1|]. split; [exact H2|].
  destruct (appeals_click_in_range 3 _ example_appeals H1 H2) as [_ [E|E]].
  - discriminate E.
  - reflexivity.
Defined.

(** ** The order-create form: the act-number field and the dates *)

Section ActField.
Import OrderCreate.

Lemma filter_idem {A} (f : A -> bool) (l : list A) :
  List.filter f (List.filter f l) = List.filter f l.
Proof.
  induction l as [|x l IH]; [reflexivity|]. cbn [List.filter].
  destruct (f x) eqn:E; [|exact IH]. cbn [List.filter]. now rewrite E, IH.
Qed.

Lemma digits_only_idem s : JS.digits_only (JS.digits_only s) = JS.digits_only s.
Proof.
  unfold JS.digits_only.
  now rewrite list_ascii_of_string_of_list_ascii, filter_idem.
Qed.

Lemma list_ascii_app a b :
  list_ascii_of_string (a +:+ b)
  = list_ascii_of_string a ++ list_ascii_of_string b.
Proof.
  induction a as [|c a IH]; [reflexivity|].
  change (String c a +:+ b) with (String c (a +:+ b)).
  cbn [list_ascii_of_string]. now rewrite IH.
Qed.

Lemma all_digits_app a b : all_digits a -> all_digits b -> all_digits (a +:+ b).
Proof.
  unfold all_digits. rewrite list_ascii_app. intros Ha Hb.
  apply Forall_app. now split.
Qed.

Lemma all_digits_substring s : forall n m,
  all_digits s -> all_digits (substring n m s).
Proof.
  unfold all_digits. induction s as [|c s IH]; intros n m H.
  - destruct n, m; constructor.
  - inversion H as [|? ? Hc Hs]; subst. destruct n as [|n].
    + destruct m as [|m]; [constructor|]. cbn. constructor; [exact Hc|].
      now apply IH.
    + cbn. now apply IH.
Qed.

Lemma length_substring s : forall n m,
  String.length (substring n m s) = Nat.min m (String.length s - n).
Proof.
  induction s as [|c s IH]; intros n m.
  - destruct n, m; reflexivity.
  - destruct n as [|n].
    + destruct m as [|m]; [reflexivity|]. cbn. now rewrite IH, Nat.sub_0_r.
    + cbn. apply IH.
Qed.

Lemma length_append a b :
  String.length (a +:+ b) = (String.length a + String.length b)%nat.
Proof.
  induction a as [|c a IH]; [reflexivity|].
  change (String c a +:+ b) with (String c (a +:+ b)).
  cbn [String.length]. now rewrite IH.
Qed.

Lemma substring_prefix d : forall b,
  substring 0 (String.length d) (d +:+ b) = d.
Proof.
  induction d as [|y d IH]; intros b.
  - now destruct b.
  - change (String y d +:+ b) with (String y (d +:+ b)).
    cbn [String.length substring]. now rewrite IH.
Qed.

Lemma substring_app_mid a d b :
  substring (String.length a) (String.length d) (a +:+ d +:+ b) = d.
Proof.
  induction a as [|x a IH]; [exact (substring_prefix d b)|].
  change (String x a +:+ d +:+ b) with (String x (a +:+ d +:+ b)).
  cbn [String.length substring]. exact IH.
Qed.

End ActField.

(** The act-number field takes digits only.  A key that types one
    character is let through exactly when the character is a digit.  The
    [input] listener, on any value of the field, leaves digits only; it
    leaves a field of digits as it is, and never changes the number the
    field denotes.  A paste into a field of digits leaves a field of digits,
    and with a selection inside the field it puts the pasted digits in place
    of the selection and the caret behind them. *)
Theorem act_field_digits_only
  (c : ascii) (text : string) (selectionStart selectionEnd : nat)
  (st : OrderCreate.state) :
  let r :=
    OrderCreate.actInput_paste text selectionStart selectionEnd st in
  OrderCreate.actInput_keydown (String c "") false false
  = negb (JS.is_digit c)
  /\ all_digits (OrderCreate.actInput (OrderCreate.actInput_input st))
  /\ OrderCreate.act_digits (OrderCreate.actInput_input st)
     = OrderCreate.act_digits st
  /\ OrderCreate.actInput_input (OrderCreate.actInput_input st)
     = OrderCreate.actInput_input st
  /\ (all_digits (OrderCreate.actInput st) ->
      all_digits (OrderCreate.actInput (fst r)))
  /\ ((selectionStart <= selectionEnd
       <= String.length (OrderCreate.actInput st))%nat ->
      String.length (OrderCreate.actInput (fst r))
      = (String.length (OrderCreate.actInput st)
         - (selectionEnd - selectionStart)
         + String.length (JS.digits_only text))%nat
      /\ substring selectionStart (String.length (JS.digits_only text))
           (OrderCreate.actInput (fst r))
         = JS.digits_only text)
  /\ snd r = (selectionStart + String.length (JS.digits_only text))%nat.
Proof.
  intros r. subst r.
  split.
  { destruct c as [[] [] [] [] [] [] [] []]; reflexivity. }
  split; [apply digits_only_digits|].
  split.
  { unfold OrderCreate.act_digits, OrderCreate.actInput_input.
    cbn [OrderCreate.actInput OrderCreate.set_actInput].
    now rewrite digits_only_idem. }
  split.
  { unfold OrderCreate.actInput_input, OrderCreate.set_actInput.
    cbn [OrderCreate.actInput OrderCreate.companyId OrderCreate.seriesSelect
         OrderCreate.lastActQueryKey OrderCreate.deletedImages
         OrderCreate.fields OrderCreate.city_options OrderCreate.phoneMask
         OrderCreate.rendered_photos OrderCreate.prefillData
         OrderCreate.isSubmitting OrderCreate.events].
    now rewrite digits_only_idem. }
  unfold OrderCreate.actInput_paste.
  cbn [fst snd OrderCreate.actInput OrderCreate.set_actInput].
  split.
  { intros Hd. apply all_digits_app; [now apply all_digits_substring|].
    apply all_digits_app; [apply digits_only_digits|].
    now apply all_digits_substring. }
  split; [|reflexivity].
  intros Hs. split.
  { rewrite !length_append, !length_substring. lia. }
  set (cur := OrderCreate.actInput st) in *.
  set (d := JS.digits_only text).
  assert (L : String.length (substring 0 selectionStart cur) = selectionStart)
    by (rewrite length_substring; lia).
  set (a := substring 0 selectionStart cur) in *.
  rewrite <- L. apply substring_app_mid.
Qed.

(** On an example: the input listener on a value with letters, and a paste
    over the second character of 005. *)
Lemma act_field_digits_only_witness :
  all_digits (OrderCreate.actInput example_order)
  /\ (1 <= 2 <= String.length (OrderCreate.actInput example_order))%nat
  /\ OrderCreate.actInput
       (OrderCreate.actInput_input
          (OrderCreate.set_actInput "a1b02" example_order)) = "102"
  /\ all_digits
       (OrderCreate.actInput
          (OrderCreate.actInput_input
             (OrderCreate.set_actInput "a1b02" example_order)))
  /\ OrderCreate.actInput
       (fst (OrderCreate.actInput_paste "a7-1" 1 2 example_order))
     = "0715"
  /\ all_digits
       (OrderCreate.actInput
          (fst (OrderCreate.actInput_paste "a7-1" 1 2 example_order))).
Proof.
  assert (H1 : all_digits (OrderCreate.actInput example_order))
    by (repeat constructor).
  assert (H2 : (1 <= 2
                <= String.length (OrderCreate.actInput example_order))%nat)
    by (simpl; lia).
  split; [exact H1|]. split; [exact H2|]. split; [reflexivity|].
  split.
  { exact (proj1 (proj2
      (act_field_digits_only "0"%char "" 0 0
         (OrderCreate.set_actInput "a1b02" example_order)))). }
  split; [reflexivity|].
  destruct (act_field_digits_only "0"%char "a7-1" 1 2 example_order)
    as (_ & _ & _ & _ & P & _).
  exact (P H1).
Defined.

(** The year of a registry number is the latest year, not after the
    current one, that ends in the two digits of the number: when the second
    part of the number, between its hyphens, reads as [t] with [t] from 0 to
    99, and the current year is in this century, the year found ends in
    [t], is at most the current year and is less than 100 years back. *)
Theorem registry_year_window (regNum part : string) (t currentYear : Z) :
  nth_error (URLSearchParams.split_on "-" regNum) 1 = Some part ->
  JS.parseInt part = Some t ->
  0 <= t <= 99 ->
  2000 <= currentYear <= 2099 ->
  let y := OrderCreate.getFullYearFromRegistryNumber regNum currentYear in
  currentYear - 100 < y <= currentYear /\ y mod 100 = t.
Proof.
  intros Hp Ht Ht' Hc y. subst y.
  unfold OrderCreate.getFullYearFromRegistryNumber. rewrite Hp, Ht.
  assert (R : Z.rem currentYear 100 = currentYear - 2000).
  { rewrite Z.rem_mod_nonneg by lia.
    symmetry. apply (Z.mod_unique_pos _ _ 20). lia. lia. }
  rewrite R.
  destruct (Z.leb_spec t (currentYear - 2000)).
  - split; [lia|]. symmetry. apply (Z.mod_unique_pos _ _ 20); lia.
  - split; [lia|]. symmetry. apply (Z.mod_unique_pos _ _ 19); lia.
Qed.

(** On an example: the registry number 12345-96 in 2024. *)
Lemma registry_year_window_witness :
  nth_error (URLSearchParams.split_on "-" "12345-96") 1 = Some "96"
  /\ JS.parseInt "96" = Some 96
  /\ 0 <= 96 <= 99
  /\ 2000 <= 2024 <= 2099
  /\ OrderCreate.getFullYearFromRegistryNumber "12345-96" 2024 = 1996
  /\ 2024 - 100
     < OrderCreate.getFullYearFromRegistryNumber "12345-96" 2024 <= 2024.
Proof.
  assert (H1 : nth_error (URLSearchParams.split_on "-" "12345-96") 1
               = Some "96") by reflexivity.
  assert (H2 : JS.parseInt "96" = Some 96) by reflexivity.
  assert (H3 : 0 <= 96 <= 99) by lia.
  assert (H4 : 2000 <= 2024 <= 2099) by lia.
  repeat (split; [assumption|]). split; [reflexivity|].
  exact (proj1 (registry_year_window "12345-96" "96" 96 2024 H1 H2 H3 H4)).
Defined.

(** After the verification date loses the focus, a date that is still in
    the field is the one that was there, and when it has three parts and
    its year reads as [y], the year is not after the current year and, with
    a registry number known, not before the year of the registry number:
    any other such date has been cleared. *)
Theorem verificationDate_blur_year
  (currentYear : Z) (registry_number : option string)
  (st : OrderCreate.state) (v : string) (y : Z) :
  OrderCreate.fields
    (OrderCreate.verificationDate_blur currentYear registry_number st)
    !! "verification_date" = Some v ->
  v <> "" ->
  length (URLSearchParams.split_on "-" v) = 3%nat ->
  JS.parseInt (List.hd "" (URLSearchParams.split_on "-" v)) = Some y ->
  OrderCreate.fields st !! "verification_date" = Some v
  /\ y <= currentYear
  /\ forall regNum,
       OrderCreate.truthy_str registry_number = Some regNum ->
       OrderCreate.getFullYearFromRegistryNumber regNum currentYear <= y.
Proof.
  unfold OrderCreate.verificationDate_blur.
  destruct (OrderCreate.fields st !! "verification_date") as [value|] eqn:F.
  2:{ intros H. rewrite F in H. discriminate. }
  destruct (String.eqb_spec value "") as [->|Hne].
  { intros H Hv. rewrite F in H. now injection H as <-. }
  destruct (Nat.eqb_spec (length (URLSearchParams.split_on "-" value)) 3)
    as [L3|L3]; cbn [negb].
  2:{ intros H _ L. rewrite F in H. injection H as <-. contradiction. }
  assert (C : forall m s,
    OrderCreate.fields
      (OrderCreate.set_fields
         (<["verification_date" := ""]> (OrderCreate.fields s))
         (OrderCreate.emit (OrderCreate.EAlert m) s))
      !! "verification_date" = Some "").
  { intros m s. cbn [OrderCreate.fields OrderCreate.set_fields].
    apply lookup_insert_eq. }
  destruct (JS.parseInt (List.hd "" (URLSearchParams.split_on "-" value)))
    as [vy|] eqn:P.
  - destruct (Z.ltb_spec currentYear vy) as [Hgt|Hle].
    + destruct (OrderCreate.truthy_str registry_number) as [r|].
      * destruct (vy <? _); intros H Hv; rewrite C in H;
          now injection H as <-.
      * intros H Hv. rewrite C in H. now injection H as <-.
    + destruct (OrderCreate.truthy_str registry_number) as [r|] eqn:T.
      * destruct (Z.ltb_spec vy
                    (OrderCreate.getFullYearFromRegistryNumber r
                       currentYear)) as [Hlt|Hge].
        { intros H Hv. rewrite C in H. now injection H as <-. }
        intros H Hv _ Py. rewrite F in H. injection H as <-.
        rewrite P in Py. injection Py as <-.
        repeat split; [exact Hle|]. intros regNum [= <-]. exact Hge.
      * intros H Hv _ Py. rewrite F in H. injection H as <-.
        rewrite P in Py. injection Py as <-.
        repeat split; [exact Hle|]. intros regNum [=].
  - destruct (OrderCreate.truthy_str registry_number);
      intros H Hv _ Py; rewrite F in H; injection H as <-;
      rewrite P in Py; discriminate.
Qed.

(** On an example: a date of 2020 stays with a registry number of 2016, and
    is cleared with one of 2021. *)
Lemma verificationDate_blur_year_witness :
  let st :=
    OrderCreate.set_fields
      (<["verification_date" := "2020-05-17"]>
         (OrderCreate.fields example_order)) example_order in
  OrderCreate.fields
    (OrderCreate.verificationDate_blur 2024 (Some "12345-16") st)
    !! "verification_date" = Some "2020-05-17"
  /\ "2020-05-17" <> ""
  /\ length (URLSearchParams.split_on "-" "2020-05-17") = 3%nat
  /\ JS.parseInt (List.hd "" (URLSearchParams.split_on "-" "2020-05-17"))
     = Some 2020
  /\ 2020 <= 2024
  /\ OrderCreate.fields
       (OrderCreate.verificationDate_blur 2024 (Some "12345-21") st)
       !! "verification_date" = Some "".
Proof.
  intros st.
  assert (H1 : OrderCreate.fields
                 (OrderCreate.verificationDate_blur 2024 (Some "12345-16") st)
                 !! "verification_date" = Some "2020-05-17")
    by (vm_compute; reflexivity).
  assert (H2 : "2020-05-17" <> "") by discriminate.
  assert (H3 : length (URLSearchParams.split_on "-" "2020-05-17") = 3%nat)
    by reflexivity.
  assert (H4 : JS.parseInt
                 (List.hd "" (URLSearchParams.split_on "-" "2020-05-17"))
               = Some 2020) by reflexivity.
  repeat (split; [assumption|]).
  split; [|vm_compute; reflexivity].
  exact (proj1 (proj2 (verificationDate_blur_year 2024 (Some "12345-16") st
                         "2020-05-17" 2020 H1 H2 H3 H4))).
Defined.

(** ** The order-create form: the act-number query and the submission *)

(** The act-number query and the submit handler accept the same act
    numbers.  The query sends its request exactly when a series is selected
    and the number in the field passes the check of the submit handler; the
    request is then the only effect, for the number the submit handler would
    send, and its key is remembered.  Otherwise no request is sent, the
    remembered key stays, and the photos are cleared.  In both cases the
    list of deleted images is emptied. *)
Theorem act_number_checks_agree (st : OrderCreate.state) :
  let r := OrderCreate.queryActNumber_start st in
  let series := default "" (OrderCreate.seriesSelect st) in
  OrderCreate.deletedImages (fst r) = []
  /\ match snd r with
     | Some key =>
         series <> "" /\ act_invalid st = false
         /\ exists n,
              OrderCreate.actNum st = Some n
              /\ key = series +:+ ":" +:+ JS.string_of_Z n
              /\ OrderCreate.lastActQueryKey (fst r) = Some key
              /\ OrderCreate.events (fst r)
                 = OrderCreate.events st
                   ++ [OrderCreate.EFetch "GET"
                         (OrderCreate.act_endpoint +:+ "?"
                          +:+ URLSearchParams.toString
                                [ ("company_id",
                                   JS.String_ (OrderCreate.companyId st));
                                  ("series_id", series);
                                  ("act_number", JS.string_of_Z n) ])]
     | None =>
         (series = "" \/ act_invalid st = true)
         /\ OrderCreate.lastActQueryKey (fst r)
            = OrderCreate.lastActQueryKey st
         /\ OrderCreate.rendered_photos (fst r) = []
         /\ (OrderCreate.events (fst r) = OrderCreate.events st
             \/ exists m,
                  OrderCreate.events (fst r)
                  = OrderCreate.events st ++ [OrderCreate.EAlert m])
     end.
Proof.
  intros r series. subst r.
  unfold OrderCreate.queryActNumber_start, act_invalid, OrderCreate.actNum.
  change (OrderCreate.act_digits (OrderCreate.set_deletedImages [] st))
    with (OrderCreate.act_digits st).
  change (default "" (OrderCreate.seriesSelect
                        (OrderCreate.set_deletedImages [] st)))
    with series.
  assert (B : OrderCreate.INT_MAX < 2 ^ 1024 - 2 ^ 970) by reflexivity.
  destruct (String.eqb_spec series "") as [E|E].
  { cbn. repeat split; eauto. }
  destruct (String.eqb (OrderCreate.act_digits st) "").
  { cbn. repeat split; eauto. }
  destruct (JS.parseInt (OrderCreate.act_digits st)) as [n|].
  2:{ cbn. repeat split; eauto. }
  unfold OrderCreate.isFinite.
  destruct (Z.ltb_spec n (2 ^ 1024 - 2 ^ 970)) as [Hf|Hf]; cbn [negb orb].
  2:{ cbn [fst snd]. split; [reflexivity|]. split.
      - right. apply orb_true_iff. right. apply Z.ltb_lt. lia.
      - cbn. repeat split; eauto. }
  destruct (Z.ltb_spec n 1) as [H1|H1].
  { cbn. repeat split; eauto. }
  destruct (Z.ltb_spec OrderCreate.INT_MAX n) as [H2|H2].
  { cbn [fst snd]. split; [reflexivity|]. split; [now right|].
    cbn. repeat split; eauto. }
  cbn [fst snd orb]. split; [reflexivity|]. split; [exact E|].
  split; [reflexivity|]. exists n. repeat split.
Qed.

Section ActFrame.
Import OrderCreate.

Lemma writes_only_refl names st : writes_only names st st.
Proof. intros k. split; [tauto|easy]. Qed.

Lemma writes_only_trans names a b c :
  writes_only names a b -> writes_only names b c -> writes_only names a c.
Proof.
  intros H1 H2 k. destruct (H1 k) as [A1 A2], (H2 k) as [B1 B2].
  split; [tauto|]. intros Hk. now rewrite B2, A2.
Qed.

Lemma writes_only_insert names id v st :
  In id names -> is_Some (fields st !! id) ->
  writes_only names st (set_fields (<[id := v]> (fields st)) st).
Proof.
  intros Hin Hs k. cbn [fields set_fields]. split.
  - destruct (decide (id = k)) as [<-|Hne].
    + rewrite lookup_insert_eq. split; [now intros _|eauto].
    + now rewrite lookup_insert_ne.
  - intros Hk. apply lookup_insert_ne. now intros <-.
Qed.

Lemma writes_only_same names a b :
  fields b = fields a -> writes_only names a b.
Proof. intros E k. rewrite E. split; [tauto|easy]. Qed.

Lemma setIf_writes names id val st :
  In id names -> writes_only names st (setIf id val st).
Proof.
  intros Hin. unfold setIf.
  destruct (fields st !! id) as [x|] eqn:F; [|apply writes_only_refl].
  destruct val as [v|]; [|apply writes_only_refl].
  apply writes_only_insert; [exact Hin|]. rewrite F. eauto.
Qed.

Lemma fill_writes a b c d e f st :
  writes_only act_controls st (fill a b c d e f st).
Proof.
  unfold fill.
  set (st1 := setIf "address" b (setIf "client_full_name" a st)).
  assert (W1 : writes_only act_controls st st1).
  { eapply writes_only_trans; apply setIf_writes; cbn; tauto. }
  set (st2 := match truthy_str c with
              | Some p => set_phoneMask p st1
              | None => st1
              end).
  assert (W2 : writes_only act_controls st st2).
  { eapply writes_only_trans; [exact W1|]. subst st2.
    destruct (truthy_str c); [now apply writes_only_same|]
    ; apply writes_only_refl. }
  set (st3 := match truthy_str d with
              | Some x => setIf "verification_date" (Some x) st2
              | None => st2
              end).
  assert (W3 : writes_only act_controls st st3).
  { eapply writes_only_trans; [exact W2|]. subst st3.
    destruct (truthy_str d); [|apply writes_only_refl].
    apply setIf_writes. cbn. tauto. }
  set (st4 := setIf "legal_entity" e st3).
  assert (W4 : writes_only act_controls st st4).
  { eapply writes_only_trans; [exact W3|]. apply setIf_writes. cbn. tauto. }
  destruct f as [x|]; [|exact W4].
  destruct (fields st4 !! "city_id") as [old|] eqn:F; [|exact W4].
  destruct (existsb _ _); [|exact W4].
  eapply writes_only_trans; [exact W4|].
  apply writes_only_insert; [cbn; tauto|]. rewrite F. eauto.
Qed.

Lemma fill_frame a b c d e f st :
  seriesSelect (fill a b c d e f st) = seriesSelect st
  /\ actInput (fill a b c d e f st) = actInput st
  /\ deletedImages (fill a b c d e f st) = deletedImages st
  /\ isSubmitting (fill a b c d e f st) = isSubmitting st
  /\ events (fill a b c d e f st) = events st.
Proof.
  unfold fill, setIf.
  repeat match goal with
         | |- context [match ?x with _ => _ end] => destruct x
         | |- context [if ?x then _ else _] => destruct x
         end; repeat split.
Qed.

Lemma fill_phone a b c d e f st :
  phoneMask (fill a b c d e f st) = phoneMask st
  \/ phoneMask (fill a b c d e f st) <> "".
Proof.
  unfold fill, setIf, truthy_str.
  destruct c as [p|]; [destruct (String.eqb_spec p "")|];
    repeat match goal with
           | |- context [match ?x with _ => _ end] => destruct x
           | |- context [if ?x then _ else _] => destruct x
           end; cbn; tauto.
Qed.

End ActFrame.

(** The end of an act-number query only fills the form.  Whatever the
    outcome, no form control appears or disappears and only the name, the
    address, the phone, the verification date, the legal entity and the city
    can change their value, where the phone is written through its mask and
    only with a phone that is not empty; the series, the act-number field,
    the deleted images and the busy flag of the form are as before, no
    request is sent and no alert is shown: the only possible effect is a
    console message. *)
Theorem act_response_frame
  (queryKey : string) (o : outcome (option OrderCreate.act_data))
  (st : OrderCreate.state) :
  let st' := OrderCreate.queryActNumber_resume queryKey o st in
  writes_only act_controls st st'
  /\ (OrderCreate.phoneMask st' = OrderCreate.phoneMask st
      \/ OrderCreate.phoneMask st' <> "")
  /\ OrderCreate.seriesSelect st' = OrderCreate.seriesSelect st
  /\ OrderCreate.actInput st' = OrderCreate.actInput st
  /\ OrderCreate.deletedImages st' = OrderCreate.deletedImages st
  /\ OrderCreate.isSubmitting st' = OrderCreate.isSubmitting st
  /\ exists es,
       OrderCreate.events st' = OrderCreate.events st ++ es
       /\ forallb is_console es = true.
Proof.
  intros st'. subst st'.
  set (P := fun s' : OrderCreate.state =>
    writes_only act_controls st s'
    /\ (OrderCreate.phoneMask s' = OrderCreate.phoneMask st
        \/ OrderCreate.phoneMask s' <> "")
    /\ OrderCreate.seriesSelect s' = OrderCreate.seriesSelect st
    /\ OrderCreate.actInput s' = OrderCreate.actInput st
    /\ OrderCreate.deletedImages s' = OrderCreate.deletedImages st
    /\ OrderCreate.isSubmitting s' = OrderCreate.isSubmitting st
    /\ exists es,
         OrderCreate.events s' = OrderCreate.events st ++ es
         /\ forallb is_console es = true).
  change (P (OrderCreate.queryActNumber_resume queryKey o st)).
  assert (G : forall a b c d e f l s,
    P s -> P (OrderCreate.renderActPhotos l (OrderCreate.fill a b c d e f s))).
  { intros a b c d e f l s (W & Ph & A1 & A2 & A3 & A4 & A5).
    destruct (fill_frame a b c d e f s) as (B1 & B2 & B3 & B4 & B5).
    pose proof (fill_phone a b c d e f s) as B6.
    unfold P.
    cbn [OrderCreate.renderActPhotos OrderCreate.seriesSelect
         OrderCreate.actInput OrderCreate.deletedImages
         OrderCreate.isSubmitting OrderCreate.events OrderCreate.phoneMask].
    rewrite B1, B2, B3, B4, B5.
    split; [|split; [|split; [exact A1|split; [exact A2|split; [exact A3|
              split; [exact A4|exact A5]]]]]].
    - eapply writes_only_trans; [exact W|].
      eapply writes_only_trans; [apply fill_writes|].
      now apply writes_only_same.
    - destruct B6 as [B6|B6]; [rewrite B6; exact Ph|now right]. }
  assert (F : forall s,
    P s -> P (OrderCreate.renderActPhotos []
                (OrderCreate.fillFromOrderForActNumber s))).
  { intros s Hs. unfold OrderCreate.fillFromOrderForActNumber.
    destruct (OrderCreate.prefillData s) as [p|]; [now apply G|].
    destruct Hs as (W & Ph & A1 & A2 & A3 & A4 & A5).
    split; [|split; [exact Ph|split; [exact A1|split; [exact A2|
              split; [exact A3|split; [exact A4|exact A5]]]]]].
    eapply writes_only_trans; [exact W|]. now apply writes_only_same. }
  assert (P0 : P st).
  { split; [apply writes_only_refl|]. split; [now left|].
    do 4 (split; [reflexivity|]).
    exists []. now rewrite app_nil_r. }
  unfold OrderCreate.queryActNumber_resume.
  destruct o as [m|status statusText body json].
  - apply F. split; [now apply writes_only_same|]. split; [now left|].
    do 4 (split; [reflexivity|]). eexists. split; reflexivity.
  - destruct (status_ok status); [|now apply F].
    destruct (bool_decide _); cbn [negb]; [|exact P0].
    destruct (default None json) as [data|]; [|now apply F].
    destruct (bool_decide _); [now apply F|now apply G].
Qed.

Section Retry.
Import OrderCreate.

(** The effects of a submission depend on the page only through the tenant,
    the act-number field, the form controls, the deleted images and the busy
    flag. *)
Lemma submit_start_events sub a b :
  isSubmitting a = false -> isSubmitting b = false ->
  companyId b = companyId a -> actInput b = actInput a ->
  fields b = fields a -> deletedImages b = deletedImages a ->
  exists es,
    events (submit_start sub a) = events a ++ es
    /\ events (submit_start sub b) = events b ++ es.
Proof.
  destruct a as [c1 s1 a1 k1 d1 f1 o1 p1 r1 pf1 i1 e1],
           b as [c2 s2 a2 k2 d2 f2 o2 p2 r2 pf2 i2 e2].
  cbn [isSubmitting companyId actInput fields deletedImages events].
  intros -> -> -> -> -> ->.
  unfold submit_start, actNum, act_digits, payload.
  cbn [isSubmitting]. 
  destruct (negb _).
  { cbn. eauto. }
  destruct (Z.of_nat (String.length (unmaskedValue sub)) <=? 2);
    cbn [fields set_phoneMask actInput companyId deletedImages];
    (destruct (negb _ && _); [cbn; eauto|]);
    (destruct (negb _); [cbn; eauto|]);
    (destruct (String.eqb _ ""); [cbn; eauto|]);
    (destruct (JS.parseInt _) as [n|]; [|cbn; eauto]);
    (destruct (n <? 1); [cbn; eauto|]);
    (destruct (INT_MAX <? n); cbn; eauto).
Qed.

End Retry.

(** A submission ends in one of two ways.  When the server answers with a
    success status and [status: ok], the page goes to the URL of the reply
    and the form stays busy.  In every other case, a failed request, an
    error status or an unexpected body, the page stays, one alert is shown,
    and the form is released.  Its controls are then as they were but for
    the phone: a phone of at most 2 digits was emptied when the submission
    started, and stays empty.  The same submission can be sent again, and
    sending it again has the effects of the first time. *)
Theorem submit_failure_allows_retry
  (sub : OrderCreate.submission) (o : outcome (option OrderCreate.create_reply))
  (st0 : OrderCreate.state) :
  OrderCreate.isSubmitting st0 = false ->
  let st1 := OrderCreate.submit_start sub st0 in
  let r := OrderCreate.submit_resume o st1 in
  match snd r with
  | Some url =>
      fst r = st1
      /\ ok_response o
      /\ exists statusText body status d,
           o = Response status statusText body (Some (Some d))
           /\ OrderCreate.cr_status d = Some "ok"
           /\ url = OrderCreate.redirect_url d st1
  | None =>
      OrderCreate.isSubmitting (fst r) = false
      /\ OrderCreate.fields (fst r) = OrderCreate.fields st0
      /\ OrderCreate.actInput (fst r) = OrderCreate.actInput st0
      /\ OrderCreate.phoneMask (fst r)
         = (if Z.of_nat (String.length (OrderCreate.unmaskedValue sub)) <=? 2
            then "" else OrderCreate.phoneMask st0)
      /\ (exists log msg,
            forallb is_console log = true
            /\ OrderCreate.events (fst r)
               = OrderCreate.events st1 ++ log ++ [OrderCreate.EAlert msg])
      /\ exists es,
           OrderCreate.events st1 = OrderCreate.events st0 ++ es
           /\ OrderCreate.events (OrderCreate.submit_start sub (fst r))
              = OrderCreate.events (fst r) ++ es
  end.
Proof.
  intros Hb st1 r.
  assert (K : OrderCreate.companyId st1 = OrderCreate.companyId st0
              /\ OrderCreate.actInput st1 = OrderCreate.actInput st0
              /\ OrderCreate.fields st1 = OrderCreate.fields st0
              /\ OrderCreate.deletedImages st1
                 = OrderCreate.deletedImages st0
              /\ OrderCreate.phoneMask st1
                 = (if Z.of_nat
                         (String.length (OrderCreate.unmaskedValue sub))
                       <=? 2
                    then "" else OrderCreate.phoneMask st0)).
  { subst st1. unfold OrderCreate.submit_start. rewrite Hb.
    destruct (Z.of_nat (String.length (OrderCreate.unmaskedValue sub)) <=? 2);
      cbn [orb negb];
      repeat match goal with
             | |- context [match ?x with _ => _ end] => destruct x
             | |- context [if ?x then _ else _] => destruct x
             end; repeat split. }
  destruct K as (K1 & K2 & K3 & K4 & K5).
  assert (G : forall s,
    OrderCreate.isSubmitting s = false ->
    OrderCreate.companyId s = OrderCreate.companyId st1 ->
    OrderCreate.actInput s = OrderCreate.actInput st1 ->
    OrderCreate.fields s = OrderCreate.fields st1 ->
    OrderCreate.deletedImages s = OrderCreate.deletedImages st1 ->
    exists es,
      OrderCreate.events st1 = OrderCreate.events st0 ++ es
      /\ OrderCreate.events (OrderCreate.submit_start sub s)
         = OrderCreate.events s ++ es).
  { intros s S1 S2 S3 S4 S5.
    apply (submit_start_events sub st0 s Hb S1); congruence. }
  subst r. unfold OrderCreate.submit_resume.
  destruct o as [m|status statusText body json].
  - cbn [fst snd]. split; [reflexivity|].
    split; [exact K3|]. split; [exact K2|]. split; [exact K5|]. split.
    + exists [OrderCreate.EConsoleError ("Ошибка при отправке формы: " +:+ m)],
        "Сеть недоступна или сервер временно недоступен.".
      split; [reflexivity|]. cbn. now rewrite <- app_assoc.
    + apply G; reflexivity.
  - destruct (status_ok status) eqn:Ok; cbn [negb].
    + destruct (default None json) as [d|] eqn:D.
      * destruct (bool_decide (OrderCreate.cr_status d = Some "ok")) eqn:S.
        { cbn [fst snd]. split; [reflexivity|]. split; [exact Ok|].
          exists statusText, body, status, d.
          apply bool_decide_eq_true in S.
          destruct json as [[x|]|]; try discriminate D.
          cbn in D. injection D as ->. now repeat split. }
        cbn [fst snd]. split; [reflexivity|].
        split; [exact K3|]. split; [exact K2|]. split; [exact K5|]. split.
        { exists [], "Неожиданный ответ сервера.". now split. }
        apply G; reflexivity.
      * cbn [fst snd]. split; [reflexivity|].
        split; [exact K3|]. split; [exact K2|]. split; [exact K5|]. split.
        { exists [], "Неожиданный ответ сервера.". now split. }
        apply G; reflexivity.
    + cbn [fst snd]. split; [reflexivity|].
      split; [exact K3|]. split; [exact K2|]. split; [exact K5|]. split.
      * eexists [_], _. split; [|cbn; rewrite <- app_assoc; reflexivity].
        reflexivity.
      * apply G; reflexivity.
Qed.

(** On an example: a response with status 500. *)
Lemma submit_failure_allows_retry_witness :
  let st1 := OrderCreate.submit_start example_submission example_order in
  let st2 :=
    fst (OrderCreate.submit_resume
           (Response 500 "Internal Server Error" "" None) st1) in
  OrderCreate.isSubmitting example_order = false
  /\ OrderCreate.isSubmitting st1 = true
  /\ OrderCreate.isSubmitting st2 = false
  /\ exists es,
       OrderCreate.events st1 = OrderCreate.events example_order ++ es
       /\ OrderCreate.events (OrderCreate.submit_start example_submission st2)
          = OrderCreate.events st2 ++ es.
Proof.
  intros st1 st2.
  assert (H : OrderCreate.isSubmitting example_order = false) by reflexivity.
  split; [exact H|]. split; [reflexivity|].
  destruct (submit_failure_allows_retry example_submission
              (Response 500 "Internal Server Error" "" None)
              example_order H) as (I & _ & _ & _ & _ & E).
  split; [exact I|exact E].
Defined.
